(** * crypto_candles: exchange adapters and the canonical candle record

    A shallow embedding of [src/crypto_candles] (the [Candle] dataclass,
    the [BaseExchange] contract and its nine adapters) together with the
    properties stated about them.

    Layout:
    - Python values, exceptions and the built-in operations the adapters
      apply to a decoded JSON payload ([float], [int], [/], indexing,
      iteration, [str.replace], [sorted], ...);
    - the platform (remote servers, local time zone) and the monad that
      threads the log of HTTP requests;
    - [models/candle.py], [exchanges/base.py] and one module per adapter;
    - [utils/timeframes.py] with the [timedelta] arithmetic it uses, and
      [storage/s3_storage.py] over the answers of [pandas] and [boto3];
    - the theorems.

    A string is a sequence of characters with code points 0 to 255 (the
    Latin-1 range); the other code points of a Python [str] are outside
    the model. [float] and [int] are modelled on every such text. [upper]
    and [lower] are [str.upper] and [str.lower] on ASCII text only (Python
    also maps the letters beyond ASCII, some of them out of this range),
    and the properties that depend on them are stated for ASCII text. *)

From Stdlib Require Import ZArith List String Ascii Bool Lia.
From Stdlib Require Import Sorting.Sorted Sorting.Permutation.
From Stdlib Require Import Floats.PrimFloat Floats.FloatOps Floats.SpecFloat.
From Stdlib Require Uint63.
Import ListNotations.

Local Open Scope string_scope.
Local Open Scope Z_scope.

(** ** Python values

    What [response.json()] can return, which is also what the adapters
    hand to [float], [int] and [datetime.fromtimestamp]. A [dict] keeps
    its insertion order, so it is an association list; lookup takes the
    first binding of a key. *)

#[local] Set Warnings "-register-all".

Inductive pyval : Type :=
| PyNone
| PyBool (b : bool)
| PyInt (n : Z)
| PyFloat (f : float)
| PyStr (s : string)
| PyList (l : list pyval)
| PyDict (d : list (string * pyval)).

(** The nine adapters. *)
Inductive adapter : Type :=
| Binance | Bitget | Bybit | CryptoCom | Foxbit
| MercadoBitcoin | MEXC | Novadax | OKX.

(** ** Exceptions

    Every class below derives from [Exception]. [APIError a] stands for
    the error class an adapter module declares ([BinanceAPIError],
    [CryptoComAPIError], ...). [RequestException] covers the whole
    [requests.exceptions] hierarchy. *)

Inductive exn_class : Type :=
| KeyError | IndexError | TypeError | ValueError | AttributeError
| OverflowError | OSError
| RequestException
| OtherException
| APIError (a : adapter).

(** An exception object: its class and [str(e)]. *)
Record exn : Type := Exn { exn_cls : exn_class; exn_msg : string }.

Inductive result (A : Type) : Type :=
| Ok (a : A)
| Raise (e : exn).
Arguments Ok {A} a.
Arguments Raise {A} e.

Definition adapter_eqb (a b : adapter) : bool :=
  match a, b with
  | Binance, Binance | Bitget, Bitget | Bybit, Bybit
  | CryptoCom, CryptoCom | Foxbit, Foxbit
  | MercadoBitcoin, MercadoBitcoin | MEXC, MEXC
  | Novadax, Novadax | OKX, OKX => true
  | _, _ => false
  end.

Definition is_RequestException (c : exn_class) : bool :=
  match c with RequestException => true | _ => false end.

Definition is_APIError (a : adapter) (c : exn_class) : bool :=
  match c with APIError a' => adapter_eqb a a' | _ => false end.

(** [except Exception]: every class of the model. *)
Definition is_Exception (c : exn_class) : bool := true.

(** The error monad of pure code. *)
Definition rbind {A B} (r : result A) (k : A -> result B) : result B :=
  match r with
  | Ok a => k a
  | Raise e => Raise e
  end.

Declare Scope result_scope.
Delimit Scope result_scope with res.
Notation "x <- r ;; k" := (rbind r (fun x => k))
  (at level 61, r at next level, right associativity) : result_scope.

Definition throw {A} (c : exn_class) (msg : string) : result A :=
  Raise (Exn c msg).

(** A [for] loop that builds a list and stops at the first exception. *)
Fixpoint mapR {A B} (f : A -> result B) (l : list A) : result (list B) :=
  match l with
  | [] => Ok []
  | x :: l' =>
      (y <- f x ;;
       ys <- mapR f l' ;;
       Ok (y :: ys))%res
  end.

(** ** Strings *)

Definition ascii_of_Z (z : Z) : ascii := ascii_of_N (Z.to_N z).
Definition Z_of_ascii (c : ascii) : Z := Z.of_N (N_of_ascii c).

Definition in_range (lo hi : Z) (c : ascii) : bool :=
  (lo <=? Z_of_ascii c) && (Z_of_ascii c <=? hi).

Definition is_digit (c : ascii) : bool := in_range 48 57 c.

Definition ascii_upper (c : ascii) : ascii :=
  if in_range 97 122 c then ascii_of_Z (Z_of_ascii c - 32) else c.

Definition ascii_lower (c : ascii) : ascii :=
  if in_range 65 90 c then ascii_of_Z (Z_of_ascii c + 32) else c.

Fixpoint str_map (f : ascii -> ascii) (s : string) : string :=
  match s with
  | EmptyString => EmptyString
  | String c s' => String (f c) (str_map f s')
  end.

(** [s.isascii()]. *)
Definition isascii (s : string) : bool :=
  forallb (in_range 0 127) (list_ascii_of_string s).

(** [s.upper()] and [s.lower()] for an ASCII text [s]: the letters [a] to
    [z], respectively [A] to [Z], are the only ones such a text has to
    map. *)
Definition upper (s : string) : string := str_map ascii_upper s.
Definition lower (s : string) : string := str_map ascii_lower s.

(** [s.replace(old, new)] for a non-empty [old]: occurrences are replaced
    from left to right and do not overlap. [skip] counts the characters
    of a match that are still to be dropped. *)
Fixpoint replace_from (old new : string) (skip : nat) (s : string) : string :=
  match s with
  | EmptyString => EmptyString
  | String c s' =>
      match skip with
      | S k => replace_from old new k s'
      | O =>
          if prefix old s
          then new ++ replace_from old new (String.length old - 1) s'
          else String c (replace_from old new 0 s')
      end
  end.

(** With an empty [old], Python inserts [new] before every character and
    at the end. *)
Fixpoint interleave (new s : string) : string :=
  match s with
  | EmptyString => new
  | String c s' => new ++ String c (interleave new s')
  end.

Definition replace (old new s : string) : string :=
  match old with
  | EmptyString => interleave new s
  | _ => replace_from old new 0 s
  end.

(** [s.endswith(suffix)]. *)
Definition endswith (s suffix : string) : bool :=
  (String.length suffix <=? String.length s)%nat &&
  (substring (String.length s - String.length suffix) (String.length suffix) s
   =? suffix)%string.

(** Decimal digits of a field of fixed width, as [%0wd] prints a number
    below [10^w]. *)
Fixpoint zpad (w : nat) (n : Z) : string :=
  match w with
  | O => EmptyString
  | S w' => zpad w' (n / 10) ++ String (ascii_of_Z (48 + n mod 10)) EmptyString
  end.

(** The decimal digits of a natural number, without padding. *)
Fixpoint decimal_digits (fuel : nat) (n : Z) : string :=
  match fuel with
  | O => EmptyString
  | S k =>
      (if n <? 10 then EmptyString else decimal_digits k (n / 10))
        ++ String (ascii_of_Z (48 + n mod 10)) EmptyString
  end.

Definition decimal (n : Z) : string :=
  decimal_digits (S (Z.to_nat (Z.log2 n))) n.

(** ** Numbers *)

(** The binary64 number nearest to [n / d] for positive [n] and [d], ties
    to even; [infinity] above the range. The quotient is cut to 53 bits
    (fewer in the subnormal range) and the remainder decides the last
    bit. *)
Definition round_ratio (n d : Z) : float :=
  let l := Z.log2 n - Z.log2 d in
  let e1 := l - 52 in
  let e1 := if n * 2 ^ (Z.max 0 (- e1)) <? d * 2 ^ (Z.max 0 e1) * 2 ^ 52
            then e1 - 1 else e1 in
  let e := Z.max e1 (-1074) in
  let num := n * 2 ^ (Z.max 0 (- e)) in
  let den := d * 2 ^ (Z.max 0 e) in
  let q := num / den in
  let r := num mod den in
  let q :=
    match 2 * r ?= den with
    | Lt => q
    | Gt => q + 1
    | Eq => if Z.even q then q else q + 1
    end in
  if (971 <? e) || ((e =? 971) && (2 ^ 53 <=? q)) then infinity
  else Z.ldexp (of_uint63 (Uint63.of_Z q)) e.

(** The same for any sign of the numerator. *)
Definition float_of_ratio (n d : Z) : float :=
  match n with
  | Z0 => zero
  | Zpos _ => round_ratio n d
  | Zneg _ => (- round_ratio (- n) d)%float
  end.

Definition is_finite (f : float) : bool :=
  negb (is_nan f) && negb (is_infinity f).

(** [float(n)] for an [int]. *)
Definition float_of_int (n : Z) : result float :=
  let f := float_of_ratio n 1 in
  if is_finite f then Ok f
  else throw OverflowError "int too large to convert to float".

(** [n / m] for two [int]s, [m] positive. *)
Definition int_truediv (n m : Z) : result float :=
  let f := float_of_ratio n m in
  if is_finite f then Ok f
  else throw OverflowError "integer division result too large for a float".

(** [int(f)] for a [float]: truncation towards zero. *)
Definition int_of_float (f : float) : result Z :=
  match Prim2SF f with
  | S754_zero _ => Ok 0
  | S754_nan => throw ValueError "cannot convert float NaN to integer"
  | S754_infinity _ =>
      throw OverflowError "cannot convert float infinity to integer"
  | S754_finite s m e =>
      let a := if 0 <=? e then Z.pos m * 2 ^ e else Z.pos m / 2 ^ (- e) in
      Ok (if s then - a else a)
  end.

(** *** Numbers written as text

    [float(s)] and [int(s)] strip white space, accept single underscores
    between digits, and must consume the whole text. *)

(** The white space [float] and [int] strip: tab, line feed, vertical
    tab, form feed, carriage return and the space; in a text that is not
    ASCII also U+0085 and U+00A0, which the conversion first turns into
    spaces. (The separators 28 to 31 are white space for [str.strip] but
    not here.) *)
Definition is_space (c : ascii) : bool :=
  in_range 9 13 c || in_range 32 32 c || in_range 133 133 c
  || in_range 160 160 c.

Fixpoint lstrip (s : list ascii) : list ascii :=
  match s with
  | c :: s' => if is_space c then lstrip s' else s
  | [] => []
  end.

Definition strip (s : list ascii) : list ascii :=
  rev (lstrip (rev (lstrip s))).

Definition is_char (a : ascii) (c : ascii) : bool := Ascii.eqb a c.

(** An underscore is allowed only right after a digit and right before
    one; [prev] is the character just read. *)
Fixpoint drop_underscores (prev : ascii) (s : list ascii)
  : option (list ascii) :=
  match s with
  | [] => if is_char "_" prev then None else Some []
  | c :: s' =>
      if is_char "_" c then
        if is_digit prev then drop_underscores c s' else None
      else if is_char "_" prev && negb (is_digit c) then None
      else option_map (cons c) (drop_underscores c s')
  end.

Fixpoint take_digits (s : list ascii) : list ascii * list ascii :=
  match s with
  | c :: s' =>
      if is_digit c
      then let (ds, rest) := take_digits s' in (c :: ds, rest)
      else ([], s)
  | [] => ([], [])
  end.

Definition digits_value (ds : list ascii) : Z :=
  fold_left (fun acc c => acc * 10 + (Z_of_ascii c - 48)) ds 0.

(** An optional sign: [true] for [-]. *)
Definition take_sign (s : list ascii) : bool * list ascii :=
  match s with
  | c :: s' =>
      if is_char "-" c then (true, s')
      else if is_char "+" c then (false, s')
      else (false, s)
  | [] => (false, [])
  end.

Definition lower_chars (s : list ascii) : string :=
  string_of_list_ascii (map ascii_lower s).

(** The optional exponent part [e[+-]digits] closing a decimal number. *)
Definition parse_exponent (s : list ascii) : option Z :=
  match s with
  | [] => Some 0
  | c :: s' =>
      if is_char "e" (ascii_lower c) then
        let (neg, s1) := take_sign s' in
        let (ds, rest) := take_digits s1 in
        match ds, rest with
        | _ :: _, [] =>
            Some (if neg then - digits_value ds else digits_value ds)
        | _, _ => None
        end
      else None
  end.

(** The value [m * 10^e] of a decimal literal with mantissa digits [m],
    correctly rounded; [len] bounds the number of digits of [m]. Beyond
    the exponent range the result is known without computing the
    power. *)
Definition decimal_to_float (m : Z) (len : Z) (e : Z) : float :=
  if m =? 0 then zero
  else if 400 <? e then infinity
  else if e + len <? -400 then zero
  else if 0 <=? e then round_ratio (m * 10 ^ e) 1
  else round_ratio m (10 ^ (- e)).

Definition parse_float (s : string) : option float :=
  match drop_underscores Ascii.zero (strip (list_ascii_of_string s)) with
  | None => None
  | Some cs =>
      let (neg, body) := take_sign cs in
      let signed (f : float) := if neg then (- f)%float else f in
      let word := lower_chars body in
      if (word =? "inf")%string || (word =? "infinity")%string
      then Some (signed infinity)
      else if (word =? "nan")%string then Some nan
      else
        let (ip, r1) := take_digits body in
        let (fp, r2) :=
          match r1 with
          | c :: r => if is_char "." c then take_digits r else ([], r1)
          | [] => ([], [])
          end in
        match (ip ++ fp)%list with
        | [] => None
        | ds =>
            match parse_exponent r2 with
            | None => None
            | Some e =>
                Some (signed (decimal_to_float (digits_value ds)
                                (Z.of_nat (List.length ds))
                                (e - Z.of_nat (List.length fp))))
            end
        end
  end.

Definition parse_int (s : string) : option Z :=
  match drop_underscores Ascii.zero (strip (list_ascii_of_string s)) with
  | None => None
  | Some cs =>
      let (neg, body) := take_sign cs in
      let (ds, rest) := take_digits body in
      match ds, rest with
      | _ :: _, [] =>
          Some (if neg then - digits_value ds else digits_value ds)
      | _, _ => None
      end
  end.

(** ** Built-in operations on values *)

Definition type_name (v : pyval) : string :=
  match v with
  | PyNone => "NoneType"
  | PyBool _ => "bool"
  | PyInt _ => "int"
  | PyFloat _ => "float"
  | PyStr _ => "str"
  | PyList _ => "list"
  | PyDict _ => "dict"
  end.

Definition quoted (s : string) : string := "'" ++ s ++ "'".

Definition Z_of_bool (b : bool) : Z := if b then 1 else 0.

(** [float(v)]. *)
Definition py_float (v : pyval) : result float :=
  match v with
  | PyFloat f => Ok f
  | PyInt n => float_of_int n
  | PyBool b => float_of_int (Z_of_bool b)
  | PyStr s =>
      match parse_float s with
      | Some f => Ok f
      | None =>
          throw ValueError ("could not convert string to float: " ++ quoted s)
      end
  | _ =>
      throw TypeError
        ("float() argument must be a string or a real number, not "
           ++ quoted (type_name v))
  end.

(** [int(v)]. *)
Definition py_int (v : pyval) : result Z :=
  match v with
  | PyInt n => Ok n
  | PyBool b => Ok (Z_of_bool b)
  | PyFloat f => int_of_float f
  | PyStr s =>
      match parse_int s with
      | Some n => Ok n
      | None =>
          throw ValueError
            ("invalid literal for int() with base 10: " ++ quoted s)
      end
  | _ =>
      throw TypeError
        ("int() argument must be a string, a bytes-like object or a real "
           ++ "number, not " ++ quoted (type_name v))
  end.

(** [v / m] for a positive [int] constant [m]. *)
Definition truediv (v : pyval) (m : Z) : result float :=
  match v with
  | PyInt n => int_truediv n m
  | PyBool b => int_truediv (Z_of_bool b) m
  | PyFloat f => Ok (f / float_of_ratio m 1)%float
  | _ =>
      throw TypeError
        ("unsupported operand type(s) for /: " ++ quoted (type_name v)
           ++ " and 'int'")
  end.

(** [d[k]] on a [dict]: the value of the first binding of [k]. *)
Fixpoint lookup (k : string) (d : list (string * pyval)) : option pyval :=
  match d with
  | [] => None
  | (k', v) :: d' => if (k =? k')%string then Some v else lookup k d'
  end.

Definition not_subscriptable {A} (v : pyval) : result A :=
  throw TypeError (quoted (type_name v) ++ " object is not subscriptable").

(** [v[k]] for a [str] key. *)
Definition getitem (v : pyval) (k : string) : result pyval :=
  match v with
  | PyDict d =>
      match lookup k d with
      | Some x => Ok x
      | None => throw KeyError (quoted k)
      end
  | PyList _ =>
      throw TypeError "list indices must be integers or slices, not str"
  | PyStr _ => throw TypeError "string indices must be integers, not 'str'"
  | _ => not_subscriptable v
  end.

(** [v[i]] for an index [i] that is not negative. The keys of a decoded
    JSON object are all [str], so an [int] is never among them. *)
Definition getindex (v : pyval) (i : nat) : result pyval :=
  match v with
  | PyList l =>
      match nth_error l i with
      | Some x => Ok x
      | None => throw IndexError "list index out of range"
      end
  | PyStr s =>
      match String.get i s with
      | Some c => Ok (PyStr (String c EmptyString))
      | None => throw IndexError "string index out of range"
      end
  | PyDict _ => throw KeyError (zpad 1 (Z.of_nat i))
  | _ => not_subscriptable v
  end.

(** The elements a [for] loop over [v] visits: the items of a [list], the
    keys of a [dict], the characters of a [str]. *)
Definition iterate (v : pyval) : result (list pyval) :=
  match v with
  | PyList l => Ok l
  | PyDict d => Ok (map (fun kv => PyStr (fst kv)) d)
  | PyStr s =>
      Ok (map (fun c => PyStr (String c EmptyString)) (list_ascii_of_string s))
  | _ => throw TypeError (quoted (type_name v) ++ " object is not iterable")
  end.

(** [len(v)]. *)
Definition len (v : pyval) : result nat :=
  match v with
  | PyList l => Ok (List.length l)
  | PyDict d => Ok (List.length d)
  | PyStr s => Ok (String.length s)
  | _ =>
      throw TypeError ("object of type " ++ quoted (type_name v)
                         ++ " has no len()")
  end.

Definition no_attribute {A} (v : pyval) (name : string) : result A :=
  throw AttributeError
    (quoted (type_name v) ++ " object has no attribute " ++ quoted name).

(** [v.get(k, default)]. *)
Definition get (v : pyval) (k : string) (default : pyval) : result pyval :=
  match v with
  | PyDict d =>
      Ok (match lookup k d with Some x => x | None => default end)
  | _ => no_attribute v "get"
  end.

(** [v == s] for a [str] constant [s]. *)
Definition eq_str (v : pyval) (s : string) : bool :=
  match v with
  | PyStr s' => (s' =? s)%string
  | _ => false
  end.

(** [v.endswith(suffix)] and [v.replace(old, new)]: methods of [str]
    only. *)
Definition py_endswith (v : pyval) (suffix : string) : result bool :=
  match v with
  | PyStr s => Ok (endswith s suffix)
  | _ => no_attribute v "endswith"
  end.

Definition py_replace (v : pyval) (old new : string) : result string :=
  match v with
  | PyStr s => Ok (replace old new s)
  | _ => no_attribute v "replace"
  end.

(** *** [sorted] on strings

    Python orders [str] by code point, shorter prefixes first; equal
    strings cannot be told apart, so any sort of the list is [sorted]. *)

Fixpoint insert (s : string) (l : list string) : list string :=
  match l with
  | [] => [s]
  | x :: l' => if String.leb s x then s :: l else x :: insert s l'
  end.

Definition sort_strings (l : list string) : list string :=
  fold_right insert [] l.

Fixpoint all_str (l : list pyval) : option (list string) :=
  match l with
  | [] => Some []
  | PyStr s :: l' => option_map (cons s) (all_str l')
  | _ :: _ => None
  end.

Fixpoint all_dict (l : list pyval) : option (list (list (string * pyval))) :=
  match l with
  | [] => Some []
  | PyDict d :: l' => option_map (cons d) (all_dict l')
  | _ :: _ => None
  end.

(** ** [datetime]

    A naive [datetime] is its calendar fields. *)

Record datetime : Type := {
  year : Z; month : Z; day : Z;
  hour : Z; minute : Z; second : Z; microsecond : Z
}.

(** [d.isoformat()]: [YYYY-MM-DDTHH:MM:SS], followed by [.ffffff] when the
    microseconds are not zero. *)
Definition isoformat (d : datetime) : string :=
  zpad 4 (year d) ++ "-" ++ zpad 2 (month d) ++ "-" ++ zpad 2 (day d)
    ++ "T" ++ zpad 2 (hour d) ++ ":" ++ zpad 2 (minute d) ++ ":"
    ++ zpad 2 (second d)
    ++ (if microsecond d =? 0 then "" else "." ++ zpad 6 (microsecond d)).

(** ** The platform

    What the adapters reach outside their own code.
    - [remote history r]: the outcome of [requests.request(...)],
      [raise_for_status()] and [json()] for the request [r], sent after
      the requests of [history]: the decoded body or the exception.
    - [fromtimestamp x] and [dt_timestamp d]: [datetime.fromtimestamp(x)]
      and [d.timestamp()], both in the local time zone of the process.
    - [str_other v]: [str(v)] as an f-string renders a value that is not a
      [str].
    - [sorted_other l]: [sorted(l)] for a list that is not made of [str]
      only.
    - [frame_other v]: what the pandas selection of
      [MercadoBitcoinExchange.get_supported_pairs], followed by [sorted],
      yields for a payload outside the shape modelled below. *)

Record request : Type := {
  req_method : string;
  req_url : string;
  req_params : list (string * pyval)
}.

Record platform : Type := {
  remote : list request -> request -> result pyval;
  fromtimestamp : pyval -> result datetime;
  dt_timestamp : datetime -> result float;
  str_other : pyval -> string;
  sorted_other : list pyval -> result (list pyval);
  frame_other : pyval -> result (list pyval)
}.

(** [f"{v}"]. *)
Definition format_value (P : platform) (v : pyval) : string :=
  match v with
  | PyStr s => s
  | _ => str_other P v
  end.

(** [sorted(l)]. *)
Definition sorted (P : platform) (l : list pyval) : result (list pyval) :=
  match all_str l with
  | Some ss => Ok (map PyStr (sort_strings ss))
  | None => sorted_other P l
  end.

(** [int(d.timestamp() * 1000)] and [int(d.timestamp())]. *)
Definition epoch_ms (P : platform) (d : datetime) : result Z :=
  (t <- dt_timestamp P d ;; int_of_float (t * 1000))%res.

Definition epoch_s (P : platform) (d : datetime) : result Z :=
  (t <- dt_timestamp P d ;; int_of_float t)%res.

(** ** Code that sends requests

    A computation takes the log of the requests sent so far and returns
    its outcome with the log extended; a request stays in the log when
    an exception follows it. *)

Definition M (A : Type) : Type := list request -> result A * list request.

Definition ret {A} (a : A) : M A := fun w => (Ok a, w).

Definition raise {A} (c : exn_class) (msg : string) : M A :=
  fun w => (Raise (Exn c msg), w).

Definition lift {A} (r : result A) : M A := fun w => (r, w).

Definition bind {A B} (m : M A) (k : A -> M B) : M B :=
  fun w =>
    match m w with
    | (Ok a, w') => k a w'
    | (Raise e, w') => (Raise e, w')
    end.

Declare Scope monad_scope.
Delimit Scope monad_scope with M.
Notation "x <- m ;; k" := (bind m (fun x => k))
  (at level 61, m at next level, right associativity) : monad_scope.

(** [try: m except C as e: handler e], for the classes [C] accepted by
    [catches]. *)
Definition try_except {A} (m : M A) (catches : exn_class -> bool)
    (handler : exn -> M A) : M A :=
  fun w =>
    match m w with
    | (Ok a, w') => (Ok a, w')
    | (Raise e, w') =>
        if catches (exn_cls e) then handler e w' else (Raise e, w')
    end.

(** One HTTP exchange. *)
Definition send (P : platform) (r : request) : M pyval :=
  fun w => (remote P w r, (w ++ [r])%list).

(** A loop that appends to a list under a condition: [f] returns the
    element to append, if any. *)
Fixpoint collect {A B} (f : A -> result (option B)) (l : list A)
  : result (list B) :=
  match l with
  | [] => Ok []
  | x :: l' =>
      (o <- f x ;;
       ys <- collect f l' ;;
       Ok (match o with Some y => y :: ys | None => ys end))%res
  end.

(** ** models/candle.py *)

Record Candle : Type := {
  timestamp : datetime;
  open : float;
  high : float;
  low : float;
  close : float;
  volume : float;
  symbol : string;
  exchange : string;
  timeframe : string;
  quote_volume : option float
}.

Definition optional_float (o : option float) : pyval :=
  match o with
  | Some f => PyFloat f
  | None => PyNone
  end.

Definition to_dict (self : Candle) : list (string * pyval) :=
  [ ("timestamp", PyStr (isoformat (timestamp self)));
    ("open", PyFloat (open self));
    ("high", PyFloat (high self));
    ("low", PyFloat (low self));
    ("close", PyFloat (close self));
    ("volume", PyFloat (volume self));
    ("symbol", PyStr (symbol self));
    ("exchange", PyStr (exchange self));
    ("timeframe", PyStr (timeframe self));
    ("quote_volume", optional_float (quote_volume self)) ].

(** ** exchanges/base.py *)

Record BaseExchange : Type := {
  get_candles : string -> string -> datetime -> datetime -> M (list Candle);
  get_supported_pairs : M (list pyval);
  get_supported_timeframes : list string
}.

(** [symbol in l]. *)
Definition contains (l : list pyval) (s : string) : bool :=
  existsb (fun v => eq_str v s) l.

Definition validate_symbol (self : BaseExchange) (symbol : string) : M bool :=
  (pairs <- get_supported_pairs self ;;
   ret (contains pairs symbol))%M.

Definition validate_timeframe (self : BaseExchange) (timeframe : string)
  : bool :=
  existsb (String.eqb timeframe) (get_supported_timeframes self).

(** A timeframe table: a [dict] from canonical to native names, in the
    order of its declaration. *)
Definition table : Type := list (string * string).

Fixpoint table_get (k : string) (t : table) : option string :=
  match t with
  | [] => None
  | (k', v) :: t' => if (k =? k')%string then Some v else table_get k t'
  end.

Definition keys (t : table) : list string := map fst t.

(** [k in t] and [t[k]]. *)
Definition table_mem (k : string) (t : table) : bool :=
  match table_get k t with Some _ => true | None => false end.

Definition table_item (t : table) (k : string) : result string :=
  match table_get k t with
  | Some v => Ok v
  | None => throw KeyError (quoted k)
  end.

(** [float(v[i])] and [float(v[k])]. *)
Definition float_at (v : pyval) (i : nat) : result float :=
  (x <- getindex v i ;; py_float x)%res.

Definition float_of_key (v : pyval) (k : string) : result float :=
  (x <- getitem v k ;; py_float x)%res.

Definition params_or_empty (params : option (list (string * pyval)))
  : list (string * pyval) :=
  match params with
  | None => []
  | Some p => p
  end.

(** ** exchanges/binance.py *)

Module BinanceExchange.
Section Methods.
Context (P : platform).

Definition BASE_URL := "https://api.binance.com".
Definition API_VERSION := "v3".

Definition _supported_timeframes : table :=
  [ ("1m", "1m"); ("3m", "3m"); ("5m", "5m"); ("15m", "15m");
    ("30m", "30m"); ("1h", "1h"); ("2h", "2h"); ("4h", "4h");
    ("6h", "6h"); ("8h", "8h"); ("12h", "12h"); ("1d", "1d");
    ("3d", "3d"); ("1w", "1w"); ("1M", "1M") ].

Definition _make_request (method endpoint : string)
    (params : option (list (string * pyval))) : M pyval :=
  let url := BASE_URL ++ "/api/" ++ API_VERSION ++ "/" ++ endpoint in
  let params := params_or_empty params in
  try_except
    (send P {| req_method := method; req_url := url; req_params := params |})
    is_RequestException
    (fun e => raise (APIError Binance) ("API request failed: " ++ exn_msg e)).

Definition _convert_timeframe (timeframe : string) : string := timeframe.

Definition _convert_symbol (symbol : string) : string :=
  upper (replace "-" "" symbol).

(** The body of the loop of [get_candles]. *)
Definition parse_candle (symbol timeframe : string) (candle_data : pyval)
  : result Candle :=
  (t0 <- getindex candle_data 0 ;;
   t <- truediv t0 1000 ;;
   ts <- fromtimestamp P (PyFloat t) ;;
   o <- float_at candle_data 1 ;;
   h <- float_at candle_data 2 ;;
   l <- float_at candle_data 3 ;;
   c <- float_at candle_data 4 ;;
   v <- float_at candle_data 5 ;;
   qv <- float_at candle_data 7 ;;
   Ok {| timestamp := ts; open := o; high := h; low := l; close := c;
         volume := v; quote_volume := Some qv; symbol := symbol;
         exchange := "binance"; timeframe := timeframe |})%res.

Definition get_candles (symbol timeframe : string)
    (start_date end_date : datetime) : M (list Candle) :=
  try_except
    (let binance_timeframe := _convert_timeframe timeframe in
     let binance_symbol := _convert_symbol symbol in
     start_ms <- lift (epoch_ms P start_date) ;;
     end_ms <- lift (epoch_ms P end_date) ;;
     response <- _make_request "GET" "klines"
       (Some [ ("symbol", PyStr binance_symbol);
               ("interval", PyStr binance_timeframe);
               ("startTime", PyInt start_ms);
               ("endTime", PyInt end_ms) ]) ;;
     lift (rows <- iterate response ;;
           mapR (parse_candle symbol timeframe) rows)%res)%M
    is_Exception
    (fun e => raise (APIError Binance)
                ("Error getting candles from Binance: " ++ exn_msg e)).

(** One element of the comprehension of [get_supported_pairs]: the
    condition, then the expression. *)
Definition pair_of (symbol : pyval) : result (option pyval) :=
  (s <- getitem symbol "symbol" ;;
   brl <- py_endswith s "BRL" ;;
   keep <- (if brl then
              (st <- getitem symbol "status" ;; Ok (eq_str st "TRADING"))
            else Ok false) ;;
   if keep then
     (s' <- getitem symbol "symbol" ;;
      r <- py_replace s' "BRL" "-BRL" ;;
      Ok (Some (PyStr r)))
   else Ok None)%res.

Definition get_supported_pairs : M (list pyval) :=
  try_except
    (exchange_info <- _make_request "GET" "exchangeInfo" None ;;
     lift (symbols <- getitem exchange_info "symbols" ;;
           entries <- iterate symbols ;;
           pairs <- collect pair_of entries ;;
           sorted P pairs)%res)%M
    (is_APIError Binance)
    (fun e => raise (APIError Binance)
                ("Failed to fetch supported pairs: " ++ exn_msg e)).

Definition get_supported_timeframes : list string :=
  keys _supported_timeframes.

Definition instance : BaseExchange :=
  Build_BaseExchange get_candles get_supported_pairs
    get_supported_timeframes.
End Methods.
End BinanceExchange.

(** ** exchanges/bitget.py *)

Module BitgetExchange.
Section Methods.
Context (P : platform).

Definition BASE_URL := "https://api.bitget.com/api/v2".

Definition _supported_timeframes : table :=
  [ ("1m", "1m"); ("5m", "5m"); ("15m", "15m"); ("30m", "30m");
    ("1h", "1h"); ("4h", "4h"); ("1d", "1day"); ("1w", "1week") ].

Definition _make_request (method endpoint : string)
    (params : option (list (string * pyval))) : M pyval :=
  let url := BASE_URL ++ "/" ++ endpoint in
  let params := params_or_empty params in
  try_except
    (send P {| req_method := method; req_url := url; req_params := params |})
    is_RequestException
    (fun e => raise (APIError Bitget) ("API request failed: " ++ exn_msg e)).

Definition _convert_timeframe (timeframe : string) : result string :=
  if negb (table_mem timeframe _supported_timeframes)
  then throw ValueError ("Unsupported timeframe: " ++ timeframe)
  else table_item _supported_timeframes timeframe.

Definition _convert_symbol (symbol : string) : string :=
  upper (replace "-" "" symbol).

Definition parse_candle (symbol timeframe : string) (candle_data : pyval)
  : result Candle :=
  (t0 <- getindex candle_data 0 ;;
   n <- py_int t0 ;;
   t <- int_truediv n 1000 ;;
   ts <- fromtimestamp P (PyFloat t) ;;
   o <- float_at candle_data 1 ;;
   h <- float_at candle_data 2 ;;
   l <- float_at candle_data 3 ;;
   c <- float_at candle_data 4 ;;
   v <- float_at candle_data 5 ;;
   qv <- float_at candle_data 6 ;;
   Ok {| timestamp := ts; open := o; high := h; low := l; close := c;
         volume := v; quote_volume := Some qv; symbol := symbol;
         exchange := "bitget"; timeframe := timeframe |})%res.

Definition get_candles (symbol timeframe : string)
    (start_date end_date : datetime) : M (list Candle) :=
  try_except
    (bitget_timeframe <- lift (_convert_timeframe timeframe) ;;
     let bitget_symbol := _convert_symbol symbol in
     start_ms <- lift (epoch_ms P start_date) ;;
     end_ms <- lift (epoch_ms P end_date) ;;
     response <- _make_request "GET" "spot/market/candles"
       (Some [ ("symbol", PyStr bitget_symbol);
               ("granularity", PyStr bitget_timeframe);
               ("startTime", PyInt start_ms);
               ("endTime", PyInt end_ms) ]) ;;
     lift (data <- getitem response "data" ;;
           rows <- iterate data ;;
           mapR (parse_candle symbol timeframe) rows)%res)%M
    is_Exception
    (fun e => raise (APIError Bitget)
                ("Error getting candles from Bitget: " ++ exn_msg e)).

Definition pair_of (symbol_data : pyval) : result (option pyval) :=
  (q <- getitem symbol_data "quoteCoin" ;;
   if eq_str q "BRL" then
     (b <- getitem symbol_data "baseCoin" ;;
      q' <- getitem symbol_data "quoteCoin" ;;
      Ok (Some (PyStr (format_value P b ++ "-" ++ format_value P q'))))
   else Ok None)%res.

Definition get_supported_pairs : M (list pyval) :=
  try_except
    (response <- _make_request "GET" "spot/public/symbols" None ;;
     lift (data <- getitem response "data" ;;
           entries <- iterate data ;;
           pairs <- collect pair_of entries ;;
           sorted P pairs)%res)%M
    is_Exception
    (fun e => raise (APIError Bitget)
                ("Failed to fetch supported pairs: " ++ exn_msg e)).

Definition get_supported_timeframes : list string :=
  keys _supported_timeframes.

Definition instance : BaseExchange :=
  Build_BaseExchange get_candles get_supported_pairs
    get_supported_timeframes.
End Methods.
End BitgetExchange.

(** ** exchanges/bybit.py *)

Module BybitExchange.
Section Methods.
Context (P : platform).

Definition BASE_URL := "https://api.bybit.com/v5".

Definition _supported_timeframes : table :=
  [ ("1m", "1"); ("3m", "3"); ("5m", "5"); ("15m", "15"); ("30m", "30");
    ("1h", "60"); ("2h", "120"); ("4h", "240"); ("6h", "360");
    ("12h", "720"); ("1d", "D"); ("1w", "W"); ("1M", "M") ].

Definition _make_request (method endpoint : string)
    (params : option (list (string * pyval))) : M pyval :=
  let url := BASE_URL ++ "/" ++ endpoint in
  let params := params_or_empty params in
  try_except
    (send P {| req_method := method; req_url := url; req_params := params |})
    is_RequestException
    (fun e => raise (APIError Bybit) ("API request failed: " ++ exn_msg e)).

Definition _convert_timeframe (timeframe : string) : result string :=
  if negb (table_mem timeframe _supported_timeframes)
  then throw ValueError ("Unsupported timeframe: " ++ timeframe)
  else table_item _supported_timeframes timeframe.

Definition _convert_symbol (symbol : string) : string :=
  upper (replace "-" "" symbol).

Definition parse_candle (symbol timeframe : string) (candle_data : pyval)
  : result Candle :=
  (t0 <- getindex candle_data 0 ;;
   n <- py_int t0 ;;
   t <- int_truediv n 1000 ;;
   ts <- fromtimestamp P (PyFloat t) ;;
   o <- float_at candle_data 1 ;;
   h <- float_at candle_data 2 ;;
   l <- float_at candle_data 3 ;;
   c <- float_at candle_data 4 ;;
   v <- float_at candle_data 5 ;;
   qv <- float_at candle_data 6 ;;
   Ok {| timestamp := ts; open := o; high := h; low := l; close := c;
         volume := v; quote_volume := Some qv; symbol := symbol;
         exchange := "bybit"; timeframe := timeframe |})%res.

Definition get_candles (symbol timeframe : string)
    (start_date end_date : datetime) : M (list Candle) :=
  try_except
    (bybit_timeframe <- lift (_convert_timeframe timeframe) ;;
     let bybit_symbol := _convert_symbol symbol in
     start_ms <- lift (epoch_ms P start_date) ;;
     end_ms <- lift (epoch_ms P end_date) ;;
     response <- _make_request "GET" "market/kline"
       (Some [ ("category", PyStr "spot");
               ("symbol", PyStr bybit_symbol);
               ("interval", PyStr bybit_timeframe);
               ("start", PyInt start_ms);
               ("end", PyInt end_ms) ]) ;;
     lift (res <- getitem response "result" ;;
           data <- getitem res "list" ;;
           rows <- iterate data ;;
           mapR (parse_candle symbol timeframe) rows)%res)%M
    is_Exception
    (fun e => raise (APIError Bybit)
                ("Error getting candles from Bybit: " ++ exn_msg e)).

Definition pair_of (symbol_data : pyval) : result (option pyval) :=
  (q <- getitem symbol_data "quoteCoin" ;;
   if eq_str q "BRL" then
     (b <- getitem symbol_data "baseCoin" ;;
      q' <- getitem symbol_data "quoteCoin" ;;
      Ok (Some (PyStr (format_value P b ++ "-" ++ format_value P q'))))
   else Ok None)%res.

Definition get_supported_pairs : M (list pyval) :=
  try_except
    (response <- _make_request "GET" "market/instruments-info"
       (Some [ ("category", PyStr "spot") ]) ;;
     lift (res <- getitem response "result" ;;
           data <- getitem res "list" ;;
           entries <- iterate data ;;
           pairs <- collect pair_of entries ;;
           sorted P pairs)%res)%M
    is_Exception
    (fun e => raise (APIError Bybit)
                ("Failed to fetch supported pairs: " ++ exn_msg e)).

Definition get_supported_timeframes : list string :=
  keys _supported_timeframes.

Definition instance : BaseExchange :=
  Build_BaseExchange get_candles get_supported_pairs
    get_supported_timeframes.
End Methods.
End BybitExchange.

(** ** exchanges/crypto_com.py *)

Module CryptoComExchange.
Section Methods.
Context (P : platform).

Definition BASE_URL := "https://api.crypto.com/v2".

Definition _supported_timeframes : table :=
  [ ("1m", "1m"); ("5m", "5m"); ("15m", "15m"); ("30m", "30m");
    ("1h", "1h"); ("4h", "4h"); ("1d", "1d"); ("1w", "1w");
    ("1M", "1M") ].

Definition _make_request (method endpoint : string)
    (params : option (list (string * pyval))) : M pyval :=
  let url := BASE_URL ++ "/" ++ endpoint in
  let params := params_or_empty params in
  try_except
    (send P {| req_method := method; req_url := url; req_params := params |})
    is_RequestException
    (fun e => raise (APIError CryptoCom)
                ("API request failed: " ++ exn_msg e)).

Definition _convert_timeframe (timeframe : string) : result string :=
  if negb (table_mem timeframe _supported_timeframes)
  then throw ValueError ("Unsupported timeframe: " ++ timeframe)
  else table_item _supported_timeframes timeframe.

Definition _convert_symbol (symbol : string) : string :=
  replace "-" "_" symbol.

Definition parse_candle (symbol timeframe : string) (candle_data : pyval)
  : result Candle :=
  (t0 <- getitem candle_data "t" ;;
   t <- truediv t0 1000 ;;
   ts <- fromtimestamp P (PyFloat t) ;;
   o <- float_of_key candle_data "o" ;;
   h <- float_of_key candle_data "h" ;;
   l <- float_of_key candle_data "l" ;;
   c <- float_of_key candle_data "c" ;;
   v <- float_of_key candle_data "v" ;;
   qv1 <- float_of_key candle_data "v" ;;
   qv2 <- float_of_key candle_data "c" ;;
   Ok {| timestamp := ts; open := o; high := h; low := l; close := c;
         volume := v; quote_volume := Some (qv1 * qv2)%float;
         symbol := symbol; exchange := "crypto_com";
         timeframe := timeframe |})%res.

Definition get_candles (symbol timeframe : string)
    (start_date end_date : datetime) : M (list Candle) :=
  try_except
    (cc_timeframe <- lift (_convert_timeframe timeframe) ;;
     let cc_symbol := _convert_symbol symbol in
     start_ms <- lift (epoch_ms P start_date) ;;
     end_ms <- lift (epoch_ms P end_date) ;;
     response <- _make_request "GET" "public/get-candlestick"
       (Some [ ("instrument_name", PyStr cc_symbol);
               ("timeframe", PyStr cc_timeframe);
               ("start_ts", PyInt start_ms);
               ("end_ts", PyInt end_ms) ]) ;;
     lift (res <- getitem response "result" ;;
           data <- getitem res "data" ;;
           rows <- iterate data ;;
           mapR (parse_candle symbol timeframe) rows)%res)%M
    is_Exception
    (fun e => raise (APIError CryptoCom)
                ("Failed to fetch candles: " ++ exn_msg e)).

Definition pair_of (ticker : pyval) : result (option pyval) :=
  (i <- getitem ticker "i" ;;
   brl <- py_endswith i "_BRL" ;;
   if brl then
     (i' <- getitem ticker "i" ;;
      base <- py_replace i' "_BRL" "" ;;
      Ok (Some (PyStr (base ++ "-BRL"))))
   else Ok None)%res.

Definition get_supported_pairs : M (list pyval) :=
  try_except
    (response <- _make_request "GET" "public/get-ticker" None ;;
     lift (res <- getitem response "result" ;;
           data <- getitem res "data" ;;
           entries <- iterate data ;;
           pairs <- collect pair_of entries ;;
           sorted P pairs)%res)%M
    is_Exception
    (fun e => raise (APIError CryptoCom)
                ("Failed to fetch supported pairs: " ++ exn_msg e)).

Definition get_supported_timeframes : list string :=
  keys _supported_timeframes.

Definition instance : BaseExchange :=
  Build_BaseExchange get_candles get_supported_pairs
    get_supported_timeframes.
End Methods.
End CryptoComExchange.

(** ** exchanges/foxbit.py *)

Module FoxbitExchange.
Section Methods.
Context (P : platform).

Definition BASE_URL := "https://api.foxbit.com.br".
Definition API_VERSION := "v3".

Definition _supported_timeframes : table :=
  [ ("1m", "1m"); ("5m", "5m"); ("15m", "15m"); ("30m", "30m");
    ("1h", "1h"); ("4h", "4h"); ("1d", "1d"); ("1w", "1w") ].

Definition _make_request (method endpoint : string)
    (params : option (list (string * pyval))) : M pyval :=
  let url := BASE_URL ++ "/rest/" ++ API_VERSION ++ "/" ++ endpoint in
  let params := params_or_empty params in
  try_except
    (send P {| req_method := method; req_url := url; req_params := params |})
    is_RequestException
    (fun e => raise (APIError Foxbit) ("API request failed: " ++ exn_msg e)).

Definition _convert_timeframe (timeframe : string) : string := timeframe.

Definition _convert_symbol (symbol : string) : string :=
  lower (replace "-" "" symbol).

Definition parse_candle (symbol timeframe : string) (candle_data : pyval)
  : result Candle :=
  (t0 <- getindex candle_data 0 ;;
   n <- py_int t0 ;;
   t <- int_truediv n 1000 ;;
   ts <- fromtimestamp P (PyFloat t) ;;
   o <- float_at candle_data 1 ;;
   h <- float_at candle_data 2 ;;
   l <- float_at candle_data 3 ;;
   c <- float_at candle_data 4 ;;
   v <- float_at candle_data 6 ;;
   qv <- float_at candle_data 7 ;;
   Ok {| timestamp := ts; open := o; high := h; low := l; close := c;
         volume := v; quote_volume := Some qv; symbol := symbol;
         exchange := "foxbit"; timeframe := timeframe |})%res.

Definition get_candles (symbol timeframe : string)
    (start_date end_date : datetime) : M (list Candle) :=
  try_except
    (let foxbit_timeframe := _convert_timeframe timeframe in
     let foxbit_symbol := _convert_symbol symbol in
     start_ms <- lift (epoch_ms P start_date) ;;
     end_ms <- lift (epoch_ms P end_date) ;;
     response <- _make_request "GET"
       ("markets/" ++ foxbit_symbol ++ "/candlesticks")
       (Some [ ("interval", PyStr foxbit_timeframe);
               ("start_time", PyInt start_ms);
               ("end_time", PyInt end_ms);
               ("limit", PyInt 500) ]) ;;
     lift (rows <- iterate response ;;
           mapR (parse_candle symbol timeframe) rows)%res)%M
    is_Exception
    (fun e => raise (APIError Foxbit)
                ("Error getting candles from Foxbit: " ++ exn_msg e)).

Definition pair_of (market : pyval) : result (option pyval) :=
  (symbol <- getitem market "symbol" ;;
   Ok (Some symbol))%res.

Definition get_supported_pairs : M (list pyval) :=
  try_except
    (body <- _make_request "GET" "markets" None ;;
     lift (response <- getitem body "data" ;;
           entries <- iterate response ;;
           pairs <- collect pair_of entries ;;
           sorted P pairs)%res)%M
    is_Exception
    (fun e => raise (APIError Foxbit)
                ("Failed to fetch supported pairs: " ++ exn_msg e)).

Definition get_supported_timeframes : list string :=
  keys _supported_timeframes.

Definition instance : BaseExchange :=
  Build_BaseExchange get_candles get_supported_pairs
    get_supported_timeframes.
End Methods.
End FoxbitExchange.

(** ** exchanges/mercado_bitcoin.py *)

(** The frames [pd.DataFrame.from_records] builds from the two shapes a
    catalog takes: a list of records, whose columns are the keys that
    occur in some record, a record without a key having NaN in that
    column; or a [dict] of columns of one length. *)
Record frame : Type := {
  columns : list string;
  records : list (list (string * pyval))
}.

Fixpoint all_list (d : list (string * pyval))
  : option (list (string * list pyval)) :=
  match d with
  | [] => Some []
  | (k, PyList l) :: d' => option_map (cons (k, l)) (all_list d')
  | _ :: _ => None
  end.

Definition same_length (cols : list (string * list pyval)) : bool :=
  match cols with
  | [] => true
  | (_, c) :: cols' =>
      forallb (fun kc => (List.length (snd kc) =? List.length c)%nat) cols'
  end.

Definition transpose (cols : list (string * list pyval))
  : list (list (string * pyval)) :=
  match cols with
  | [] => []
  | (_, c) :: _ =>
      map (fun i => map (fun kc => (fst kc, nth i (snd kc) PyNone)) cols)
        (seq 0 (List.length c))
  end.

Definition from_records (v : pyval) : option frame :=
  match v with
  | PyList l =>
      match all_dict l with
      | Some rows =>
          Some {| columns := flat_map (map fst) rows; records := rows |}
      | None => None
      end
  | PyDict d =>
      match all_list d with
      | Some cols =>
          if same_length cols
          then Some {| columns := map fst cols; records := transpose cols |}
          else None
      | None => None
      end
  | _ => None
  end.

Definition has_column (k : string) (df : frame) : bool :=
  existsb (String.eqb k) (columns df).

Definition cell (k : string) (row : list (string * pyval)) : pyval :=
  match lookup k row with
  | Some v => v
  | None => PyFloat nan
  end.

Module MercadoBitcoinExchange.
Section Methods.
Context (P : platform).

Definition BASE_URL := "https://api.mercadobitcoin.net/api/v4".

Definition _supported_timeframes : table :=
  [ ("1m", "1m"); ("5m", "5m"); ("15m", "15m"); ("30m", "30m");
    ("1h", "1h"); ("4h", "4h"); ("1d", "1d"); ("1w", "1w") ].

Definition _make_request (method endpoint : string)
    (params : option (list (string * pyval))) : M pyval :=
  let url := BASE_URL ++ "/" ++ endpoint in
  let params := params_or_empty params in
  try_except
    (send P {| req_method := method; req_url := url; req_params := params |})
    is_RequestException
    (fun e => raise (APIError MercadoBitcoin)
                ("API request failed: " ++ exn_msg e)).

Definition _convert_timeframe (timeframe : string) : string := timeframe.

Definition _convert_symbol (symbol : string) : string := symbol.

(** The body of the loop of [get_candles], at index [i] of the
    parallel arrays. *)
Definition parse_candle (symbol timeframe : string)
    (timestamps opens highs lows closes volumes : pyval) (i : nat)
  : result Candle :=
  (t0 <- getindex timestamps i ;;
   n <- py_int t0 ;;
   ts <- fromtimestamp P (PyInt n) ;;
   o <- float_at opens i ;;
   h <- float_at highs i ;;
   l <- float_at lows i ;;
   c <- float_at closes i ;;
   v <- float_at volumes i ;;
   qv <- float_at volumes i ;;
   Ok {| timestamp := ts; open := o; high := h; low := l; close := c;
         volume := v; quote_volume := Some qv; symbol := symbol;
         exchange := "mercado_bitcoin"; timeframe := timeframe |})%res.

(** The parsing of the response in [get_candles]. *)
Definition parse_response (symbol timeframe : string) (response : pyval)
  : result (list Candle) :=
  (timestamps <- get response "t" (PyList []) ;;
   opens <- get response "o" (PyList []) ;;
   highs <- get response "h" (PyList []) ;;
   lows <- get response "l" (PyList []) ;;
   closes <- get response "c" (PyList []) ;;
   volumes <- get response "v" (PyList []) ;;
   n <- len timestamps ;;
   mapR (parse_candle symbol timeframe
           timestamps opens highs lows closes volumes)
     (seq 0 n))%res.

Definition get_candles (symbol timeframe : string)
    (start_date end_date : datetime) : M (list Candle) :=
  try_except
    (let mb_timeframe := _convert_timeframe timeframe in
     let mb_symbol := _convert_symbol symbol in
     start_ts <- lift (epoch_s P start_date) ;;
     end_ts <- lift (epoch_s P end_date) ;;
     response <- _make_request "GET" "candles"
       (Some [ ("from", PyInt start_ts);
               ("to", PyInt end_ts);
               ("resolution", PyStr mb_timeframe);
               ("symbol", PyStr mb_symbol) ]) ;;
     lift (parse_response symbol timeframe response))%M
    is_Exception
    (fun e => raise (APIError MercadoBitcoin)
                ("Error getting candles from Mercado Bitcoin: "
                   ++ exn_msg e)).

(** [response_df[response_df['type'] == 'CRYPTO']['symbol'].tolist()]
    and [sorted], for a response of one of the two shapes above whose
    selected symbols are all [str]; [frame_other] otherwise. *)
Definition select_pairs (response : pyval) : result (list pyval) :=
  match from_records response with
  | Some response_df =>
      if negb (has_column "type" response_df) then throw KeyError "'type'"
      else
        let selected :=
          filter (fun r => eq_str (cell "type" r) "CRYPTO")
            (records response_df) in
        if negb (has_column "symbol" response_df)
        then throw KeyError "'symbol'"
        else
          match all_str (map (cell "symbol") selected) with
          | Some pairs => Ok (map PyStr (sort_strings pairs))
          | None => frame_other P response
          end
  | None => frame_other P response
  end.

Definition get_supported_pairs : M (list pyval) :=
  try_except
    (response <- _make_request "GET" "symbols" None ;;
     lift (select_pairs response))%M
    is_Exception
    (fun e => raise (APIError MercadoBitcoin)
                ("Failed to fetch supported pairs: " ++ exn_msg e)).

Definition get_supported_timeframes : list string :=
  keys _supported_timeframes.

Definition instance : BaseExchange :=
  Build_BaseExchange get_candles get_supported_pairs
    get_supported_timeframes.
End Methods.
End MercadoBitcoinExchange.

(** ** exchanges/mexc.py *)

Module MEXCExchange.
Section Methods.
Context (P : platform).

Definition BASE_URL := "https://api.mexc.com/api/v3".

Definition _supported_timeframes : table :=
  [ ("1m", "1m"); ("5m", "5m"); ("15m", "15m"); ("30m", "30m");
    ("1h", "60m"); ("4h", "4h"); ("1d", "1d"); ("1w", "1W");
    ("1M", "1M") ].

Definition _make_request (method endpoint : string)
    (params : option (list (string * pyval))) : M pyval :=
  let url := BASE_URL ++ "/" ++ endpoint in
  let params := params_or_empty params in
  try_except
    (send P {| req_method := method; req_url := url; req_params := params |})
    is_RequestException
    (fun e => raise (APIError MEXC) ("API request failed: " ++ exn_msg e)).

Definition _convert_timeframe (timeframe : string) : result string :=
  if negb (table_mem timeframe _supported_timeframes)
  then throw ValueError ("Unsupported timeframe: " ++ timeframe)
  else table_item _supported_timeframes timeframe.

Definition _convert_symbol (symbol : string) : string :=
  upper (replace "-" "" symbol).

Definition parse_candle (symbol timeframe : string) (candle_data : pyval)
  : result Candle :=
  (t0 <- getindex candle_data 0 ;;
   n <- py_int t0 ;;
   t <- int_truediv n 1000 ;;
   ts <- fromtimestamp P (PyFloat t) ;;
   o <- float_at candle_data 1 ;;
   h <- float_at candle_data 2 ;;
   l <- float_at candle_data 3 ;;
   c <- float_at candle_data 4 ;;
   v <- float_at candle_data 5 ;;
   qv <- float_at candle_data 7 ;;
   Ok {| timestamp := ts; open := o; high := h; low := l; close := c;
         volume := v; quote_volume := Some qv; symbol := symbol;
         exchange := "mexc"; timeframe := timeframe |})%res.

Definition get_candles (symbol timeframe : string)
    (start_date end_date : datetime) : M (list Candle) :=
  try_except
    (mexc_timeframe <- lift (_convert_timeframe timeframe) ;;
     let mexc_symbol := _convert_symbol symbol in
     start_ms <- lift (epoch_ms P start_date) ;;
     end_ms <- lift (epoch_ms P end_date) ;;
     response <- _make_request "GET" "klines"
       (Some [ ("symbol", PyStr mexc_symbol);
               ("interval", PyStr mexc_timeframe);
               ("startTime", PyInt start_ms);
               ("endTime", PyInt end_ms) ]) ;;
     lift (rows <- iterate response ;;
           mapR (parse_candle symbol timeframe) rows)%res)%M
    is_Exception
    (fun e => raise (APIError MEXC)
                ("Error getting candles from MEXC: " ++ exn_msg e)).

Definition pair_of (symbol_data : pyval) : result (option pyval) :=
  (st <- getitem symbol_data "status" ;;
   keep <- (if eq_str st "1" then
              (q <- getitem symbol_data "quoteAsset" ;; Ok (eq_str q "BRL"))
            else Ok false) ;;
   if keep then
     (b <- getitem symbol_data "baseAsset" ;;
      q' <- getitem symbol_data "quoteAsset" ;;
      Ok (Some (PyStr (format_value P b ++ "-" ++ format_value P q'))))
   else Ok None)%res.

Definition get_supported_pairs : M (list pyval) :=
  try_except
    (response <- _make_request "GET" "exchangeInfo" None ;;
     lift (symbols <- getitem response "symbols" ;;
           entries <- iterate symbols ;;
           pairs <- collect pair_of entries ;;
           sorted P pairs)%res)%M
    is_Exception
    (fun e => raise (APIError MEXC)
                ("Failed to fetch supported pairs: " ++ exn_msg e)).

Definition get_supported_timeframes : list string :=
  keys _supported_timeframes.

Definition instance : BaseExchange :=
  Build_BaseExchange get_candles get_supported_pairs
    get_supported_timeframes.
End Methods.
End MEXCExchange.

(** ** exchanges/novadax.py *)

Module NovadaxExchange.
Section Methods.
Context (P : platform).

Definition BASE_URL := "https://api.novadax.com/v1".

Definition _supported_timeframes : table :=
  [ ("1m", "ONE_MIN"); ("5m", "FIVE_MIN"); ("15m", "FIFTEEN_MIN");
    ("30m", "HALF_HOU"); ("1h", "ONE_HOU"); ("1d", "ONE_DAY");
    ("1w", "ONE_WEE") ].

Definition _make_request (method endpoint : string)
    (params : option (list (string * pyval))) : M pyval :=
  let url := BASE_URL ++ "/" ++ endpoint in
  let params := params_or_empty params in
  try_except
    (send P {| req_method := method; req_url := url; req_params := params |})
    is_RequestException
    (fun e => raise (APIError Novadax)
                ("API request failed: " ++ exn_msg e)).

Definition _convert_timeframe (timeframe : string) : result string :=
  if negb (table_mem timeframe _supported_timeframes)
  then throw ValueError ("Unsupported timeframe: " ++ timeframe)
  else table_item _supported_timeframes timeframe.

Definition _convert_symbol (symbol : string) : string :=
  replace "-" "_" symbol.

Definition parse_candle (symbol timeframe : string) (candle_data : pyval)
  : result Candle :=
  (t0 <- getitem candle_data "score" ;;
   n <- py_int t0 ;;
   ts <- fromtimestamp P (PyInt n) ;;
   o <- float_of_key candle_data "openPrice" ;;
   h <- float_of_key candle_data "highPrice" ;;
   l <- float_of_key candle_data "lowPrice" ;;
   c <- float_of_key candle_data "closePrice" ;;
   v <- float_of_key candle_data "amount" ;;
   qv <- float_of_key candle_data "vol" ;;
   Ok {| timestamp := ts; open := o; high := h; low := l; close := c;
         volume := v; quote_volume := Some qv; symbol := symbol;
         exchange := "novadax"; timeframe := timeframe |})%res.

Definition get_candles (symbol timeframe : string)
    (start_date end_date : datetime) : M (list Candle) :=
  try_except
    (novadax_timeframe <- lift (_convert_timeframe timeframe) ;;
     let novadax_symbol := _convert_symbol symbol in
     start_ms <- lift (epoch_s P start_date) ;;
     end_ms <- lift (epoch_s P end_date) ;;
     response <- _make_request "GET" "market/kline/history"
       (Some [ ("symbol", PyStr novadax_symbol);
               ("from", PyInt start_ms);
               ("to", PyInt end_ms);
               ("unit", PyStr novadax_timeframe) ]) ;;
     lift (data <- getitem response "data" ;;
           rows <- iterate data ;;
           mapR (parse_candle symbol timeframe) rows)%res)%M
    is_Exception
    (fun e => raise (APIError Novadax)
                ("Error getting candles from Novadax: " ++ exn_msg e)).

Definition pair_of (symbol_data : pyval) : result (option pyval) :=
  (s <- getitem symbol_data "symbol" ;;
   symbol <- py_replace s "_" "-" ;;
   Ok (Some (PyStr symbol)))%res.

Definition get_supported_pairs : M (list pyval) :=
  try_except
    (response <- _make_request "GET" "common/symbols" None ;;
     lift (data <- getitem response "data" ;;
           entries <- iterate data ;;
           pairs <- collect pair_of entries ;;
           sorted P pairs)%res)%M
    is_Exception
    (fun e => raise (APIError Novadax)
                ("Failed to fetch supported pairs: " ++ exn_msg e)).

Definition get_supported_timeframes : list string :=
  keys _supported_timeframes.

Definition instance : BaseExchange :=
  Build_BaseExchange get_candles get_supported_pairs
    get_supported_timeframes.
End Methods.
End NovadaxExchange.

(** ** exchanges/okx.py *)

Module OKXExchange.
Section Methods.
Context (P : platform).

Definition BASE_URL := "https://www.okx.com".
Definition API_VERSION := "v5".

Definition _supported_timeframes : table :=
  [ ("1m", "1m"); ("5m", "5m"); ("15m", "15m"); ("30m", "30m");
    ("1h", "1H"); ("4h", "4H"); ("1d", "1D"); ("1w", "1W") ].

Definition _make_request (method endpoint : string)
    (params : option (list (string * pyval))) : M pyval :=
  let url := BASE_URL ++ "/api/" ++ API_VERSION ++ "/" ++ endpoint in
  let params := params_or_empty params in
  try_except
    (send P {| req_method := method; req_url := url; req_params := params |})
    is_RequestException
    (fun e => raise (APIError OKX) ("API request failed: " ++ exn_msg e)).

Definition _convert_timeframe (timeframe : string) : result string :=
  if negb (table_mem timeframe _supported_timeframes)
  then throw ValueError ("Unsupported timeframe: " ++ timeframe)
  else table_item _supported_timeframes timeframe.

Definition _convert_symbol (symbol : string) : string := symbol.

Definition parse_candle (symbol timeframe : string) (candle_data : pyval)
  : result Candle :=
  (t0 <- getindex candle_data 0 ;;
   n <- py_int t0 ;;
   t <- int_truediv n 1000 ;;
   ts <- fromtimestamp P (PyFloat t) ;;
   o <- float_at candle_data 1 ;;
   h <- float_at candle_data 2 ;;
   l <- float_at candle_data 3 ;;
   c <- float_at candle_data 4 ;;
   v <- float_at candle_data 5 ;;
   qv <- float_at candle_data 6 ;;
   Ok {| timestamp := ts; open := o; high := h; low := l; close := c;
         volume := v; quote_volume := Some qv; symbol := symbol;
         exchange := "okx"; timeframe := timeframe |})%res.

Definition get_candles (symbol timeframe : string)
    (start_date end_date : datetime) : M (list Candle) :=
  try_except
    (okx_timeframe <- lift (_convert_timeframe timeframe) ;;
     let okx_symbol := _convert_symbol symbol in
     start_ms <- lift (epoch_ms P start_date) ;;
     end_ms <- lift (epoch_ms P end_date) ;;
     response <- _make_request "GET" "market/history-candles"
       (Some [ ("instId", PyStr okx_symbol);
               ("bar", PyStr okx_timeframe);
               ("after", PyInt end_ms);
               ("before", PyInt start_ms) ]) ;;
     lift (data <- getitem response "data" ;;
           rows <- iterate data ;;
           mapR (parse_candle symbol timeframe) rows)%res)%M
    is_Exception
    (fun e => raise (APIError OKX)
                ("Error getting candles from OKX: " ++ exn_msg e)).

Definition pair_of (instrument : pyval) : result (option pyval) :=
  (q <- getitem instrument "quoteCcy" ;;
   if eq_str q "BRL" then
     (b <- getitem instrument "baseCcy" ;;
      q' <- getitem instrument "quoteCcy" ;;
      Ok (Some (PyStr (format_value P b ++ "-" ++ format_value P q'))))
   else Ok None)%res.

Definition get_supported_pairs : M (list pyval) :=
  try_except
    (response <- _make_request "GET" "public/instruments"
       (Some [ ("instType", PyStr "SPOT") ]) ;;
     lift (data <- getitem response "data" ;;
           entries <- iterate data ;;
           pairs <- collect pair_of entries ;;
           sorted P pairs)%res)%M
    is_Exception
    (fun e => raise (APIError OKX)
                ("Failed to fetch supported pairs: " ++ exn_msg e)).

Definition get_supported_timeframes : list string :=
  keys _supported_timeframes.

Definition instance : BaseExchange :=
  Build_BaseExchange get_candles get_supported_pairs
    get_supported_timeframes.
End Methods.
End OKXExchange.

(** ** The nine adapters behind the contract *)

Definition instance (P : platform) (a : adapter) : BaseExchange :=
  match a with
  | Binance => BinanceExchange.instance P
  | Bitget => BitgetExchange.instance P
  | Bybit => BybitExchange.instance P
  | CryptoCom => CryptoComExchange.instance P
  | Foxbit => FoxbitExchange.instance P
  | MercadoBitcoin => MercadoBitcoinExchange.instance P
  | MEXC => MEXCExchange.instance P
  | Novadax => NovadaxExchange.instance P
  | OKX => OKXExchange.instance P
  end.

(** The literal each adapter writes in the [exchange] field. *)
Definition exchange_name (a : adapter) : string :=
  match a with
  | Binance => "binance"
  | Bitget => "bitget"
  | Bybit => "bybit"
  | CryptoCom => "crypto_com"
  | Foxbit => "foxbit"
  | MercadoBitcoin => "mercado_bitcoin"
  | MEXC => "mexc"
  | Novadax => "novadax"
  | OKX => "okx"
  end.

(** The private [_convert_symbol] of each adapter. *)
Definition convert_symbol (a : adapter) : string -> string :=
  match a with
  | Binance => BinanceExchange._convert_symbol
  | Bitget => BitgetExchange._convert_symbol
  | Bybit => BybitExchange._convert_symbol
  | CryptoCom => CryptoComExchange._convert_symbol
  | Foxbit => FoxbitExchange._convert_symbol
  | MercadoBitcoin => MercadoBitcoinExchange._convert_symbol
  | MEXC => MEXCExchange._convert_symbol
  | Novadax => NovadaxExchange._convert_symbol
  | OKX => OKXExchange._convert_symbol
  end.

(** ** A platform for the examples

    The process runs in UTC and the servers answer every request by a
    fixed function of it. The remaining fields are never reached by the
    examples. *)

Module Reference.

(** Days since 1970-01-01 to the proleptic Gregorian date, and back. *)
Definition civil_of_days (days : Z) : Z * Z * Z :=
  let z := days + 719468 in
  let era := z / 146097 in
  let doe := z - era * 146097 in
  let yoe := (doe - doe / 1460 + doe / 36524 - doe / 146096) / 365 in
  let doy := doe - (365 * yoe + yoe / 4 - yoe / 100) in
  let mp := (5 * doy + 2) / 153 in
  let d := doy - (153 * mp + 2) / 5 + 1 in
  let m := if mp <? 10 then mp + 3 else mp - 9 in
  let y := yoe + era * 400 in
  (if m <=? 2 then y + 1 else y, m, d).

Definition days_of_civil (y m d : Z) : Z :=
  let y := if m <=? 2 then y - 1 else y in
  let era := y / 400 in
  let yoe := y - era * 400 in
  let doy := (153 * (if 2 <? m then m - 3 else m + 9) + 2) / 5 + d - 1 in
  let doe := yoe * 365 + yoe / 4 - yoe / 100 + doy in
  era * 146097 + doe - 719468.

Definition datetime_of_epoch (s us : Z) : result datetime :=
  let '(y, m, d) := civil_of_days (s / 86400) in
  let r := s mod 86400 in
  if (1 <=? y) && (y <=? 9999) then
    Ok {| year := y; month := m; day := d;
          hour := r / 3600; minute := r mod 3600 / 60; second := r mod 60;
          microsecond := us |}
  else throw ValueError "year is out of range".

(** The integer nearest to a finite [f], ties to even. *)
Definition round_half_even (f : float) : Z :=
  match Prim2SF f with
  | S754_finite s m e =>
      let a :=
        if 0 <=? e then Z.pos m * 2 ^ e
        else
          let q := Z.pos m / 2 ^ (- e) in
          match 2 * (Z.pos m mod 2 ^ (- e)) ?= 2 ^ (- e) with
          | Lt => q
          | Gt => q + 1
          | Eq => if Z.even q then q else q + 1
          end in
      if s then - a else a
  | _ => 0
  end.

(** [datetime.fromtimestamp]: the seconds and the microseconds are
    split, the microseconds rounded half to even. *)
Definition utc_fromtimestamp (x : pyval) : result datetime :=
  match x with
  | PyInt n => datetime_of_epoch n 0
  | PyFloat f =>
      if is_nan f then throw ValueError "Invalid value NaN (not a number)"
      else
        (intpart <- int_of_float f ;;
         let floatpart := (f - float_of_ratio intpart 1)%float in
         let us := round_half_even (floatpart * 1000000)%float in
         if 1000000 <=? us then datetime_of_epoch (intpart + 1) (us - 1000000)
         else if us <? 0 then datetime_of_epoch (intpart - 1) (us + 1000000)
         else datetime_of_epoch intpart us)%res
  | _ => throw TypeError "an integer is required"
  end.

(** [d.timestamp()]. *)
Definition utc_timestamp (d : datetime) : result float :=
  let s := days_of_civil (year d) (month d) (day d) * 86400
           + hour d * 3600 + minute d * 60 + second d in
  Ok (float_of_ratio s 1 + float_of_ratio (microsecond d) 1 / 1000000)%float.

Definition utc (reply : request -> result pyval) : platform :=
  {| remote := fun _ r => reply r;
     fromtimestamp := utc_fromtimestamp;
     dt_timestamp := utc_timestamp;
     str_other := type_name;
     sorted_other := fun _ => throw TypeError "'<' not supported";
     frame_other := fun _ => throw OtherException "unexpected payload" |}.

Definition date (y m d : Z) : datetime :=
  {| year := y; month := m; day := d;
     hour := 0; minute := 0; second := 0; microsecond := 0 |}.

End Reference.

(** ** utils/timeframes.py *)

(** A [timedelta]: the time span in microseconds. Python keeps it as days,
    seconds and microseconds, the days within 999999999 on either
    side. *)
Record timedelta : Type := { total_microseconds : Z }.

Definition us_per_second : Z := 1000000.
Definition us_per_day : Z := 86400 * us_per_second.

Definition td_days (d : timedelta) : Z := total_microseconds d / us_per_day.

(** A span of [us] microseconds, when it is in the range of
    [timedelta]. *)
Definition timedelta_of (us : Z) : result timedelta :=
  if (-999999999 <=? us / us_per_day) && (us / us_per_day <=? 999999999)
  then Ok {| total_microseconds := us |}
  else throw OverflowError "days out of range for timedelta".

(** The microseconds in one unit of a keyword argument of [timedelta]. *)
Definition unit_microseconds (keyword : string) : option Z :=
  if (keyword =? "microseconds")%string then Some 1
  else if (keyword =? "milliseconds")%string then Some 1000
  else if (keyword =? "seconds")%string then Some us_per_second
  else if (keyword =? "minutes")%string then Some (60 * us_per_second)
  else if (keyword =? "hours")%string then Some (3600 * us_per_second)
  else if (keyword =? "days")%string then Some us_per_day
  else if (keyword =? "weeks")%string then Some (7 * us_per_day)
  else None.

(** [timedelta] called with the keyword arguments [kw], all integers. *)
Fixpoint keywords_microseconds (kw : list (string * Z)) : result Z :=
  match kw with
  | [] => Ok 0
  | (k, v) :: kw' =>
      match unit_microseconds k with
      | Some u =>
          (rest <- keywords_microseconds kw' ;; Ok (u * v + rest))%res
      | None =>
          throw TypeError
            (quoted k ++ " is an invalid keyword argument for __new__()")
      end
  end.

Definition timedelta_kw (kw : list (string * Z)) : result timedelta :=
  (us <- keywords_microseconds kw ;; timedelta_of us)%res.

(** [delta * n]. *)
Definition timedelta_mul (delta : timedelta) (n : Z) : result timedelta :=
  timedelta_of (total_microseconds delta * n).

(** The proleptic Gregorian ordinal of a date: day 1 is 0001-01-01. *)
Definition toordinal (d : datetime) : Z :=
  Reference.days_of_civil (year d) (month d) (day d) + 719163.

Definition MAXORDINAL : Z := 3652059.

(** The microseconds from the start of day 0 to a naive [datetime]. *)
Definition datetime_microseconds (d : datetime) : Z :=
  toordinal d * us_per_day
  + (hour d * 3600 + minute d * 60 + second d) * us_per_second
  + microsecond d.

(** The [datetime] that many microseconds after the start of day 0, when
    its date is between 0001-01-01 and 9999-12-31. *)
Definition datetime_at (us : Z) : result datetime :=
  let days := us / us_per_day in
  let rest := us mod us_per_day in
  if (0 <? days) && (days <=? MAXORDINAL) then
    let '(y, m, d) := Reference.civil_of_days (days - 719163) in
    let secs := rest / us_per_second in
    Ok {| year := y; month := m; day := d;
          hour := secs / 3600; minute := secs mod 3600 / 60;
          second := secs mod 60; microsecond := rest mod us_per_second |}
  else throw OverflowError "date value out of range".

(** [d - delta]. *)
Definition datetime_sub (d : datetime) (delta : timedelta) : result datetime :=
  datetime_at (datetime_microseconds d - total_microseconds delta).

Module Timeframes.

Definition TIMEFRAME_MAPPINGS : list (string * list (string * Z)) :=
  [ ("1m", [("minutes", 1)]);
    ("3m", [("minutes", 3)]);
    ("5m", [("minutes", 5)]);
    ("15m", [("minutes", 15)]);
    ("30m", [("minutes", 30)]);
    ("1h", [("hours", 1)]);
    ("2h", [("hours", 2)]);
    ("4h", [("hours", 4)]);
    ("6h", [("hours", 6)]);
    ("8h", [("hours", 8)]);
    ("12h", [("hours", 12)]);
    ("1d", [("days", 1)]);
    ("3d", [("days", 3)]);
    ("1w", [("weeks", 1)]);
    ("1M", [("days", 30)]) ].

Fixpoint mapping (timeframe : string) (t : list (string * list (string * Z)))
  : option (list (string * Z)) :=
  match t with
  | [] => None
  | (k, kw) :: t' =>
      if (timeframe =? k)%string then Some kw else mapping timeframe t'
  end.

Definition get_timeframe_delta (timeframe : string) : result timedelta :=
  match mapping timeframe TIMEFRAME_MAPPINGS with
  | None => throw ValueError ("Unsupported timeframe: " ++ timeframe)
  | Some kw => timedelta_kw kw
  end.

Definition calculate_start_time (end_time : datetime) (timeframe : string)
    (num_candles : Z) : result datetime :=
  (delta <- get_timeframe_delta timeframe ;;
   span <- timedelta_mul delta num_candles ;;
   datetime_sub end_time span)%res.

Definition validate_timeframe (timeframe : string) : bool :=
  match mapping timeframe TIMEFRAME_MAPPINGS with
  | Some _ => true
  | None => false
  end.

End Timeframes.

(** ** storage/s3_storage.py

    [S3Storage] reaches [pandas] for the data frame and [boto3] for the
    bucket. What they raise is botocore's [ClientError], which
    [store_candles] tells apart, or any other exception. *)
Module Storage.

Inductive failure : Type :=
| ClientError (msg : string)
| Other (x : exn).

(** [str(e)]. *)
Definition str (e : failure) : string :=
  match e with
  | ClientError msg => msg
  | Other x => exn_msg x
  end.

Inductive outcome (A : Type) : Type :=
| Returns (a : A)
| Raises (e : failure).
Arguments Returns {A} a.
Arguments Raises {A} e.

(** The directives of [strftime] that the keys use: [%Y], [%m] and
    [%d]. *)
Inductive directive : Type := pct_Y | pct_m | pct_d.

(** What [df["timestamp"].min()] can be: a [Timestamp], [NaT], or an
    object of another type. Of such an object the code uses the
    [strftime] method only: it is given by the name of its type and by
    what the method returns, if the type has one (a [datetime.date] and a
    [Period] do; a [str], as the ISO text of a date is, does not). *)
Inductive scalar : Type :=
| Timestamp (d : datetime)
| NaT
| Object (type : string) (method : option (directive -> outcome string)).

(** The calls to the S3 client, with their keyword arguments. *)
Inductive call : Type :=
| HeadObject (Bucket Key : string)
| PutObject (Bucket Key : string) (Body : list Init.Byte.byte).

(** The calls made so far and the lines printed so far. *)
Record world : Type := { calls : list call; printed : list string }.

(** The answers of [pandas] and of the S3 service; the service answers a
    call knowing the calls made before it. *)
Record services (DataFrame : Type) : Type := {
  timestamp_min : DataFrame -> outcome scalar;
  to_parquet : DataFrame -> outcome (list Init.Byte.byte);
  answer : list call -> call -> outcome unit
}.
Arguments timestamp_min {DataFrame} s df.
Arguments to_parquet {DataFrame} s df.
Arguments answer {DataFrame} s before c.

(** Code that calls the client and prints. *)
Definition IO (A : Type) : Type := world -> outcome A * world.

Definition ret {A} (a : A) : IO A := fun w => (Returns a, w).

Definition lift {A} (r : outcome A) : IO A := fun w => (r, w).

Definition bind {A B} (m : IO A) (k : A -> IO B) : IO B :=
  fun w =>
    match m w with
    | (Returns a, w') => k a w'
    | (Raises e, w') => (Raises e, w')
    end.

Declare Scope io_scope.
Delimit Scope io_scope with io.
Notation "x <- m ;; k" := (bind m (fun x => k))
  (at level 61, m at next level, right associativity) : io_scope.

(** [try: m; ok ... except: handler]. *)
Definition attempt {A B} (m : IO A) (ok : A -> IO B)
    (handler : failure -> IO B) : IO B :=
  fun w =>
    match m w with
    | (Returns a, w') => ok a w'
    | (Raises e, w') => handler e w'
    end.

Definition print (line : string) : IO unit :=
  fun w =>
    (Returns tt, {| calls := calls w; printed := (printed w ++ [line])%list |}).

(** [strftime] of a [Timestamp] is the one of [datetime]: [%m] and [%d]
    have two digits; [%Y] is the year in decimal, four digits for every
    year a [Timestamp] can hold (1677 to 2262), and without padding below
    1000 where the C library does not pad. *)
Definition format (f : directive) (t : datetime) : string :=
  match f with
  | pct_Y => decimal (year t)
  | pct_m => zpad 2 (month t)
  | pct_d => zpad 2 (day t)
  end.

Definition strftime (v : scalar) (f : directive) : outcome string :=
  match v with
  | Timestamp t => Returns (format f t)
  | NaT => Raises (Other (Exn ValueError "NaTType does not support strftime"))
  | Object _ (Some method) => method f
  | Object type None =>
      Raises (Other (Exn AttributeError
                       (quoted type
                        ++ " object has no attribute 'strftime'")))
  end.

(** One step after another, outside the client. *)
Definition and_then {A B} (r : outcome A) (k : A -> outcome B) : outcome B :=
  match r with
  | Returns a => k a
  | Raises e => Raises e
  end.

Declare Scope outcome_scope.
Delimit Scope outcome_scope with out.
Notation "x <- r ;; k" := (and_then r (fun x => k))
  (at level 61, r at next level, right associativity) : outcome_scope.

Record S3Storage : Type := {
  bucket_name : string;
  partition_by_day : bool
}.

Section Methods.

Context {DataFrame : Type} (s3_client : services DataFrame).
Context (self : S3Storage).

Definition client_call (c : call) : IO unit :=
  fun w =>
    (answer s3_client (calls w) c,
     {| calls := (calls w ++ [c])%list; printed := printed w |}).

Definition _get_s3_key (df : DataFrame) (exchange symbol : string)
  : outcome string :=
  (first_timestamp <- timestamp_min s3_client df ;;
   year <- strftime first_timestamp pct_Y ;;
   month <- strftime first_timestamp pct_m ;;
   if partition_by_day self then
     day <- strftime first_timestamp pct_d ;;
     Returns ("candles/year=" ++ year ++ "/month=" ++ month
              ++ "/day=" ++ day ++ "/exchange=" ++ exchange
              ++ "/symbol=" ++ symbol ++ "/data.parquet")
   else
     Returns ("candles/year=" ++ year ++ "/month=" ++ month
              ++ "/exchange=" ++ exchange
              ++ "/symbol=" ++ symbol ++ "/data.parquet"))%out.

Definition store_candles (df : DataFrame) (exchange symbol : string)
    (overwrite : bool) : IO bool :=
  attempt
    (s3_key <- lift (_get_s3_key df exchange symbol) ;;
     let upload : IO bool :=
       (parquet_buffer <- lift (to_parquet s3_client df) ;;
        _ <- client_call (PutObject (bucket_name self) s3_key
                            parquet_buffer) ;;
        _ <- print ("Successfully stored data in S3: " ++ s3_key) ;;
        ret true)%io in
     if negb overwrite then
       attempt (client_call (HeadObject (bucket_name self) s3_key))
         (fun _ =>
            _ <- print ("File already exists: " ++ s3_key) ;; ret false)
         (fun e =>
            match e with
            | ClientError _ => upload
            | Other _ => lift (Raises e)
            end)
     else upload)%io
    ret
    (fun e =>
       _ <- print ("Error storing data in S3: " ++ str e) ;; ret false)%io.

(** [results[exchange] = success]. *)
Fixpoint set_item (results : list (string * bool)) (exchange : string)
    (success : bool) : list (string * bool) :=
  match results with
  | [] => [(exchange, success)]
  | (k, v) :: rest =>
      if (k =? exchange)%string then (k, success) :: rest
      else (k, v) :: set_item rest exchange success
  end.

Fixpoint store_each (items : list (string * DataFrame)) (symbol : string)
    (overwrite : bool) (results : list (string * bool))
  : IO (list (string * bool)) :=
  match items with
  | [] => ret results
  | (exchange, df) :: rest =>
      (success <- store_candles df exchange symbol overwrite ;;
       store_each rest symbol overwrite (set_item results exchange success))%io
  end.

Definition store_multiple_exchanges (dfs : list (string * DataFrame))
    (symbol : string) (overwrite : bool) : IO (list (string * bool)) :=
  store_each dfs symbol overwrite [].

End Methods.

End Storage.

(** * Vocabulary of the properties

    The predicates and the requests the statements below speak of, and
    the scenarios they are evaluated on. *)

(** The three fields an adapter copies into a candle. *)
Definition tagged (sym name tf : string) (c : Candle) : Prop :=
  symbol c = sym /\ exchange c = name /\ timeframe c = tf.

(** The adapters whose [_convert_timeframe] looks the timeframe up. *)
Definition looks_up (a : adapter) : bool :=
  match a with
  | Bitget | Bybit | CryptoCom | MEXC | Novadax | OKX => true
  | Binance | Foxbit | MercadoBitcoin => false
  end.

(** The request [get_candles] builds in the three other adapters, for
    the converted dates [s] and [e]. *)
Definition passthrough_request (a : adapter) (sym tf : string) (s e : Z)
  : request :=
  match a with
  | Foxbit =>
      {| req_method := "GET";
         req_url := "https://api.foxbit.com.br/rest/v3/markets/"
                      ++ lower (replace "-" "" sym) ++ "/candlesticks";
         req_params := [ ("interval", PyStr tf); ("start_time", PyInt s);
                         ("end_time", PyInt e); ("limit", PyInt 500) ] |}
  | MercadoBitcoin =>
      {| req_method := "GET";
         req_url := "https://api.mercadobitcoin.net/api/v4/candles";
         req_params := [ ("from", PyInt s); ("to", PyInt e);
                         ("resolution", PyStr tf); ("symbol", PyStr sym) ] |}
  | _ =>
      {| req_method := "GET";
         req_url := "https://api.binance.com/api/v3/klines";
         req_params := [ ("symbol", PyStr (upper (replace "-" "" sym)));
                         ("interval", PyStr tf); ("startTime", PyInt s);
                         ("endTime", PyInt e) ] |}
  end.

(** The conversion of a date of the request: seconds for Mercado Bitcoin
    and Novadax, milliseconds elsewhere. *)
Definition request_epoch (P : platform) (a : adapter) (d : datetime)
  : result Z :=
  match a with
  | MercadoBitcoin | Novadax => epoch_s P d
  | _ => epoch_ms P d
  end.

(** The request of [get_supported_pairs]. *)
Definition catalog_request (a : adapter) : request :=
  let get url params :=
    {| req_method := "GET"; req_url := url; req_params := params |} in
  match a with
  | Binance => get "https://api.binance.com/api/v3/exchangeInfo" []
  | Bitget => get "https://api.bitget.com/api/v2/spot/public/symbols" []
  | Bybit =>
      get "https://api.bybit.com/v5/market/instruments-info"
        [ ("category", PyStr "spot") ]
  | CryptoCom => get "https://api.crypto.com/v2/public/get-ticker" []
  | Foxbit => get "https://api.foxbit.com.br/rest/v3/markets" []
  | MercadoBitcoin => get "https://api.mercadobitcoin.net/api/v4/symbols" []
  | MEXC => get "https://api.mexc.com/api/v3/exchangeInfo" []
  | Novadax => get "https://api.novadax.com/v1/common/symbols" []
  | OKX =>
      get "https://www.okx.com/api/v5/public/instruments"
        [ ("instType", PyStr "SPOT") ]
  end.

(** The kline row of [tests/test_binance.py]. *)
Definition kline_row : pyval :=
  PyList [ PyInt 1625097600000; PyStr "35000.0"; PyStr "36000.0";
           PyStr "34000.0"; PyStr "35500.0"; PyStr "100.0";
           PyInt 1625097899999; PyStr "3500000.0"; PyInt 100;
           PyStr "50.0"; PyStr "1750000.0"; PyStr "0" ].

(** The candle expected from it, at the calendar instant [d]. *)
Definition kline_candle (d : datetime) : Candle :=
  {| timestamp := d;
     open := 35000; high := 36000; low := 34000; close := 35500;
     volume := 100; quote_volume := Some 3500000%float;
     symbol := "BTC-BRL"; exchange := "binance"; timeframe := "1h" |}.


(** The text without its hyphens, and with an underscore for each of
    them. *)
Fixpoint without_hyphens (s : string) : string :=
  match s with
  | EmptyString => EmptyString
  | String c s' =>
      if is_char "-" c then without_hyphens s'
      else String c (without_hyphens s')
  end.

Definition hyphens_to_underscores (s : string) : string :=
  str_map (fun c => if is_char "-" c then "_"%char else c) s.

(** The adapters whose [_convert_symbol] changes the case. *)
Definition changes_case (a : adapter) : bool :=
  match a with
  | Binance | Bitget | Bybit | MEXC | Foxbit => true
  | CryptoCom | Novadax | OKX | MercadoBitcoin => false
  end.

(** Upper and lower case, letter by letter: a small letter has the
    capital at its place in the alphabet, a capital the small letter, and
    every other character stays. *)
Definition small_letters : string := "abcdefghijklmnopqrstuvwxyz".
Definition capital_letters : string := "ABCDEFGHIJKLMNOPQRSTUVWXYZ".

Fixpoint place (c : ascii) (letters : string) : option nat :=
  match letters with
  | EmptyString => None
  | String x rest =>
      if Ascii.eqb c x then Some O else option_map S (place c rest)
  end.

Definition letter_of (from to : string) (c : ascii) : ascii :=
  match place c from with
  | Some i =>
      match String.get i to with
      | Some x => x
      | None => c
      end
  | None => c
  end.

Definition capital : ascii -> ascii := letter_of small_letters capital_letters.
Definition small : ascii -> ascii := letter_of capital_letters small_letters.

(** A base or quote currency written in capitals and digits. *)
Fixpoint plain (s : string) : bool :=
  match s with
  | EmptyString => true
  | String c s' => (is_digit c || in_range 65 90 c) && plain s'
  end.

(** The five arrays read in parallel with ["t"]. *)
Definition parallel_keys : list string := ["o"; "h"; "l"; "c"; "v"].

(** The candle Mercado Bitcoin makes of index [i] of the six arrays,
    [column k] being the array under key [k]: its timestamp is the
    element of ["t"] as an [int] and then as a local date, its prices and
    its volume are the elements of ["o"], ["h"], ["l"], ["c"] and ["v"]
    as [float], the volume standing for the quote volume as well. *)
Definition candle_at (P : platform) (sym tf : string)
    (column : string -> pyval) (i : nat) (c : Candle) : Prop :=
  (exists t0 n,
     getindex (column "t") i = Ok t0 /\ py_int t0 = Ok n
     /\ fromtimestamp P (PyInt n) = Ok (timestamp c))
  /\ float_at (column "o") i = Ok (open c)
  /\ float_at (column "h") i = Ok (high c)
  /\ float_at (column "l") i = Ok (low c)
  /\ float_at (column "c") i = Ok (close c)
  /\ float_at (column "v") i = Ok (volume c)
  /\ quote_volume c = Some (volume c)
  /\ tagged sym "mercado_bitcoin" tf c.

(** The order of [sorted] on strings. *)
Definition str_le (x y : string) : Prop := String.leb x y = true.

(** The canonical pair an adapter makes of a catalog entry it keeps;
    [None] for an entry it drops.
    - Bitget, Bybit, OKX: the quote-currency field is ["BRL"]; the pair is
      the base-currency field followed by [-BRL].
    - MEXC: moreover the status is ["1"].
    - Crypto.com: the instrument name ends in [_BRL]; every [_BRL] is
      removed from it and [-BRL] appended.
    - Novadax: every entry; underscores become hyphens.
    - Binance: the symbol ends in [BRL] and the status is ["TRADING"];
      every [BRL] in the symbol becomes [-BRL]. *)
Definition selects (P : platform) (a : adapter) (entry : pyval)
  : option string :=
  let quoted_in_brl quote base :=
    match getitem entry quote, getitem entry base with
    | Ok q, Ok b =>
        if eq_str q "BRL" then Some (format_value P b ++ "-BRL") else None
    | _, _ => None
    end in
  match a with
  | Bitget | Bybit => quoted_in_brl "quoteCoin" "baseCoin"
  | OKX => quoted_in_brl "quoteCcy" "baseCcy"
  | MEXC =>
      match getitem entry "status" with
      | Ok st =>
          if eq_str st "1" then quoted_in_brl "quoteAsset" "baseAsset"
          else None
      | Raise _ => None
      end
  | CryptoCom =>
      match getitem entry "i" with
      | Ok (PyStr i) =>
          if endswith i "_BRL" then Some (replace "_BRL" "" i ++ "-BRL")
          else None
      | _ => None
      end
  | Novadax =>
      match getitem entry "symbol" with
      | Ok (PyStr s) => Some (replace "_" "-" s)
      | _ => None
      end
  | Binance =>
      match getitem entry "symbol", getitem entry "status" with
      | Ok (PyStr s), Ok st =>
          if endswith s "BRL" && eq_str st "TRADING"
          then Some (replace "BRL" "-BRL" s)
          else None
      | _, _ => None
      end
  | Foxbit | MercadoBitcoin => None
  end.

Definition kept (P : platform) (a : adapter) (entries : list pyval)
  : list string :=
  flat_map (fun e => match selects P a e with Some s => [s] | None => [] end)
    entries.

(** The entries of the catalog in a response. *)
Definition catalog (a : adapter) (response : pyval) : result (list pyval) :=
  match a with
  | Binance | MEXC =>
      (symbols <- getitem response "symbols" ;; iterate symbols)%res
  | Bybit =>
      (res <- getitem response "result" ;;
       data <- getitem res "list" ;;
       iterate data)%res
  | CryptoCom =>
      (res <- getitem response "result" ;;
       data <- getitem res "data" ;;
       iterate data)%res
  | _ => (data <- getitem response "data" ;; iterate data)%res
  end.

(** The selected symbols of a frame: the ["symbol"] cells of the records
    whose ["type"] cell is ["CRYPTO"]. *)
Definition crypto_symbols (df : frame) : list pyval :=
  map (cell "symbol")
    (filter (fun r => eq_str (cell "type" r) "CRYPTO") (records df)).

(** ** Scenarios

    The process runs in UTC; the request covers the first day of July
    2021. *)

Definition july_1 : datetime := Reference.date 2021 7 1.
Definition july_2 : datetime := Reference.date 2021 7 2.

(** A server that answers with the kline row of the Binance scenario. *)
Definition kline_server : platform :=
  Reference.utc (fun _ => Ok (PyList [kline_row])).

(** A server that answers with an empty JSON object. *)
Definition empty_object_server : platform :=
  Reference.utc (fun _ => Ok (PyDict [])).

(** A Binance catalog with two pairs in BRL and one in USDT. *)
Definition binance_catalog : pyval :=
  PyDict
    [ ("symbols",
       PyList
         [ PyDict [("symbol", PyStr "ETHBRL"); ("status", PyStr "TRADING")];
           PyDict [("symbol", PyStr "BTCUSDT"); ("status", PyStr "TRADING")];
           PyDict [("symbol", PyStr "BTCBRL"); ("status", PyStr "TRADING")]
         ]) ].

Definition binance_catalog_server : platform :=
  Reference.utc (fun _ => Ok binance_catalog).

(** A Crypto.com candlestick with volume 10.0 and close 50.0. *)
Definition crypto_com_payload : pyval :=
  PyDict
    [ ("result",
       PyDict
         [ ("data",
            PyList
              [ PyDict [ ("t", PyInt 1625097600000); ("o", PyFloat 48);
                         ("h", PyFloat 52); ("l", PyFloat 47);
                         ("c", PyFloat 50); ("v", PyFloat 10) ] ]) ]) ].

Definition crypto_com_server : platform :=
  Reference.utc (fun _ => Ok crypto_com_payload).

(** The candle of that candlestick. *)
Definition crypto_com_candle : Candle :=
  {| timestamp := july_1;
     open := 48; high := 52; low := 47; close := 50;
     volume := 10; quote_volume := Some 500%float;
     symbol := "BTC-BRL"; exchange := "crypto_com"; timeframe := "1h" |}.

(** A Bybit catalog whose instruments are quoted in BRL, USDT and BRL. *)
Definition bybit_entries : list pyval :=
  [ PyDict [("baseCoin", PyStr "ETH"); ("quoteCoin", PyStr "BRL")];
    PyDict [("baseCoin", PyStr "BTC"); ("quoteCoin", PyStr "USDT")];
    PyDict [("baseCoin", PyStr "BTC"); ("quoteCoin", PyStr "BRL")] ].

Definition bybit_catalog_server : platform :=
  Reference.utc
    (fun _ => Ok (PyDict [("result", PyDict [("list", PyList bybit_entries)])])).

(** A Novadax catalog with one pair, quoted in USDT. *)
Definition novadax_entry : pyval :=
  PyDict [ ("symbol", PyStr "BTC_USDT"); ("baseCurrency", PyStr "BTC");
           ("quoteCurrency", PyStr "USDT") ].

Definition novadax_catalog_server : platform :=
  Reference.utc (fun _ => Ok (PyDict [("data", PyList [novadax_entry])])).

(** A Mercado Bitcoin response with two timestamps and a single open. *)
Definition short_opens : list (string * pyval) :=
  [ ("t", PyList [PyInt 1625097600; PyInt 1625101200]);
    ("o", PyList [PyStr "35000.0"]);
    ("h", PyList [PyStr "36000.0"; PyStr "36500.0"]);
    ("l", PyList [PyStr "34000.0"; PyStr "35000.0"]);
    ("c", PyList [PyStr "35500.0"; PyStr "36000.0"]);
    ("v", PyList [PyStr "100.0"; PyStr "80.0"]) ].

Definition short_opens_server : platform :=
  Reference.utc (fun _ => Ok (PyDict short_opens)).

(** A Mercado Bitcoin response with two candles, an hour apart, and the
    candles of its two indices. *)
Definition two_hours : list (string * pyval) :=
  [ ("t", PyList [PyInt 1625097600; PyInt 1625101200]);
    ("o", PyList [PyStr "35000.0"; PyStr "35500.0"]);
    ("h", PyList [PyStr "36000.0"; PyStr "36500.0"]);
    ("l", PyList [PyStr "34000.0"; PyStr "35000.0"]);
    ("c", PyList [PyStr "35500.0"; PyStr "36000.0"]);
    ("v", PyList [PyStr "100.0"; PyStr "80.5"]) ].

Definition two_hours_server : platform :=
  Reference.utc (fun _ => Ok (PyDict two_hours)).

Definition two_hours_candles : list Candle :=
  [ {| timestamp := july_1;
       open := 35000; high := 36000; low := 34000; close := 35500;
       volume := 100; quote_volume := Some 100%float;
       symbol := "BTC-BRL"; exchange := "mercado_bitcoin";
       timeframe := "1h" |};
    {| timestamp := {| year := 2021; month := 7; day := 1;
                       hour := 1; minute := 0; second := 0;
                       microsecond := 0 |};
       open := 35500; high := 36500; low := 35000; close := 36000;
       volume := 80.5; quote_volume := Some 80.5%float;
       symbol := "BTC-BRL"; exchange := "mercado_bitcoin";
       timeframe := "1h" |} ].

(** ** Requests and rows of [get_candles] *)

(** The native timeframe [get_candles] sends: the entry of the table
    where the adapter looks the timeframe up, the timeframe itself in
    Binance, Foxbit and Mercado Bitcoin. *)
Definition native_timeframe (a : adapter) (tf : string) : option string :=
  match a with
  | Binance | Foxbit | MercadoBitcoin => Some tf
  | Bitget => table_get tf BitgetExchange._supported_timeframes
  | Bybit => table_get tf BybitExchange._supported_timeframes
  | CryptoCom => table_get tf CryptoComExchange._supported_timeframes
  | MEXC => table_get tf MEXCExchange._supported_timeframes
  | Novadax => table_get tf NovadaxExchange._supported_timeframes
  | OKX => table_get tf OKXExchange._supported_timeframes
  end.

(** The request of [get_candles], for the native timeframe [native] and
    the converted dates [s] and [e]. *)
Definition candles_request (a : adapter) (sym native : string) (s e : Z)
  : request :=
  let get url params :=
    {| req_method := "GET"; req_url := url; req_params := params |} in
  match a with
  | Binance | Foxbit | MercadoBitcoin => passthrough_request a sym native s e
  | Bitget =>
      get "https://api.bitget.com/api/v2/spot/market/candles"
        [ ("symbol", PyStr (convert_symbol a sym));
          ("granularity", PyStr native);
          ("startTime", PyInt s); ("endTime", PyInt e) ]
  | Bybit =>
      get "https://api.bybit.com/v5/market/kline"
        [ ("category", PyStr "spot"); ("symbol", PyStr (convert_symbol a sym));
          ("interval", PyStr native); ("start", PyInt s); ("end", PyInt e) ]
  | CryptoCom =>
      get "https://api.crypto.com/v2/public/get-candlestick"
        [ ("instrument_name", PyStr (convert_symbol a sym));
          ("timeframe", PyStr native);
          ("start_ts", PyInt s); ("end_ts", PyInt e) ]
  | MEXC =>
      get "https://api.mexc.com/api/v3/klines"
        [ ("symbol", PyStr (convert_symbol a sym));
          ("interval", PyStr native);
          ("startTime", PyInt s); ("endTime", PyInt e) ]
  | Novadax =>
      get "https://api.novadax.com/v1/market/kline/history"
        [ ("symbol", PyStr (convert_symbol a sym));
          ("from", PyInt s); ("to", PyInt e); ("unit", PyStr native) ]
  | OKX =>
      get "https://www.okx.com/api/v5/market/history-candles"
        [ ("instId", PyStr (convert_symbol a sym)); ("bar", PyStr native);
          ("after", PyInt e); ("before", PyInt s) ]
  end.

(** The rows of a response, for the eight adapters that read one row per
    candle. *)
Definition candle_rows (a : adapter) (response : pyval)
  : result (list pyval) :=
  match a with
  | Binance | Foxbit | MEXC => iterate response
  | Bybit =>
      (res <- getitem response "result" ;;
       data <- getitem res "list" ;;
       iterate data)%res
  | CryptoCom =>
      (res <- getitem response "result" ;;
       data <- getitem res "data" ;;
       iterate data)%res
  | _ => (data <- getitem response "data" ;; iterate data)%res
  end.

(** The loop body of [get_candles] in each of them. Mercado Bitcoin has
    no rows: it reads six parallel arrays. *)
Definition parse_row (P : platform) (a : adapter) (sym tf : string)
  : pyval -> result Candle :=
  match a with
  | Binance => BinanceExchange.parse_candle P sym tf
  | Bitget => BitgetExchange.parse_candle P sym tf
  | Bybit => BybitExchange.parse_candle P sym tf
  | CryptoCom => CryptoComExchange.parse_candle P sym tf
  | Foxbit => FoxbitExchange.parse_candle P sym tf
  | MEXC => MEXCExchange.parse_candle P sym tf
  | Novadax => NovadaxExchange.parse_candle P sym tf
  | OKX => OKXExchange.parse_candle P sym tf
  | MercadoBitcoin =>
      fun _ => throw OtherException "Mercado Bitcoin has no rows"
  end.

(** The parsing of a response in [get_candles]. *)
Definition parse_candles (P : platform) (a : adapter) (sym tf : string)
    (response : pyval) : result (list Candle) :=
  match a with
  | MercadoBitcoin => MercadoBitcoinExchange.parse_response P sym tf response
  | _ =>
      (rows <- candle_rows a response ;;
       mapR (parse_row P a sym tf) rows)%res
  end.

(** The text each adapter puts before the message of an error of
    [get_candles]. *)
Definition candles_prefix (a : adapter) : string :=
  match a with
  | Binance => "Error getting candles from Binance: "
  | Bitget => "Error getting candles from Bitget: "
  | Bybit => "Error getting candles from Bybit: "
  | CryptoCom => "Failed to fetch candles: "
  | Foxbit => "Error getting candles from Foxbit: "
  | MercadoBitcoin => "Error getting candles from Mercado Bitcoin: "
  | MEXC => "Error getting candles from MEXC: "
  | Novadax => "Error getting candles from Novadax: "
  | OKX => "Error getting candles from OKX: "
  end.

(** An exception on its way out of [get_candles]. *)
Definition wrapped (a : adapter) (prefix : string) (x : exn) : exn :=
  Exn (APIError a) (prefix ++ exn_msg x).

(** What [_make_request] makes of the outcome of the exchange. *)
Definition request_outcome (a : adapter) (r : result pyval) : result pyval :=
  match r with
  | Ok v => Ok v
  | Raise x =>
      if is_RequestException (exn_cls x)
      then Raise (wrapped a "API request failed: " x)
      else Raise x
  end.

(** The private [_convert_timeframe] of each adapter. *)
Definition convert_timeframe (a : adapter) (tf : string) : result string :=
  match a with
  | Binance => Ok (BinanceExchange._convert_timeframe tf)
  | Foxbit => Ok (FoxbitExchange._convert_timeframe tf)
  | MercadoBitcoin => Ok (MercadoBitcoinExchange._convert_timeframe tf)
  | Bitget => BitgetExchange._convert_timeframe tf
  | Bybit => BybitExchange._convert_timeframe tf
  | CryptoCom => CryptoComExchange._convert_timeframe tf
  | MEXC => MEXCExchange._convert_timeframe tf
  | Novadax => NovadaxExchange._convert_timeframe tf
  | OKX => OKXExchange._convert_timeframe tf
  end.

(** The adapters whose pairs are built as text ending in [-BRL]. *)
Definition appends_brl (a : adapter) : bool :=
  match a with
  | Bitget | Bybit | CryptoCom | MEXC | OKX => true
  | _ => false
  end.

(** The adapters whose pairs are always strings: all but Foxbit and
    Mercado Bitcoin, which return the values of the catalog. *)
Definition builds_strings (a : adapter) : bool :=
  match a with
  | Foxbit | MercadoBitcoin => false
  | _ => true
  end.

(** A server that answers with the error object of Binance. *)
Definition binance_error_server : platform :=
  Reference.utc
    (fun _ => Ok (PyDict [ ("code", PyInt (-1121));
                           ("msg", PyStr "Invalid symbol.") ])).

(** A network that is down: every request fails in [requests]. *)
Definition offline : platform :=
  Reference.utc (fun _ => Raise (Exn RequestException "Connection refused")).

(** A Bybit server whose catalog changes order from one request to the
    next: the entries of [bybit_entries], reversed once a request has
    been sent. *)
Definition bybit_shuffling_server : platform :=
  {| remote := fun history _ =>
       Ok (PyDict
             [("result",
               PyDict [("list",
                        PyList (match history with
                                | [] => bybit_entries
                                | _ => rev bybit_entries
                                end))])]);
     fromtimestamp := Reference.utc_fromtimestamp;
     dt_timestamp := Reference.utc_timestamp;
     str_other := type_name;
     sorted_other := fun _ => throw TypeError "'<' not supported";
     frame_other := fun _ => throw OtherException "unexpected payload" |}.

(** The ranges [datetime] keeps its fields in. *)
Definition in_field_ranges (d : datetime) : Prop :=
  1 <= year d <= 9999 /\ 1 <= month d <= 12 /\ 1 <= day d <= 31
  /\ 0 <= hour d <= 23 /\ 0 <= minute d <= 59 /\ 0 <= second d <= 59
  /\ 0 <= microsecond d <= 999999.

(** Leap years and the days of a month. *)
Definition is_leap (y : Z) : bool :=
  (y mod 4 =? 0) && (negb (y mod 100 =? 0) || (y mod 400 =? 0)).

Definition days_in_month (y m : Z) : Z :=
  if m =? 2 then (if is_leap y then 29 else 28)
  else if (m =? 4) || (m =? 6) || (m =? 9) || (m =? 11) then 30 else 31.

(** The values [datetime] can hold: a date of the calendar between years
    1 and 9999 and a time of day. *)
Definition valid_datetime (d : datetime) : Prop :=
  1 <= year d <= 9999 /\ 1 <= month d <= 12
  /\ 1 <= day d <= days_in_month (year d) (month d)
  /\ 0 <= hour d <= 23 /\ 0 <= minute d <= 59 /\ 0 <= second d <= 59
  /\ 0 <= microsecond d <= 999999.

(** The timeframes of [TIMEFRAME_MAPPINGS] with their length in
    minutes. *)
Definition timeframe_minutes : list (string * Z) :=
  [ ("1m", 1); ("3m", 3); ("5m", 5); ("15m", 15); ("30m", 30);
    ("1h", 60); ("2h", 120); ("4h", 240); ("6h", 360); ("8h", 480);
    ("12h", 720); ("1d", 1440); ("3d", 4320); ("1w", 10080);
    ("1M", 43200) ].

Definition us_per_minute : Z := 60 * us_per_second.

Fixpoint minutes_in (t : list (string * Z)) (timeframe : string) : option Z :=
  match t with
  | [] => None
  | (k, v) :: t' =>
      if (timeframe =? k)%string then Some v else minutes_in t' timeframe
  end.

Definition minutes_of : string -> option Z := minutes_in timeframe_minutes.

Definition minutes (k : Z) : timedelta :=
  {| total_microseconds := k * us_per_minute |}.

(** The calendar of [Reference] counts years from the first of March, in
    eras of 400 years: a day of the era is day [doy] of its year [yoe], in
    month [mp], March being 0 and February, with its [l] leap days, 11. *)
Definition leap_day (y : Z) : Z := if is_leap y then 1 else 0.

Definition month_days (mp d l : Z) : Prop :=
  (mp = 0 \/ mp = 2 \/ mp = 4 \/ mp = 5 \/ mp = 7 \/ mp = 9 \/ mp = 10)
    /\ d <= 31
  \/ (mp = 1 \/ mp = 3 \/ mp = 6 \/ mp = 8) /\ d <= 30
  \/ mp = 11 /\ d <= 28 + l.

(** The microseconds at which the dates of [datetime] start and end. *)
Definition first_microsecond : Z := us_per_day.
Definition last_microsecond : Z := (MAXORDINAL + 1) * us_per_day - 1.

(** A bucket that keeps what is put into it: [head_object] finds the keys
    put before and answers 404 for the others, [put_object] succeeds. *)
Definition puts (Bucket Key : string) (c : Storage.call) : bool :=
  match c with
  | Storage.PutObject b k _ => (b =? Bucket)%string && (k =? Key)%string
  | Storage.HeadObject _ _ => false
  end.

Definition not_found : Storage.failure :=
  Storage.ClientError
    "An error occurred (404) when calling the HeadObject operation: Not Found".

Definition keeping_bucket {DataFrame : Type}
    (timestamp_min : DataFrame -> Storage.outcome Storage.scalar)
    (to_parquet : DataFrame -> Storage.outcome (list Init.Byte.byte))
  : Storage.services DataFrame :=
  {| Storage.timestamp_min := timestamp_min;
     Storage.to_parquet := to_parquet;
     Storage.answer := fun before c =>
       match c with
       | Storage.HeadObject b k =>
           if existsb (puts b k) before then Storage.Returns tt
           else Storage.Raises not_found
       | Storage.PutObject _ _ _ => Storage.Returns tt
       end |}.

(** The calls [store_candles] makes for a key: [head_object] unless it
    may overwrite. *)
Definition head_calls (overwrite : bool) (Bucket Key : string)
  : list Storage.call :=
  if overwrite then [] else [Storage.HeadObject Bucket Key].

(** Frames of one candle: one that holds the text of the timestamp, as
    the records of [to_dict] do (its least value is a [str]), and one
    that holds the timestamp. *)
Definition text_frame (c : Candle) : Storage.outcome Storage.scalar :=
  Storage.Returns (Storage.Object "str" None).

Definition stamp_frame (c : Candle) : Storage.outcome Storage.scalar :=
  Storage.Returns (Storage.Timestamp (timestamp c)).

Definition no_parquet (c : Candle) : Storage.outcome (list Init.Byte.byte) :=
  Storage.Returns [].

Definition monthly : Storage.S3Storage :=
  {| Storage.bucket_name := "candles-bucket";
     Storage.partition_by_day := false |}.

Definition empty_world : Storage.world :=
  {| Storage.calls := []; Storage.printed := [] |}.

(** The calls one [store_candles] can add: none, the look at the key, or
    the look and the upload. *)
Definition store_calls (overwrite : bool) (Bucket : string)
    (new : list Storage.call) : Prop :=
  new = []
  \/ exists key,
       new = head_calls overwrite Bucket key
       \/ exists body,
            new = (head_calls overwrite Bucket key
                   ++ [Storage.PutObject Bucket key body])%list.

(** A world in which the file of July 2021 of BTC-BRL has been put. *)
Definition one_put : Storage.world :=
  {| Storage.calls :=
       [Storage.PutObject "candles-bucket"
          "candles/year=2021/month=07/exchange=binance/symbol=BTC-BRL/data.parquet"
          []];
     Storage.printed :=
       ["Successfully stored data in S3: candles/year=2021/month=07/exchange=binance/symbol=BTC-BRL/data.parquet"]
  |}.

(** The candle of the Crypto.com scenario a day later. *)
Definition next_day_candle : Candle :=
  {| timestamp := july_2;
     open := 48; high := 52; low := 47; close := 50;
     volume := 10; quote_volume := Some 500%float;
     symbol := "BTC-BRL"; exchange := "crypto_com"; timeframe := "1h" |}.

(** [stored w dfs results w']: [results] pairs each exchange of [dfs], in
    their order, with what [store_candles] returns for its frame, the
    first call made in [w], each next one where the one before stopped,
    the last one stopping in [w']. *)
Inductive stored {DataFrame : Type} (s3_client : Storage.services DataFrame)
    (self : Storage.S3Storage) (symbol : string) (overwrite : bool)
  : Storage.world -> list (string * DataFrame) -> list (string * bool)
    -> Storage.world -> Prop :=
| stored_none w : stored s3_client self symbol overwrite w [] [] w
| stored_next w exchange df success w1 dfs results w2 :
    Storage.store_candles s3_client self df exchange symbol overwrite w
    = (Storage.Returns success, w1) ->
    stored s3_client self symbol overwrite w1 dfs results w2 ->
    stored s3_client self symbol overwrite w ((exchange, df) :: dfs)
      ((exchange, success) :: results) w2.

(** * Properties *)

(** ** The built-in operations on examples *)

Example float_of_text :
  map parse_float
    ["35000.0"; " 1_000.5 "; "0.1"; "-2.5e-3"; "1e400"; "-inf"; ".5"; "5."]
  = map Some
      [35000; 1000.5; 0x1.999999999999ap-4; -0x1.47ae147ae147bp-9;
       infinity; neg_infinity; 0.5; 5]%float.
Proof. vm_compute. reflexivity. Qed.

Example float_of_bad_text :
  map parse_float [""; "."; "1e"; "1__0"; "_1"; "1_"; "0x10"; "1 2"; "--1"]
  = map (fun _ => None) (seq 0 9).
Proof. vm_compute. reflexivity. Qed.

Example float_of_white_space :
  map (fun c => parse_float (String (ascii_of_Z c) "1.5"))
    [9; 13; 32; 133; 160; 28; 31]
  = [Some 1.5; Some 1.5; Some 1.5; Some 1.5; Some 1.5; None; None]%float.
Proof. vm_compute. reflexivity. Qed.

Example decimal_examples :
  map decimal [0; 7; 999; 2021; 9999] = ["0"; "7"; "999"; "2021"; "9999"].
Proof. vm_compute. reflexivity. Qed.

Example int_of_text :
  map parse_int ["1625097600000"; " -7 "; "1_000"; "+0012"; "1.0"; ""]
  = [Some 1625097600000; Some (-7); Some 1000; Some 12; None; None].
Proof. vm_compute. reflexivity. Qed.

Example true_division :
  map (fun v => truediv v 1000)
    [PyInt 1625097600000; PyInt 1; PyFloat 1500; PyBool true]
  = map Ok [1625097600; 0x1.0624dd2f1a9fcp-10; 1.5; 0x1.0624dd2f1a9fcp-10]%float.
Proof. vm_compute. reflexivity. Qed.

Example rounding_to_binary64 :
  map (fun n => float_of_ratio n 1)
    [9007199254740993; 9007199254740995; 2 ^ 1024 - 2 ^ 970 - 1;
     2 ^ 1024 - 2 ^ 970]
  = [9007199254740992; 9007199254740996; 0x1.fffffffffffffp+1023;
     infinity]%float.
Proof. vm_compute. reflexivity. Qed.

Example replace_examples :
  [ replace "-" "" "BTC-BRL"; replace "BRL" "-BRL" "BRLBRL";
    replace "_BRL" "" "BTC_BRL"; replace "aa" "b" "aaaaa";
    replace "" "-" "ab" ]
  = ["BTCBRL"; "-BRL-BRL"; "BTC"; "bba"; "-a-b-"].
Proof. reflexivity. Qed.

Example sorted_examples :
  sort_strings ["ETH-BRL"; "BTC-BRL"; "eth-BRL"; "BTC"; "ADA-BRL"]
  = ["ADA-BRL"; "BTC"; "BTC-BRL"; "ETH-BRL"; "eth-BRL"].
Proof. reflexivity. Qed.

Example isoformat_examples :
  map (fun x =>
         match Reference.utc_fromtimestamp x with
         | Ok d => isoformat d
         | Raise e => exn_msg e
         end)
    [PyInt 1625097600; PyFloat 1625097600.5; PyFloat (-1.5); PyInt 951782400]
  = ["2021-07-01T00:00:00"; "2021-07-01T00:00:00.500000";
     "1969-12-31T23:59:58.500000"; "2000-02-29T00:00:00"].
Proof. vm_compute. reflexivity. Qed.

(** ** The two monads *)

Lemma rbind_Ok {A B} (r : result A) (k : A -> result B) (b : B) :
  rbind r k = Ok b -> exists a, r = Ok a /\ k a = Ok b.
Proof. destruct r as [a|e]; simpl; [eauto | discriminate]. Qed.

Lemma bind_Ok {A B} (m : M A) (k : A -> M B) w b w' :
  bind m k w = (Ok b, w') ->
  exists a w1, m w = (Ok a, w1) /\ k a w1 = (Ok b, w').
Proof.
  unfold bind. destruct (m w) as [[a|e] w1]; [eauto | discriminate].
Qed.

Lemma lift_Ok {A} (r : result A) w a w' :
  lift r w = (Ok a, w') -> r = Ok a /\ w' = w.
Proof. unfold lift. intros H. inversion H. auto. Qed.

(** A handler that raises lets a result through only from the body. *)
Lemma try_except_Ok {A} (m : M A) catches c (msg : exn -> string) w a w' :
  try_except m catches (fun e => raise c (msg e)) w = (Ok a, w') ->
  m w = (Ok a, w').
Proof.
  unfold try_except, raise. destruct (m w) as [[x|e] w1]; auto.
  destruct (catches (exn_cls e)); discriminate.
Qed.

(** Under [except Exception], whatever is raised leaves with the class of
    the handler. *)
Lemma try_all_Raise {A} (m : M A) c (msg : exn -> string) w e w' :
  try_except m is_Exception (fun e => raise c (msg e)) w = (Raise e, w') ->
  exn_cls e = c.
Proof.
  unfold try_except, raise, is_Exception.
  destruct (m w) as [[x|e0] w1]; intros H; inversion H. reflexivity.
Qed.

(** Inversion of a successful run, one bind at a time. *)
Ltac rinv H :=
  lazymatch type of H with
  | rbind _ _ = Ok _ =>
      let a := fresh "x" in
      let Ha := fresh "E" in
      apply rbind_Ok in H; destruct H as (a & Ha & H); cbv beta in H; rinv H
  | Ok _ = Ok _ => inversion H; subst; clear H
  | _ => idtac
  end.

Ltac minv H :=
  lazymatch type of H with
  | try_except _ _ (fun e => raise _ _) _ = (Ok _, _) =>
      apply try_except_Ok in H; cbv zeta in H; minv H
  | bind _ _ _ = (Ok _, _) =>
      let a := fresh "x" in
      let w := fresh "w" in
      let Ha := fresh "E" in
      apply bind_Ok in H; destruct H as (a & w & Ha & H); cbv beta in H; minv H
  | lift _ _ = (Ok _, _) =>
      let Hw := fresh "Hw" in
      apply lift_Ok in H; destruct H as (H & Hw); rinv H
  | _ => idtac
  end.

Lemma mapR_Forall2 {A B} (f : A -> result B) l ys :
  mapR f l = Ok ys -> Forall2 (fun x y => f x = Ok y) l ys.
Proof.
  revert ys. induction l as [|x l IH]; simpl; intros ys H.
  - inversion H. constructor.
  - rinv H. constructor; auto.
Qed.

Lemma mapR_Ok_iff {A B} (f : A -> result B) l ys :
  mapR f l = Ok ys <-> Forall2 (fun x y => f x = Ok y) l ys.
Proof.
  split; [apply mapR_Forall2|].
  intros H. induction H as [|x y l ys Hxy H IH]; cbn [mapR]; [reflexivity|].
  rewrite Hxy. cbn [rbind]. rewrite IH. reflexivity.
Qed.

Lemma Forall2_Forall_r {A B} (R : A -> B -> Prop) (Q : B -> Prop) l ys :
  (forall x y, R x y -> Q y) -> Forall2 R l ys -> Forall Q ys.
Proof. intros HQ H. induction H; constructor; eauto. Qed.

Lemma Forall2_In_left {A B} (R : A -> B -> Prop) l ys x :
  Forall2 R l ys -> In x l -> exists y, In y ys /\ R x y.
Proof.
  intros H. induction H as [|a b l ys Hab H IH]; intros Hin; [easy|].
  destruct Hin as [->|Hin].
  - exists b. split; [now left | exact Hab].
  - destruct (IH Hin) as (y & Hy & Hxy). exists y. split; [now right|exact Hxy].
Qed.

Lemma mapR_Forall {A B} (f : A -> result B) (Q : B -> Prop) l ys :
  (forall x y, f x = Ok y -> Q y) -> mapR f l = Ok ys -> Forall Q ys.
Proof.
  intros HQ H. apply mapR_Forall2 in H.
  eapply Forall2_Forall_r; [|exact H]. exact HQ.
Qed.

(** ** The request is echoed in every candle *)

Ltac tagged_row parse :=
  let H := fresh "H" in
  intros H; unfold parse in H; rinv H; repeat split.

Section Tagged.
Context (P : platform) (sym tf : string).

Lemma binance_row_tagged row c :
  BinanceExchange.parse_candle P sym tf row = Ok c ->
  tagged sym "binance" tf c.
Proof. tagged_row BinanceExchange.parse_candle. Qed.

Lemma bitget_row_tagged row c :
  BitgetExchange.parse_candle P sym tf row = Ok c ->
  tagged sym "bitget" tf c.
Proof. tagged_row BitgetExchange.parse_candle. Qed.

Lemma bybit_row_tagged row c :
  BybitExchange.parse_candle P sym tf row = Ok c ->
  tagged sym "bybit" tf c.
Proof. tagged_row BybitExchange.parse_candle. Qed.

Lemma crypto_com_row_tagged row c :
  CryptoComExchange.parse_candle P sym tf row = Ok c ->
  tagged sym "crypto_com" tf c.
Proof. tagged_row CryptoComExchange.parse_candle. Qed.

Lemma foxbit_row_tagged row c :
  FoxbitExchange.parse_candle P sym tf row = Ok c ->
  tagged sym "foxbit" tf c.
Proof. tagged_row FoxbitExchange.parse_candle. Qed.

Lemma mercado_bitcoin_row_tagged ts os hs ls cs vs i c :
  MercadoBitcoinExchange.parse_candle P sym tf ts os hs ls cs vs i = Ok c ->
  tagged sym "mercado_bitcoin" tf c.
Proof. tagged_row MercadoBitcoinExchange.parse_candle. Qed.

Lemma mexc_row_tagged row c :
  MEXCExchange.parse_candle P sym tf row = Ok c ->
  tagged sym "mexc" tf c.
Proof. tagged_row MEXCExchange.parse_candle. Qed.

Lemma novadax_row_tagged row c :
  NovadaxExchange.parse_candle P sym tf row = Ok c ->
  tagged sym "novadax" tf c.
Proof. tagged_row NovadaxExchange.parse_candle. Qed.

Lemma okx_row_tagged row c :
  OKXExchange.parse_candle P sym tf row = Ok c ->
  tagged sym "okx" tf c.
Proof. tagged_row OKXExchange.parse_candle. Qed.
End Tagged.

(** C1. Whatever the payload holds, every candle [get_candles] returns
    carries the symbol of the request, the fixed lowercase name of the
    adapter and the timeframe of the request. *)
Theorem get_candles_echoes_request (P : platform) (a : adapter)
    (sym tf : string) (start_date end_date : datetime)
    (w w' : list request) (cs : list Candle) :
  get_candles (instance P a) sym tf start_date end_date w = (Ok cs, w') ->
  Forall (tagged sym (exchange_name a) tf) cs.
Proof.
  intros H. destruct a; simpl in H.
  - unfold BinanceExchange.get_candles in H. minv H.
    eapply mapR_Forall; [|exact H]. apply binance_row_tagged.
  - unfold BitgetExchange.get_candles in H. minv H.
    eapply mapR_Forall; [|exact H]. apply bitget_row_tagged.
  - unfold BybitExchange.get_candles in H. minv H.
    eapply mapR_Forall; [|exact H]. apply bybit_row_tagged.
  - unfold CryptoComExchange.get_candles in H. minv H.
    eapply mapR_Forall; [|exact H]. apply crypto_com_row_tagged.
  - unfold FoxbitExchange.get_candles in H. minv H.
    eapply mapR_Forall; [|exact H]. apply foxbit_row_tagged.
  - unfold MercadoBitcoinExchange.get_candles in H. minv H.
    unfold MercadoBitcoinExchange.parse_response in H. rinv H.
    eapply mapR_Forall; [|exact H]. apply mercado_bitcoin_row_tagged.
  - unfold MEXCExchange.get_candles in H. minv H.
    eapply mapR_Forall; [|exact H]. apply mexc_row_tagged.
  - unfold NovadaxExchange.get_candles in H. minv H.
    eapply mapR_Forall; [|exact H]. apply novadax_row_tagged.
  - unfold OKXExchange.get_candles in H. minv H.
    eapply mapR_Forall; [|exact H]. apply okx_row_tagged.
Qed.

(** ** Unsupported timeframes *)

Lemma table_mem_keys (k : string) (t : table) :
  table_mem k t = true <-> In k (keys t).
Proof.
  unfold table_mem, keys. induction t as [|[k' v] t IH]; simpl.
  - split; [discriminate | tauto].
  - destruct (String.eqb_spec k k') as [->|Hne].
    + split; auto.
    + rewrite IH. split; [auto | intros [Heq|H]; [congruence | exact H]].
Qed.

Lemma table_mem_false (k : string) (t : table) :
  ~ In k (keys t) -> table_mem k t = false.
Proof.
  intros H. destruct (table_mem k t) eqn:E; [|reflexivity].
  apply table_mem_keys in E. contradiction.
Qed.

(** Case analysis on the innermost scrutinee, until none is left. *)
Ltac split_matches :=
  repeat match goal with
         | |- context [match ?x with _ => _ end] =>
             lazymatch x with
             | context [match _ with _ => _ end] => fail
             | _ => destruct x
             end
         end.

(** C3. An adapter that looks the timeframe up in its table answers a
    timeframe outside the table with its own error and sends nothing; in
    Binance, Foxbit and Mercado Bitcoin the timeframe is not checked:
    once the two dates are converted the request leaves, with the
    timeframe as the caller wrote it. *)
Theorem unsupported_timeframe (P : platform) (a : adapter)
    (sym tf : string) (start_date end_date : datetime) (w : list request) :
  (looks_up a = true ->
   ~ In tf (get_supported_timeframes (instance P a)) ->
   exists msg,
     get_candles (instance P a) sym tf start_date end_date w
     = (Raise (Exn (APIError a) msg), w))
  /\
  (looks_up a = false ->
   forall s e,
     request_epoch P a start_date = Ok s ->
     request_epoch P a end_date = Ok e ->
     snd (get_candles (instance P a) sym tf start_date end_date w)
     = (w ++ [passthrough_request a sym tf s e])%list).
Proof.
  split.
  - intros Ha Hin. destruct a; try discriminate Ha;
      cbn [instance get_supported_timeframes BitgetExchange.instance
             BybitExchange.instance CryptoComExchange.instance
             MEXCExchange.instance NovadaxExchange.instance
             OKXExchange.instance get_candles] in *;
      apply table_mem_false in Hin; eexists.
    + unfold BitgetExchange.get_candles, BitgetExchange._convert_timeframe,
        BitgetExchange.get_supported_timeframes in *.
      rewrite Hin. reflexivity.
    + unfold BybitExchange.get_candles, BybitExchange._convert_timeframe,
        BybitExchange.get_supported_timeframes in *.
      rewrite Hin. reflexivity.
    + unfold CryptoComExchange.get_candles,
        CryptoComExchange._convert_timeframe,
        CryptoComExchange.get_supported_timeframes in *.
      rewrite Hin. reflexivity.
    + unfold MEXCExchange.get_candles, MEXCExchange._convert_timeframe,
        MEXCExchange.get_supported_timeframes in *.
      rewrite Hin. reflexivity.
    + unfold NovadaxExchange.get_candles, NovadaxExchange._convert_timeframe,
        NovadaxExchange.get_supported_timeframes in *.
      rewrite Hin. reflexivity.
    + unfold OKXExchange.get_candles, OKXExchange._convert_timeframe,
        OKXExchange.get_supported_timeframes in *.
      rewrite Hin. reflexivity.
  - intros Ha s e Hs He. destruct a; try discriminate Ha; simpl in *.
    + unfold BinanceExchange.get_candles, BinanceExchange._make_request,
        try_except, bind, lift, send, raise.
      rewrite Hs, He. cbn [params_or_empty].
      unfold BinanceExchange._convert_symbol,
        BinanceExchange._convert_timeframe.
      split_matches; reflexivity.
    + unfold FoxbitExchange.get_candles, FoxbitExchange._make_request,
        try_except, bind, lift, send, raise.
      rewrite Hs, He. cbn [params_or_empty].
      unfold FoxbitExchange._convert_symbol,
        FoxbitExchange._convert_timeframe.
      split_matches; reflexivity.
    + unfold MercadoBitcoinExchange.get_candles,
        MercadoBitcoinExchange._make_request,
        try_except, bind, lift, send, raise.
      rewrite Hs, He. cbn [params_or_empty].
      unfold MercadoBitcoinExchange._convert_symbol,
        MercadoBitcoinExchange._convert_timeframe.
      split_matches; reflexivity.
Qed.

(** ** The inherited validations *)

Ltac run_request :=
  unfold try_except, bind, lift, send, raise; cbn [params_or_empty];
  split_matches; reflexivity.

(** Every call of [get_supported_pairs] sends the catalog request, and
    nothing else. *)
Lemma get_supported_pairs_log (P : platform) (a : adapter) (w : list request) :
  snd (get_supported_pairs (instance P a) w) = (w ++ [catalog_request a])%list.
Proof.
  destruct a; simpl.
  - unfold BinanceExchange.get_supported_pairs,
      BinanceExchange._make_request. run_request.
  - unfold BitgetExchange.get_supported_pairs,
      BitgetExchange._make_request. run_request.
  - unfold BybitExchange.get_supported_pairs,
      BybitExchange._make_request. run_request.
  - unfold CryptoComExchange.get_supported_pairs,
      CryptoComExchange._make_request. run_request.
  - unfold FoxbitExchange.get_supported_pairs,
      FoxbitExchange._make_request. run_request.
  - unfold MercadoBitcoinExchange.get_supported_pairs,
      MercadoBitcoinExchange._make_request. run_request.
  - unfold MEXCExchange.get_supported_pairs,
      MEXCExchange._make_request. run_request.
  - unfold NovadaxExchange.get_supported_pairs,
      NovadaxExchange._make_request. run_request.
  - unfold OKXExchange.get_supported_pairs,
      OKXExchange._make_request. run_request.
Qed.

Lemma eq_str_true (v : pyval) (s : string) :
  eq_str v s = true <-> v = PyStr s.
Proof.
  destruct v; simpl; try (split; [discriminate | intros H; discriminate H]).
  rewrite String.eqb_eq. split; congruence.
Qed.

Lemma contains_In (l : list pyval) (s : string) :
  contains l s = true <-> In (PyStr s) l.
Proof.
  unfold contains. rewrite existsb_exists. split.
  - intros (v & Hv & E). apply eq_str_true in E. subst. exact Hv.
  - intros H. exists (PyStr s). split; [exact H | now apply eq_str_true].
Qed.

Lemma validate_timeframe_In (self : BaseExchange) (t : string) :
  validate_timeframe self t = true <-> In t (get_supported_timeframes self).
Proof.
  unfold validate_timeframe. rewrite existsb_exists. split.
  - intros (x & Hx & E). apply String.eqb_eq in E. subst. exact Hx.
  - intros H. exists t. split; [exact H | apply String.eqb_refl].
Qed.

(** C5. [validate_symbol] answers whether the symbol is in the list
    [get_supported_pairs] returns, fetching that list again on every
    call: the call fails as the fetch fails, and the catalog request is
    added to the log each time. [validate_timeframe] answers whether the
    timeframe is in [get_supported_timeframes], without any request. Both
    are defined once, on the contract, for the nine adapters. *)
Theorem validate_defaults (P : platform) (a : adapter) (s t : string)
    (w : list request) :
  (forall pairs w',
     get_supported_pairs (instance P a) w = (Ok pairs, w') ->
     exists b,
       validate_symbol (instance P a) s w = (Ok b, w')
       /\ (b = true <-> In (PyStr s) pairs))
  /\ (forall e w',
        get_supported_pairs (instance P a) w = (Raise e, w') ->
        validate_symbol (instance P a) s w = (Raise e, w'))
  /\ snd (validate_symbol (instance P a) s w)
     = (w ++ [catalog_request a])%list
  /\ (validate_timeframe (instance P a) t = true
      <-> In t (get_supported_timeframes (instance P a))).
Proof.
  repeat split.
  - intros pairs w' H. exists (contains pairs s). split.
    + unfold validate_symbol, bind, ret. rewrite H. reflexivity.
    + apply contains_In.
  - intros e w' H. unfold validate_symbol, bind. rewrite H. reflexivity.
  - rewrite <- get_supported_pairs_log with (P := P).
    unfold validate_symbol, bind, ret.
    destruct (get_supported_pairs (instance P a) w) as [[pairs|e] w'];
      reflexivity.
  - apply validate_timeframe_In.
  - apply validate_timeframe_In.
Qed.

(** ** The Binance scenario *)

Lemma binance_kline_row (P : platform) (d : datetime) :
  fromtimestamp P (PyFloat 1625097600) = Ok d ->
  BinanceExchange.parse_candle P "BTC-BRL" "1h" kline_row
  = Ok (kline_candle d).
Proof.
  destruct P as [rem fts dts so sro fo]. cbn [fromtimestamp]. intros Hd.
  unfold BinanceExchange.parse_candle. cbn [fromtimestamp].
  vm_compute. rewrite Hd. reflexivity.
Qed.

(** C6. For the request [symbol="BTC-BRL"], [timeframe="1h"], a response
    made of the one kline row above yields exactly one candle: its
    timestamp is [datetime.fromtimestamp] of 1625097600.0 seconds, that
    is of index 0 divided by 1000, its prices and volume are the numbers
    written at indices 1 to 5, its quote volume the one at index 7, and
    it carries the symbol and timeframe of the request and the name
    [binance]. *)
Theorem binance_kline_scenario (P : platform) (start_date end_date : datetime)
    (w : list request) (s e : Z) (d : datetime) :
  epoch_ms P start_date = Ok s ->
  epoch_ms P end_date = Ok e ->
  remote P w (passthrough_request Binance "BTC-BRL" "1h" s e)
  = Ok (PyList [kline_row]) ->
  fromtimestamp P (PyFloat 1625097600) = Ok d ->
  fst (get_candles (instance P Binance) "BTC-BRL" "1h" start_date end_date w)
  = Ok [ {| timestamp := d;
            open := 35000; high := 36000; low := 34000; close := 35500;
            volume := 100; quote_volume := Some 3500000%float;
            symbol := "BTC-BRL"; exchange := "binance";
            timeframe := "1h" |} ].
Proof.
  intros Hs He Hr Hd. cbn [instance BinanceExchange.instance get_candles].
  unfold BinanceExchange.get_candles, BinanceExchange._make_request,
    try_except, bind, lift, send.
  rewrite Hs, He. cbn [params_or_empty].
  unfold BinanceExchange._convert_timeframe.
  change (BinanceExchange._convert_symbol "BTC-BRL") with "BTCBRL".
  change (passthrough_request Binance "BTC-BRL" "1h" s e) with
    {| req_method := "GET";
       req_url := "https://api.binance.com/api/v3/klines";
       req_params := [ ("symbol", PyStr "BTCBRL"); ("interval", PyStr "1h");
                       ("startTime", PyInt s); ("endTime", PyInt e) ] |}
    in Hr.
  change (BinanceExchange.BASE_URL ++ "/api/" ++ BinanceExchange.API_VERSION
            ++ "/" ++ "klines")
    with "https://api.binance.com/api/v3/klines".
  rewrite Hr. cbn [iterate rbind mapR].
  rewrite (binance_kline_row P d Hd). reflexivity.
Qed.

(** ** Crypto.com: the quote volume is computed *)

(** A request that returns has been answered by the remote server. *)
Lemma send_Ok (P : platform) (r : request) c (msg : exn -> string) w x w' :
  try_except (send P r) is_RequestException (fun e => raise c (msg e)) w
  = (Ok x, w') ->
  remote P w r = Ok x /\ w' = (w ++ [r])%list.
Proof.
  intros H. apply try_except_Ok in H. unfold send in H.
  inversion H. auto.
Qed.

Lemma crypto_com_row (P : platform) (sym tf : string) (row : pyval)
    (c : Candle) :
  CryptoComExchange.parse_candle P sym tf row = Ok c ->
  float_of_key row "v" = Ok (volume c)
  /\ float_of_key row "c" = Ok (close c)
  /\ quote_volume c = Some (volume c * close c)%float.
Proof.
  intros H. unfold CryptoComExchange.parse_candle in H. rinv H.
  cbn [volume close quote_volume].
  repeat split; try assumption.
  congruence.
Qed.

(** C7. Every candle the Crypto.com adapter returns has, as quote volume,
    the product of [float(row["v"])] and [float(row["c"])] of its payload
    row, which are also its volume and its close; a row with volume 10.0
    and close 50.0 gives the quote volume 500.0 exactly. *)
Theorem crypto_com_quote_volume (P : platform) (sym tf : string)
    (start_date end_date : datetime) (w w' : list request)
    (cs : list Candle) :
  get_candles (instance P CryptoCom) sym tf start_date end_date w
  = (Ok cs, w') ->
  exists (r : request) (response : pyval) (rows : list pyval),
    remote P w r = Ok response
    /\ (res <- getitem response "result" ;;
        data <- getitem res "data" ;;
        iterate data)%res = Ok rows
    /\ Forall2
         (fun row c =>
            float_of_key row "v" = Ok (volume c)
            /\ float_of_key row "c" = Ok (close c)
            /\ quote_volume c = Some (volume c * close c)%float)
         rows cs
    /\ Forall
         (fun c => volume c = 10%float -> close c = 50%float ->
                   quote_volume c = Some 500%float)
         cs.
Proof.
  intros H. cbn [instance CryptoComExchange.instance get_candles] in H.
  unfold CryptoComExchange.get_candles in H. minv H.
  unfold CryptoComExchange._make_request in E2. cbv zeta in E2.
  apply send_Ok in E2. destruct E2 as [Hr _].
  apply lift_Ok in E0, E1. destruct E0 as [_ ->], E1 as [_ ->].
  apply lift_Ok in E. destruct E as [_ ->].
  eexists _, x2, x5. split; [exact Hr|]. split.
  - rewrite E3. cbn [rbind]. rewrite E4. cbn [rbind]. exact E5.
  - apply mapR_Forall2 in H. split.
    + eapply Forall2_impl; [|exact H]. intros row c Hrow.
      eapply crypto_com_row. exact Hrow.
    + eapply Forall2_Forall_r; [|exact H]. intros row c Hrow Hv Hc.
      apply crypto_com_row in Hrow. destruct Hrow as (_ & _ & ->).
      rewrite Hv, Hc. reflexivity.
Qed.

(** ** Serialization of a candle *)




(** ** Symbol translation *)

Lemma prefix_hyphen (c : ascii) (s : string) :
  prefix "-" (String c s) = is_char "-" c.
Proof.
  unfold is_char. cbn [prefix].
  destruct (ascii_dec "-" c) as [<-|Hne].
  - destruct s; reflexivity.
  - symmetry. apply Ascii.eqb_neq. exact Hne.
Qed.

Lemma replace_hyphen_empty (s : string) :
  replace "-" "" s = without_hyphens s.
Proof.
  unfold replace. induction s as [|c s IH]; [reflexivity|].
  cbn [replace_from without_hyphens]. rewrite prefix_hyphen.
  destruct (is_char "-" c); cbn [String.length Nat.sub append];
    rewrite IH; reflexivity.
Qed.

Lemma replace_hyphen_underscore (s : string) :
  replace "-" "_" s = hyphens_to_underscores s.
Proof.
  unfold replace, hyphens_to_underscores.
  induction s as [|c s IH]; [reflexivity|].
  cbn [replace_from str_map]. rewrite prefix_hyphen.
  destruct (is_char "-" c); cbn [String.length Nat.sub append];
    rewrite IH; reflexivity.
Qed.

Lemma ascii_upper_capital (c : ascii) : ascii_upper c = capital c.
Proof.
  destruct c as [b0 b1 b2 b3 b4 b5 b6 b7];
    destruct b0, b1, b2, b3, b4, b5, b6, b7; vm_compute; reflexivity.
Qed.

Lemma ascii_lower_small (c : ascii) : ascii_lower c = small c.
Proof.
  destruct c as [b0 b1 b2 b3 b4 b5 b6 b7];
    destruct b0, b1, b2, b3, b4, b5, b6, b7; vm_compute; reflexivity.
Qed.

Lemma str_map_ext (f g : ascii -> ascii) (s : string) :
  (forall c, f c = g c) -> str_map f s = str_map g s.
Proof.
  intros H. induction s as [|c s IH]; cbn [str_map]; [reflexivity|].
  rewrite H, IH. reflexivity.
Qed.

Lemma plain_char (c : ascii) :
  is_digit c || in_range 65 90 c = true ->
  is_char "-" c = false /\ capital c = c.
Proof.
  destruct c as [b0 b1 b2 b3 b4 b5 b6 b7];
    destruct b0, b1, b2, b3, b4, b5, b6, b7; vm_compute;
    try discriminate; split; reflexivity.
Qed.

Lemma plain_prefix (base rest : string) :
  plain base = true ->
  without_hyphens (base ++ rest) = base ++ without_hyphens rest
  /\ str_map capital (base ++ rest) = base ++ str_map capital rest
  /\ hyphens_to_underscores (base ++ rest)
     = base ++ hyphens_to_underscores rest.
Proof.
  intros Hb. unfold hyphens_to_underscores.
  induction base as [|c b IH]; [repeat split|].
  cbn [plain] in Hb. apply andb_true_iff in Hb. destruct Hb as [Hc Hb].
  destruct (plain_char c Hc) as [Hh Hcap]. destruct (IH Hb) as (E1 & E2 & E3).
  change (String c b ++ rest) with (String c (b ++ rest)).
  cbn [without_hyphens str_map]. rewrite Hh, Hcap, E1, E2, E3.
  repeat split.
Qed.

(** A pair of plain currencies: what dropping the hyphen, upper-casing
    and writing an underscore make of it. *)
Lemma plain_pair (base quote : string) :
  plain base = true -> plain quote = true ->
  without_hyphens (base ++ "-" ++ quote) = base ++ quote
  /\ str_map capital (base ++ quote) = base ++ quote
  /\ hyphens_to_underscores (base ++ "-" ++ quote) = base ++ "_" ++ quote.
Proof.
  intros Hb Hq.
  destruct (plain_prefix quote "" Hq) as (Q1 & Q2 & Q3).
  assert (Hnil : forall x : string, x ++ "" = x)
    by (induction x as [|c x IH]; cbn [append]; [|rewrite IH]; reflexivity).
  rewrite !Hnil in Q1, Q2, Q3.
  destruct (plain_prefix base ("-" ++ quote) Hb) as (E1 & _ & E3).
  destruct (plain_prefix base quote Hb) as (_ & E2 & _).
  rewrite E1, E2, E3, Q2.
  change (without_hyphens ("-" ++ quote)) with (without_hyphens quote).
  change (hyphens_to_underscores ("-" ++ quote))
    with ("_" ++ hyphens_to_underscores quote).
  rewrite Q1, Q3. repeat split.
Qed.

(** C9. The native token is given by the symbol alone, so that the same
    symbol always has the same token. On an ASCII symbol Binance, Bitget,
    Bybit and MEXC drop the hyphens and write every small letter as its
    capital; Foxbit drops the hyphens and writes every capital as its
    small letter; on any symbol Crypto.com and Novadax write an underscore
    for each hyphen, and OKX and Mercado Bitcoin leave the symbol as it
    is. A pair [BASE-QUOTE] of currencies in capitals and digits so
    becomes [BASEQUOTE], in small letters for Foxbit, [BASE_QUOTE], or
    stays [BASE-QUOTE]. *)
Theorem symbol_translation (a : adapter) (s : string) :
  (changes_case a = true -> isascii s = true) ->
  convert_symbol a s
  = match a with
    | Binance | Bitget | Bybit | MEXC => str_map capital (without_hyphens s)
    | Foxbit => str_map small (without_hyphens s)
    | CryptoCom | Novadax => hyphens_to_underscores s
    | OKX | MercadoBitcoin => s
    end
  /\ (forall base quote,
        plain base = true -> plain quote = true ->
        s = base ++ "-" ++ quote ->
        convert_symbol a s
        = match a with
          | Binance | Bitget | Bybit | MEXC => base ++ quote
          | Foxbit => str_map small (base ++ quote)
          | CryptoCom | Novadax => base ++ "_" ++ quote
          | OKX | MercadoBitcoin => base ++ "-" ++ quote
          end).
Proof.
  intros _.
  assert (E : convert_symbol a s
              = match a with
                | Binance | Bitget | Bybit | MEXC =>
                    str_map capital (without_hyphens s)
                | Foxbit => str_map small (without_hyphens s)
                | CryptoCom | Novadax => hyphens_to_underscores s
                | OKX | MercadoBitcoin => s
                end).
  { destruct a; cbn [convert_symbol];
      unfold BinanceExchange._convert_symbol, BitgetExchange._convert_symbol,
        BybitExchange._convert_symbol, CryptoComExchange._convert_symbol,
        FoxbitExchange._convert_symbol,
        MercadoBitcoinExchange._convert_symbol, MEXCExchange._convert_symbol,
        NovadaxExchange._convert_symbol, OKXExchange._convert_symbol,
        upper, lower;
      rewrite ?replace_hyphen_empty, ?replace_hyphen_underscore;
      try reflexivity;
      apply str_map_ext;
      first [exact ascii_upper_capital | exact ascii_lower_small]. }
  split; [exact E|].
  intros base quote Hb Hq ->. rewrite E.
  destruct (plain_pair base quote Hb Hq) as (E1 & E2 & E3).
  destruct a; rewrite ?E1, ?E2, ?E3; reflexivity.
Qed.

(** ** Mercado Bitcoin: the parallel arrays *)

(** With the dates converted and the request answered, [get_candles] is
    the parsing of the response, its exceptions wrapped. *)
Lemma mercado_bitcoin_run (P : platform) (sym tf : string)
    (start_date end_date : datetime) (w : list request) (s e : Z)
    (response : pyval) :
  epoch_s P start_date = Ok s ->
  epoch_s P end_date = Ok e ->
  remote P w (passthrough_request MercadoBitcoin sym tf s e) = Ok response ->
  fst (MercadoBitcoinExchange.get_candles P sym tf start_date end_date w)
  = match MercadoBitcoinExchange.parse_response P sym tf response with
    | Ok cs => Ok cs
    | Raise x =>
        Raise (Exn (APIError MercadoBitcoin)
                 ("Error getting candles from Mercado Bitcoin: "
                    ++ exn_msg x))
    end.
Proof.
  intros Hs He Hr.
  unfold MercadoBitcoinExchange.get_candles,
    MercadoBitcoinExchange._make_request, try_except, bind, lift, send, raise.
  rewrite Hs, He. cbn [params_or_empty].
  unfold MercadoBitcoinExchange._convert_symbol,
    MercadoBitcoinExchange._convert_timeframe.
  change (MercadoBitcoinExchange.BASE_URL ++ "/" ++ "candles")
    with "https://api.mercadobitcoin.net/api/v4/candles".
  unfold passthrough_request in Hr. rewrite Hr.
  destruct (MercadoBitcoinExchange.parse_response P sym tf response);
    reflexivity.
Qed.

Lemma float_at_short (xs : list pyval) (i : nat) (f : float) :
  (List.length xs <= i)%nat -> float_at (PyList xs) i <> Ok f.
Proof.
  intros Hi. unfold float_at, getindex.
  apply nth_error_None in Hi. rewrite Hi. discriminate.
Qed.

Lemma mercado_bitcoin_candle_at (P : platform) (sym tf : string)
    (column : string -> pyval) (i : nat) (c : Candle) :
  MercadoBitcoinExchange.parse_candle P sym tf
    (column "t") (column "o") (column "h") (column "l") (column "c")
    (column "v") i = Ok c
  <-> candle_at P sym tf column i c.
Proof.
  unfold MercadoBitcoinExchange.parse_candle, candle_at, tagged. split.
  - intros H. rinv H.
    cbn [timestamp open high low close volume quote_volume symbol exchange
         timeframe].
    repeat match goal with
           | H1 : ?a = Ok ?x, H2 : ?a = Ok ?y |- _ =>
               rewrite H1 in H2; inversion H2; subst; clear H2
           end.
    repeat split; eauto.
  - intros ((t0 & n & Et & En & Ets) & Eo & Eh & El & Ec & Ev & Eq
            & Es & Ee & Etf).
    rewrite Et. cbn [rbind]. rewrite En. cbn [rbind]. rewrite Ets.
    cbn [rbind]. rewrite Eo. cbn [rbind]. rewrite Eh. cbn [rbind].
    rewrite El. cbn [rbind]. rewrite Ec. cbn [rbind]. rewrite Ev.
    cbn [rbind]. destruct c. cbn in *. subst. reflexivity.
Qed.

(** C10. Let the response of Mercado Bitcoin be a JSON object, each of
    the keys [t], [o], [h], [l], [c], [v] standing for an empty list when
    it is absent. The call returns [cs] exactly when [cs] has one candle
    per element of ["t"], the candle at position [i] being the one of
    index [i] of the six arrays: the element of ["t"] as timestamp, those
    of the five other arrays as prices and volume. Without a ["t"] key
    the call returns no candle and raises nothing; and when the ["t"]
    list is longer than one of the other five lists the call fails with
    the error of the adapter. *)
Theorem mercado_bitcoin_parallel_arrays (P : platform) (sym tf : string)
    (start_date end_date : datetime) (w : list request) (s e : Z)
    (d : list (string * pyval)) :
  epoch_s P start_date = Ok s ->
  epoch_s P end_date = Ok e ->
  remote P w (passthrough_request MercadoBitcoin sym tf s e) = Ok (PyDict d) ->
  let column k :=
    match lookup k d with Some v => v | None => PyList [] end in
  let run :=
    fst (get_candles (instance P MercadoBitcoin) sym tf
           start_date end_date w) in
  (forall cs,
     run = Ok cs
     <-> len (column "t") = Ok (List.length cs)
         /\ Forall2 (candle_at P sym tf column)
              (seq 0 (List.length cs)) cs)
  /\ (lookup "t" d = None -> run = Ok [])
  /\ (forall k ts xs,
        In k parallel_keys ->
        column "t" = PyList ts ->
        column k = PyList xs ->
        (List.length xs < List.length ts)%nat ->
        exists msg, run = Raise (Exn (APIError MercadoBitcoin) msg)).
Proof.
  intros Hs He Hr column run.
  assert (Hrun : run
                 = match (n <- len (column "t") ;;
                          mapR (MercadoBitcoinExchange.parse_candle P sym tf
                                  (column "t") (column "o") (column "h")
                                  (column "l") (column "c") (column "v"))
                            (seq 0 n))%res with
                   | Ok cs => Ok cs
                   | Raise x =>
                       Raise (Exn (APIError MercadoBitcoin)
                                ("Error getting candles from Mercado Bitcoin: "
                                   ++ exn_msg x))
                   end).
  { subst run. cbn [instance MercadoBitcoinExchange.instance get_candles].
    rewrite (mercado_bitcoin_run P sym tf _ _ w s e _ Hs He Hr).
    reflexivity. }
  assert (Hok : forall cs,
             run = Ok cs
             <-> len (column "t") = Ok (List.length cs)
                 /\ Forall2 (candle_at P sym tf column)
                      (seq 0 (List.length cs)) cs).
  { intros cs. rewrite Hrun. split.
    - intros Hcs.
      destruct (rbind (len (column "t")) _) as [cs'|x] eqn:E;
        [|discriminate].
      inversion Hcs; subst cs'. rinv E. apply mapR_Forall2 in E.
      pose proof (Forall2_length E) as Hlen. rewrite length_seq in Hlen.
      subst x. split; [exact E0|].
      apply (Forall2_impl _ (fun i c H =>
               proj1 (mercado_bitcoin_candle_at P sym tf column i c) H)).
      exact E.
    - intros [Hn Hall]. rewrite Hn. cbn [rbind].
      replace (mapR _ _) with (@Ok (list Candle) cs); [reflexivity|].
      symmetry. apply mapR_Ok_iff.
      apply (Forall2_impl _ (fun i c H =>
               proj2 (mercado_bitcoin_candle_at P sym tf column i c) H)).
      exact Hall. }
  split; [exact Hok|]. split.
  - intros Ht. rewrite Hrun. subst column. cbv beta. rewrite Ht.
    reflexivity.
  - intros k ts xs Hk Ht Hx Hlt.
    destruct (rbind (len (column "t")) _) as [cs|x] eqn:E in Hrun;
      [|eauto].
    exfalso. destruct (proj1 (Hok cs) Hrun) as [Hn Hall].
    rewrite Ht in Hn. cbn [len] in Hn. inversion Hn as [Hlen].
    rewrite <- Hlen in Hall.
    assert (Hi : In (List.length xs) (seq 0 (List.length ts)))
      by (apply in_seq; lia).
    destruct (Forall2_In_left _ _ _ _ Hall Hi) as (c & _ & Hc).
    destruct Hc as (_ & Ho & Hh & Hl & Hc & Hv & _).
    unfold parallel_keys in Hk. cbn [In] in Hk.
    destruct Hk as [<-|[<-|[<-|[<-|[<-|[]]]]]]; rewrite Hx in *;
      match goal with
      | H : float_at (PyList xs) _ = Ok _ |- _ =>
          exact (float_at_short xs _ _ (le_n _) H)
      end.
Qed.

(** ** Pair discovery *)

(** *** [sorted] on strings sorts *)

Lemma insert_Permutation (s : string) (l : list string) :
  Permutation (insert s l) (s :: l).
Proof.
  induction l as [|x l IH]; cbn [insert]; [reflexivity|].
  destruct (String.leb s x); [reflexivity|].
  rewrite IH. apply perm_swap.
Qed.

Lemma insert_Sorted (s : string) (l : list string) :
  Sorted str_le l -> Sorted str_le (insert s l).
Proof.
  induction l as [|x l IH]; cbn [insert]; intros Hl.
  - repeat constructor.
  - destruct (String.leb s x) eqn:E.
    + constructor; [exact Hl|]. constructor. exact E.
    + assert (Hxs : str_le x s).
      { destruct (String.leb_total s x) as [H|H]; [congruence|exact H]. }
      inversion Hl as [|? ? Hl' Hhd]; subst.
      constructor; [apply IH; exact Hl'|].
      destruct l as [|y l]; cbn [insert].
      * constructor. exact Hxs.
      * destruct (String.leb s y); constructor;
          [exact Hxs | inversion Hhd; assumption].
Qed.

Lemma sort_strings_Sorted (l : list string) : Sorted str_le (sort_strings l).
Proof.
  induction l as [|x l IH]; cbn [sort_strings fold_right].
  - constructor.
  - apply insert_Sorted. exact IH.
Qed.

Lemma sort_strings_Permutation (l : list string) :
  Permutation (sort_strings l) l.
Proof.
  induction l as [|x l IH]; cbn [sort_strings fold_right]; [reflexivity|].
  rewrite insert_Permutation. constructor. exact IH.
Qed.

Lemma all_str_map (l : list string) : all_str (map PyStr l) = Some l.
Proof.
  induction l as [|x l IH]; cbn [map all_str]; [reflexivity|].
  rewrite IH. reflexivity.
Qed.

Lemma sorted_strings (P : platform) (l : list string) :
  sorted P (map PyStr l) = Ok (map PyStr (sort_strings l)).
Proof. unfold sorted. rewrite all_str_map. reflexivity. Qed.

(** *** What each adapter keeps of a catalog entry *)

(** A loop whose body agrees with [selects] collects [kept]. *)
Lemma collect_kept (P : platform) (a : adapter)
    (f : pyval -> result (option pyval)) entries vals :
  (forall e o, f e = Ok o -> o = option_map PyStr (selects P a e)) ->
  collect f entries = Ok vals ->
  vals = map PyStr (kept P a entries).
Proof.
  intros Hf. revert vals.
  induction entries as [|e entries IH]; cbn [collect]; intros vals H.
  - inversion H. reflexivity.
  - rinv H. apply Hf in E. subst x. specialize (IH _ E0). subst x0.
    unfold kept. cbn [flat_map]. fold (kept P a entries).
    destruct (selects P a e); reflexivity.
Qed.

Section PairOf.
Context (P : platform).

Lemma quoted_pair (entry : pyval) (quote base : string) o :
  (q <- getitem entry quote ;;
   if eq_str q "BRL" then
     (b <- getitem entry base ;;
      q' <- getitem entry quote ;;
      Ok (Some (PyStr (format_value P b ++ "-" ++ format_value P q'))))
   else Ok None)%res = Ok o ->
  o = option_map PyStr
        match getitem entry quote, getitem entry base with
        | Ok q, Ok b =>
            if eq_str q "BRL" then Some (format_value P b ++ "-BRL")
            else None
        | _, _ => None
        end.
Proof.
  intros H. rinv H. rewrite E.
  destruct (eq_str x "BRL") eqn:Hq.
  - rinv H. rewrite E0. rewrite E in E1. inversion E1; subst x1.
    apply eq_str_true in Hq. subst x. reflexivity.
  - inversion H. destruct (getitem entry base); reflexivity.
Qed.

Lemma bitget_pair_of e o :
  BitgetExchange.pair_of P e = Ok o ->
  o = option_map PyStr (selects P Bitget e).
Proof. apply quoted_pair. Qed.

Lemma bybit_pair_of e o :
  BybitExchange.pair_of P e = Ok o ->
  o = option_map PyStr (selects P Bybit e).
Proof. apply quoted_pair. Qed.

Lemma okx_pair_of e o :
  OKXExchange.pair_of P e = Ok o ->
  o = option_map PyStr (selects P OKX e).
Proof. apply quoted_pair. Qed.

Lemma mexc_pair_of e o :
  MEXCExchange.pair_of P e = Ok o ->
  o = option_map PyStr (selects P MEXC e).
Proof.
  intros H. unfold MEXCExchange.pair_of in H. rinv H.
  unfold selects. rewrite E.
  destruct (eq_str x "1").
  - rinv E0. rewrite E1.
    destruct (eq_str x1 "BRL") eqn:Hq.
    + rinv H. rewrite E0. rewrite E1 in E2. inversion E2; subst x2.
      apply eq_str_true in Hq. subst x1. reflexivity.
    + inversion H. destruct (getitem e "baseAsset"); reflexivity.
  - inversion E0; subst x0. inversion H. reflexivity.
Qed.

Lemma crypto_com_pair_of e o :
  CryptoComExchange.pair_of e = Ok o ->
  o = option_map PyStr (selects P CryptoCom e).
Proof.
  intros H. unfold CryptoComExchange.pair_of in H. rinv H.
  unfold selects. rewrite E.
  destruct x; try discriminate E0.
  cbn [py_endswith] in E0. inversion E0; subst x0.
  destruct (endswith s "_BRL").
  - rinv H. rewrite E in E1. inversion E1; subst x.
    cbn [py_replace] in E2. inversion E2. reflexivity.
  - inversion H. reflexivity.
Qed.

Lemma novadax_pair_of e o :
  NovadaxExchange.pair_of e = Ok o ->
  o = option_map PyStr (selects P Novadax e).
Proof.
  intros H. unfold NovadaxExchange.pair_of in H. rinv H.
  unfold selects. rewrite E.
  destruct x; try discriminate E0.
  cbn [py_replace] in E0. inversion E0. reflexivity.
Qed.

Lemma binance_pair_of e o :
  BinanceExchange.pair_of e = Ok o ->
  o = option_map PyStr (selects P Binance e).
Proof.
  intros H. unfold BinanceExchange.pair_of in H. rinv H.
  unfold selects. rewrite E.
  destruct x; try discriminate E0.
  cbn [py_endswith] in E0. inversion E0; subst x0.
  destruct (endswith s "BRL").
  - rinv E1. rewrite E2. cbn [andb].
    destruct (eq_str x "TRADING").
    + rinv H. rewrite E in E1. inversion E1; subst x0.
      cbn [py_replace] in E3. inversion E3. reflexivity.
    + inversion H. reflexivity.
  - inversion E1; subst x1. inversion H.
    destruct (getitem e "status"); reflexivity.
Qed.
End PairOf.

Lemma collect_Forall2 {A B} (f : A -> result B) l vals :
  collect (fun x => y <- f x ;; Ok (Some y))%res l = Ok vals ->
  Forall2 (fun x y => f x = Ok y) l vals.
Proof.
  revert vals. induction l as [|x l IH]; cbn [collect]; intros vals H.
  - inversion H. constructor.
  - rinv H. rinv E. constructor; auto.
Qed.

(** C2, as the code has it. A call of [get_supported_pairs] that returns
    has read the catalog from the response to its one request and
    returns a sorted list.
    - Bitget, Bybit and OKX keep exactly the entries whose quote-currency
      field is ["BRL"], as [BASE-BRL]; MEXC keeps those of them whose
      status is ["1"]; Crypto.com keeps the instruments whose name ends
      in [_BRL]; Binance the symbols that end in [BRL] and are
      ["TRADING"]; Novadax keeps every entry, whatever its quote
      currency, with hyphens for underscores ([selects]).
    - Foxbit returns the ["symbol"] value of every entry, untouched.
    - Mercado Bitcoin returns the symbols of the entries whose type is
      ["CRYPTO"], when these are strings.
    [sorted] puts strings in lexicographic order. *)
Theorem pair_filters (P : platform) (a : adapter) (w w' : list request)
    (pairs : list pyval) :
  get_supported_pairs (instance P a) w = (Ok pairs, w') ->
  (exists response,
     remote P w (catalog_request a) = Ok response
     /\ match a with
        | Foxbit =>
            exists entries symbols,
              catalog a response = Ok entries
              /\ Forall2 (fun e v => getitem e "symbol" = Ok v)
                   entries symbols
              /\ sorted P symbols = Ok pairs
        | MercadoBitcoin =>
            forall df symbols,
              from_records response = Some df ->
              all_str (crypto_symbols df) = Some symbols ->
              pairs = map PyStr (sort_strings symbols)
        | _ =>
            exists entries,
              catalog a response = Ok entries
              /\ pairs = map PyStr (sort_strings (kept P a entries))
        end)
  /\ (forall l : list string,
        sorted P (map PyStr l) = Ok (map PyStr (sort_strings l))
        /\ Sorted str_le (sort_strings l)
        /\ Permutation (sort_strings l) l).
Proof.
  intros H. split.
  2:{ intros l. split; [apply sorted_strings|].
      split; [apply sort_strings_Sorted | apply sort_strings_Permutation]. }
  destruct a; cbn [instance get_supported_pairs BinanceExchange.instance
                     BitgetExchange.instance BybitExchange.instance
                     CryptoComExchange.instance FoxbitExchange.instance
                     MercadoBitcoinExchange.instance MEXCExchange.instance
                     NovadaxExchange.instance OKXExchange.instance] in H.
  - unfold BinanceExchange.get_supported_pairs in H. minv H.
    unfold BinanceExchange._make_request in E. apply send_Ok in E.
    destruct E as [Hr _]. exists x. split; [exact Hr|]. exists x1.
    cbn [catalog]. rewrite E0. cbn [rbind]. split; [exact E1|].
    apply (collect_kept P Binance) in E2; [|apply binance_pair_of].
    subst x2. rewrite sorted_strings in H. inversion H. reflexivity.
  - unfold BitgetExchange.get_supported_pairs in H. minv H.
    unfold BitgetExchange._make_request in E. apply send_Ok in E.
    destruct E as [Hr _]. exists x. split; [exact Hr|]. exists x1.
    cbn [catalog]. rewrite E0. cbn [rbind]. split; [exact E1|].
    apply (collect_kept P Bitget) in E2; [|apply bitget_pair_of].
    subst x2. rewrite sorted_strings in H. inversion H. reflexivity.
  - unfold BybitExchange.get_supported_pairs in H. minv H.
    unfold BybitExchange._make_request in E. apply send_Ok in E.
    destruct E as [Hr _]. exists x. split; [exact Hr|]. exists x2.
    cbn [catalog]. rewrite E0. cbn [rbind]. rewrite E1. cbn [rbind].
    split; [exact E2|].
    apply (collect_kept P Bybit) in E3; [|apply bybit_pair_of].
    subst x3. rewrite sorted_strings in H. inversion H. reflexivity.
  - unfold CryptoComExchange.get_supported_pairs in H. minv H.
    unfold CryptoComExchange._make_request in E. apply send_Ok in E.
    destruct E as [Hr _]. exists x. split; [exact Hr|]. exists x2.
    cbn [catalog]. rewrite E0. cbn [rbind]. rewrite E1. cbn [rbind].
    split; [exact E2|].
    apply (collect_kept P CryptoCom) in E3; [|apply crypto_com_pair_of].
    subst x3. rewrite sorted_strings in H. inversion H. reflexivity.
  - unfold FoxbitExchange.get_supported_pairs in H. minv H.
    unfold FoxbitExchange._make_request in E. apply send_Ok in E.
    destruct E as [Hr _]. exists x. split; [exact Hr|]. exists x1, x2.
    cbn [catalog]. rewrite E0. cbn [rbind]. split; [exact E1|].
    split; [|exact H].
    unfold FoxbitExchange.pair_of in E2. apply collect_Forall2 in E2.
    exact E2.
  - unfold MercadoBitcoinExchange.get_supported_pairs in H. minv H.
    unfold MercadoBitcoinExchange._make_request in E. apply send_Ok in E.
    destruct E as [Hr _]. exists x. split; [exact Hr|].
    intros df symbols Hdf Hsym.
    unfold MercadoBitcoinExchange.select_pairs in H. rewrite Hdf in H.
    destruct (has_column "type" df); [|discriminate H].
    destruct (has_column "symbol" df); [|discriminate H].
    cbn [negb] in H. fold (crypto_symbols df) in H. rewrite Hsym in H.
    inversion H. reflexivity.
  - unfold MEXCExchange.get_supported_pairs in H. minv H.
    unfold MEXCExchange._make_request in E. apply send_Ok in E.
    destruct E as [Hr _]. exists x. split; [exact Hr|]. exists x1.
    cbn [catalog]. rewrite E0. cbn [rbind]. split; [exact E1|].
    apply (collect_kept P MEXC) in E2; [|apply mexc_pair_of].
    subst x2. rewrite sorted_strings in H. inversion H. reflexivity.
  - unfold NovadaxExchange.get_supported_pairs in H. minv H.
    unfold NovadaxExchange._make_request in E. apply send_Ok in E.
    destruct E as [Hr _]. exists x. split; [exact Hr|]. exists x1.
    cbn [catalog]. rewrite E0. cbn [rbind]. split; [exact E1|].
    apply (collect_kept P Novadax) in E2; [|apply novadax_pair_of].
    subst x2. rewrite sorted_strings in H. inversion H. reflexivity.
  - unfold OKXExchange.get_supported_pairs in H. minv H.
    unfold OKXExchange._make_request in E. apply send_Ok in E.
    destruct E as [Hr _]. exists x. split; [exact Hr|]. exists x1.
    cbn [catalog]. rewrite E0. cbn [rbind]. split; [exact E1|].
    apply (collect_kept P OKX) in E2; [|apply okx_pair_of].
    subst x2. rewrite sorted_strings in H. inversion H. reflexivity.
Qed.

(** ** Errors that leave an adapter *)

(** Every exception [get_candles] raises, and every exception
    [get_supported_pairs] raises outside Binance, has the class of the
    adapter: both bodies stand under [except Exception]. *)
Theorem errors_leave_wrapped (P : platform) (a : adapter) (sym tf : string)
    (start_date end_date : datetime) (w : list request) :
  match fst (get_candles (instance P a) sym tf start_date end_date w) with
  | Ok _ => True
  | Raise x => exn_cls x = APIError a
  end
  /\ match a, fst (get_supported_pairs (instance P a) w) with
     | Binance, _ | _, Ok _ => True
     | _, Raise x => exn_cls x = APIError a
     end.
Proof.
  split.
  - destruct (get_candles (instance P a) sym tf start_date end_date w)
      as [[cs|x] w'] eqn:E; cbn [fst]; [exact I|].
    destruct a; cbn [instance get_candles BinanceExchange.instance
                       BitgetExchange.instance BybitExchange.instance
                       CryptoComExchange.instance FoxbitExchange.instance
                       MercadoBitcoinExchange.instance MEXCExchange.instance
                       NovadaxExchange.instance OKXExchange.instance] in E;
      eapply try_all_Raise; exact E.
  - destruct a; try exact I;
      match goal with
      | |- match fst ?m with _ => _ end =>
          destruct m as [[ps|x] w'] eqn:E; cbn [fst]; [exact I|]
      end;
      cbn [instance get_supported_pairs
             BitgetExchange.instance BybitExchange.instance
             CryptoComExchange.instance FoxbitExchange.instance
             MercadoBitcoinExchange.instance MEXCExchange.instance
             NovadaxExchange.instance OKXExchange.instance] in E;
      eapply try_all_Raise; exact E.
Qed.

(** ** The properties on the scenarios *)

(** C4, at the input where the code departs from it: when the catalog
    of Binance is a JSON object without ["symbols"], the [KeyError] of the
    lookup leaves [get_supported_pairs] as it is, since the handler there
    accepts [BinanceAPIError] only. *)
Theorem binance_pairs_error_escapes :
  get_supported_pairs (instance empty_object_server Binance) []
  = (Raise (Exn KeyError "'symbols'"), [catalog_request Binance])
  /\ is_APIError Binance KeyError = false.
Proof. split; reflexivity. Qed.

Lemma get_candles_echoes_request_witness :
  Forall (tagged "BTC-BRL" "binance" "1h") [kline_candle july_1].
Proof.
  apply (get_candles_echoes_request kline_server Binance "BTC-BRL" "1h"
           july_1 july_2 []
           [passthrough_request Binance "BTC-BRL" "1h"
              1625097600000 1625184000000]).
  vm_compute. reflexivity.
Defined.

Lemma not_in_table (t : table) :
  forallb (fun k => negb (String.eqb "2w" k)) (keys t) = true ->
  ~ In "2w" (keys t).
Proof.
  intros H Hin. rewrite forallb_forall in H. apply H in Hin.
  rewrite String.eqb_refl in Hin. discriminate.
Qed.

Lemma unsupported_timeframe_witness :
  (exists msg,
     get_candles (instance kline_server Bitget) "BTC-BRL" "2w"
       july_1 july_2 []
     = (Raise (Exn (APIError Bitget) msg), []))
  /\ snd (get_candles (instance kline_server Binance) "BTC-BRL" "2w"
            july_1 july_2 [])
     = [passthrough_request Binance "BTC-BRL" "2w"
          1625097600000 1625184000000].
Proof.
  split.
  - apply (proj1 (unsupported_timeframe kline_server Bitget "BTC-BRL" "2w"
                    july_1 july_2 [])).
    + reflexivity.
    + apply not_in_table. reflexivity.
  - apply (proj2 (unsupported_timeframe kline_server Binance "BTC-BRL" "2w"
                    july_1 july_2 [])).
    + reflexivity.
    + vm_compute. reflexivity.
    + vm_compute. reflexivity.
Defined.

Lemma binance_kline_scenario_witness :
  fst (get_candles (instance kline_server Binance) "BTC-BRL" "1h"
         july_1 july_2 [])
  = Ok [ {| timestamp :=
              {| year := 2021; month := 7; day := 1;
                 hour := 0; minute := 0; second := 0; microsecond := 0 |};
            open := 35000; high := 36000; low := 34000; close := 35500;
            volume := 100; quote_volume := Some 3500000%float;
            symbol := "BTC-BRL"; exchange := "binance";
            timeframe := "1h" |} ].
Proof.
  apply (binance_kline_scenario kline_server july_1 july_2 []
           1625097600000 1625184000000).
  - vm_compute. reflexivity.
  - vm_compute. reflexivity.
  - reflexivity.
  - vm_compute. reflexivity.
Defined.

Lemma validate_defaults_witness :
  exists b,
    validate_symbol (instance binance_catalog_server Binance) "BTC-BRL" []
    = (Ok b, [catalog_request Binance])
    /\ (b = true <-> In (PyStr "BTC-BRL") [PyStr "BTC-BRL"; PyStr "ETH-BRL"]).
Proof.
  apply (proj1 (validate_defaults binance_catalog_server Binance
                  "BTC-BRL" "1h" [])).
  vm_compute. reflexivity.
Defined.

Lemma crypto_com_quote_volume_witness :
  Forall2
    (fun row c =>
       float_of_key row "v" = Ok (volume c)
       /\ float_of_key row "c" = Ok (close c)
       /\ quote_volume c = Some (volume c * close c)%float)
    [ PyDict [ ("t", PyInt 1625097600000); ("o", PyFloat 48);
               ("h", PyFloat 52); ("l", PyFloat 47);
               ("c", PyFloat 50); ("v", PyFloat 10) ] ]
    [crypto_com_candle].
Proof.
  destruct (crypto_com_quote_volume crypto_com_server "BTC-BRL" "1h"
              july_1 july_2 []
              (snd (get_candles (instance crypto_com_server CryptoCom)
                      "BTC-BRL" "1h" july_1 july_2 []))
              [crypto_com_candle])
    as (r & response & rows & Hr & Hrows & Hall & _).
  - vm_compute. reflexivity.
  - vm_compute in Hr. inversion Hr; subst response.
    vm_compute in Hrows. inversion Hrows; subst rows.
    exact Hall.
Defined.

Lemma pair_filters_witness :
  exists entries,
    catalog Bybit (PyDict [("result", PyDict [("list", PyList bybit_entries)])])
    = Ok entries
    /\ [PyStr "BTC-BRL"; PyStr "ETH-BRL"]
       = map PyStr (sort_strings (kept bybit_catalog_server Bybit entries)).
Proof.
  destruct (pair_filters bybit_catalog_server Bybit []
              [catalog_request Bybit] [PyStr "BTC-BRL"; PyStr "ETH-BRL"])
    as [(response & Hr & Hkept) _].
  - vm_compute. reflexivity.
  - cbn [remote bybit_catalog_server Reference.utc] in Hr.
    inversion Hr; subst response. exact Hkept.
Defined.

(** C2 fails as it is stated: Novadax is not among the three exceptions,
    yet it applies no filter. From a catalog whose only pair is quoted in
    USDT it returns that pair, so the pairs it returns do not all come
    from entries whose quote-currency field is ["BRL"]. *)
Lemma novadax_keeps_other_quotes :
  exists pairs entries,
    fst (get_supported_pairs (instance novadax_catalog_server Novadax) [])
    = Ok pairs
    /\ catalog Novadax (PyDict [("data", PyList [novadax_entry])])
       = Ok entries
    /\ ~ (forall p, In p pairs ->
          exists e, In e entries
                    /\ getitem e "quoteCurrency" = Ok (PyStr "BRL")).
Proof.
  exists [PyStr "BTC-USDT"], [novadax_entry].
  split; [reflexivity|]. split; [reflexivity|].
  intros H. destruct (H (PyStr "BTC-USDT")) as (e & [<-|[]] & Hq).
  - left. reflexivity.
  - discriminate Hq.
Qed.

Lemma symbol_translation_witness :
  convert_symbol Binance "eth-brl" = "ETHBRL"
  /\ convert_symbol Foxbit "BTC-BRL" = "btcbrl"
  /\ convert_symbol Novadax "BTC-BRL" = "BTC_BRL".
Proof.
  split; [|split].
  - exact (proj1 (symbol_translation Binance "eth-brl" (fun _ => eq_refl))).
  - exact (proj2 (symbol_translation Foxbit "BTC-BRL" (fun _ => eq_refl))
             "BTC" "BRL" eq_refl eq_refl eq_refl).
  - exact (proj2 (symbol_translation Novadax "BTC-BRL" (fun _ => eq_refl))
             "BTC" "BRL" eq_refl eq_refl eq_refl).
Defined.

Lemma mercado_bitcoin_parallel_arrays_witness :
  fst (get_candles (instance empty_object_server MercadoBitcoin)
         "BTC-BRL" "1h" july_1 july_2 [])
  = Ok []
  /\ (exists msg,
        fst (get_candles (instance short_opens_server MercadoBitcoin)
               "BTC-BRL" "1h" july_1 july_2 [])
        = Raise (Exn (APIError MercadoBitcoin) msg))
  /\ fst (get_candles (instance two_hours_server MercadoBitcoin)
            "BTC-BRL" "1h" july_1 july_2 [])
     = Ok two_hours_candles.
Proof.
  split; [|split].
  - apply (mercado_bitcoin_parallel_arrays empty_object_server
             "BTC-BRL" "1h" july_1 july_2 [] 1625097600 1625184000 []).
    + vm_compute. reflexivity.
    + vm_compute. reflexivity.
    + reflexivity.
    + reflexivity.
  - apply (proj2 (proj2
             (mercado_bitcoin_parallel_arrays short_opens_server
                "BTC-BRL" "1h" july_1 july_2 [] 1625097600 1625184000
                short_opens
                ltac:(vm_compute; reflexivity)
                ltac:(vm_compute; reflexivity)
                ltac:(reflexivity)))
           "o" [PyInt 1625097600; PyInt 1625101200] [PyStr "35000.0"]).
    + cbn. auto.
    + reflexivity.
    + reflexivity.
    + cbn. lia.
  - apply (proj1
             (mercado_bitcoin_parallel_arrays two_hours_server
                "BTC-BRL" "1h" july_1 july_2 [] 1625097600 1625184000
                two_hours
                ltac:(vm_compute; reflexivity)
                ltac:(vm_compute; reflexivity)
                ltac:(reflexivity))
             two_hours_candles).
    split; [reflexivity|].
    repeat constructor;
      try (eexists; eexists; repeat split; vm_compute; reflexivity);
      vm_compute; reflexivity.
Defined.

(** ** [get_candles], from the request to the candles *)

Lemma convert_lookup (t : table) (k v : string) :
  table_get k t = Some v ->
  (if negb (table_mem k t)
   then throw ValueError ("Unsupported timeframe: " ++ k)
   else table_item t k) = Ok v.
Proof.
  intros H. unfold table_mem, table_item. rewrite H. reflexivity.
Qed.

(** The request the code builds is the one of [candles_request]. *)
Ltac same_request :=
  match goal with
  | |- context [remote ?P ?w ?r1] =>
      lazymatch r1 with
      | candles_request _ _ _ _ _ => fail
      | _ =>
          match goal with
          | |- context [candles_request ?a ?sym ?n ?s ?e] =>
              change r1 with (candles_request a sym n s e)
          end
      end
  end.

Ltac run_candles :=
  unfold try_except, bind, lift, send, raise, wrapped, request_outcome;
  cbn [params_or_empty parse_candles candle_rows parse_row candles_prefix];
  same_request;
  repeat match goal with
         | |- context [remote ?P ?w ?r] => destruct (remote P w r) as [?|[[] ?]]
         end;
  cbn [rbind is_RequestException is_Exception exn_cls exn_msg];
  try reflexivity;
  unfold rbind;
  repeat (cbv beta iota;
          match goal with
          | |- context [match ?x with _ => _ end] =>
              lazymatch x with
              | context [match _ with _ => _ end] => fail
              | _ => destruct x
              end
          end);
  reflexivity.

(** With the timeframe translated and the dates converted, [get_candles]
    sends its request and parses the answer; whatever is raised on the
    way leaves wrapped. *)
Lemma get_candles_run (P : platform) (a : adapter) (sym tf native : string)
    (start_date end_date : datetime) (w : list request) (s e : Z) :
  native_timeframe a tf = Some native ->
  request_epoch P a start_date = Ok s ->
  request_epoch P a end_date = Ok e ->
  get_candles (instance P a) sym tf start_date end_date w
  = (match (response <- request_outcome a
                          (remote P w (candles_request a sym native s e)) ;;
            parse_candles P a sym tf response)%res with
     | Ok cs => Ok cs
     | Raise x => Raise (wrapped a (candles_prefix a) x)
     end,
     (w ++ [candles_request a sym native s e])%list).
Proof.
  intros Hn Hs He.
  destruct a; cbn [instance get_candles native_timeframe request_epoch
                     BinanceExchange.instance
                     BitgetExchange.instance BybitExchange.instance
                     CryptoComExchange.instance FoxbitExchange.instance
                     MercadoBitcoinExchange.instance MEXCExchange.instance
                     NovadaxExchange.instance OKXExchange.instance] in *.
  - inversion Hn; subst native.
    unfold BinanceExchange.get_candles, BinanceExchange._make_request.
    rewrite Hs, He. run_candles.
  - unfold BitgetExchange.get_candles, BitgetExchange._make_request,
      BitgetExchange._convert_timeframe.
    rewrite (convert_lookup _ _ _ Hn), Hs, He. run_candles.
  - unfold BybitExchange.get_candles, BybitExchange._make_request,
      BybitExchange._convert_timeframe.
    rewrite (convert_lookup _ _ _ Hn), Hs, He. run_candles.
  - unfold CryptoComExchange.get_candles, CryptoComExchange._make_request,
      CryptoComExchange._convert_timeframe.
    rewrite (convert_lookup _ _ _ Hn), Hs, He. run_candles.
  - inversion Hn; subst native.
    unfold FoxbitExchange.get_candles, FoxbitExchange._make_request.
    rewrite Hs, He. run_candles.
  - inversion Hn; subst native.
    unfold MercadoBitcoinExchange.get_candles,
      MercadoBitcoinExchange._make_request.
    rewrite Hs, He. run_candles.
  - unfold MEXCExchange.get_candles, MEXCExchange._make_request,
      MEXCExchange._convert_timeframe.
    rewrite (convert_lookup _ _ _ Hn), Hs, He. run_candles.
  - unfold NovadaxExchange.get_candles, NovadaxExchange._make_request,
      NovadaxExchange._convert_timeframe.
    rewrite (convert_lookup _ _ _ Hn), Hs, He. run_candles.
  - unfold OKXExchange.get_candles, OKXExchange._make_request,
      OKXExchange._convert_timeframe.
    rewrite (convert_lookup _ _ _ Hn), Hs, He. run_candles.
Qed.

(** X2. When the timeframe has a native name and the two dates are
    converted, [get_candles] sends exactly one request, the one of
    [candles_request]: the translated symbol, the native timeframe and the
    dates in milliseconds (seconds for Mercado Bitcoin and Novadax), OKX
    taking the end as [after] and the start as [before]. *)
Theorem get_candles_request (P : platform) (a : adapter)
    (sym tf native : string) (start_date end_date : datetime)
    (w : list request) (s e : Z) :
  native_timeframe a tf = Some native ->
  request_epoch P a start_date = Ok s ->
  request_epoch P a end_date = Ok e ->
  snd (get_candles (instance P a) sym tf start_date end_date w)
  = (w ++ [candles_request a sym native s e])%list.
Proof.
  intros Hn Hs He.
  rewrite (get_candles_run P a sym tf native _ _ w s e Hn Hs He).
  reflexivity.
Qed.

Lemma get_candles_request_witness :
  snd (get_candles (instance kline_server OKX) "BTC-BRL" "1h"
         july_1 july_2 [])
  = [ {| req_method := "GET";
         req_url := "https://www.okx.com/api/v5/market/history-candles";
         req_params := [ ("instId", PyStr "BTC-BRL"); ("bar", PyStr "1H");
                         ("after", PyInt 1625184000000);
                         ("before", PyInt 1625097600000) ] |} ].
Proof.
  apply (get_candles_request kline_server OKX "BTC-BRL" "1h" "1H"
           july_1 july_2 [] 1625097600000 1625184000000).
  - reflexivity.
  - vm_compute. reflexivity.
  - vm_compute. reflexivity.
Defined.

(** X3. For the eight adapters that read one row per candle, let the
    request be answered by a response whose rows are [rows]. The call
    returns [cs] exactly when every row parses and [cs] holds their
    candles in the order of the rows: nothing is sorted, dropped or
    added. A single row that does not parse makes the whole call fail
    with the error of the adapter, and no rows give no candles. *)
Theorem get_candles_row_by_row (P : platform) (a : adapter)
    (sym tf native : string) (start_date end_date : datetime)
    (w : list request) (s e : Z) (response : pyval) (rows : list pyval) :
  a <> MercadoBitcoin ->
  native_timeframe a tf = Some native ->
  request_epoch P a start_date = Ok s ->
  request_epoch P a end_date = Ok e ->
  remote P w (candles_request a sym native s e) = Ok response ->
  candle_rows a response = Ok rows ->
  let run :=
    fst (get_candles (instance P a) sym tf start_date end_date w) in
  (forall cs,
     run = Ok cs
     <-> Forall2 (fun row c => parse_row P a sym tf row = Ok c) rows cs)
  /\ (forall row,
        In row rows ->
        (forall c, parse_row P a sym tf row <> Ok c) ->
        exists msg, run = Raise (Exn (APIError a) msg))
  /\ (rows = [] -> run = Ok []).
Proof.
  intros Ha Hn Hs He Hr Hrows run.
  assert (Hrun : run = match mapR (parse_row P a sym tf) rows with
                       | Ok cs => Ok cs
                       | Raise x => Raise (wrapped a (candles_prefix a) x)
                       end).
  { subst run.
    rewrite (get_candles_run P a sym tf native _ _ w s e Hn Hs He).
    cbn [fst]. rewrite Hr. cbn [request_outcome rbind].
    destruct a; try contradiction; cbn [parse_candles]; rewrite Hrows;
      reflexivity. }
  assert (Hiff : forall cs,
             run = Ok cs
             <-> Forall2 (fun row c => parse_row P a sym tf row = Ok c)
                   rows cs).
  { intros cs. rewrite <- mapR_Ok_iff, Hrun.
    destruct (mapR (parse_row P a sym tf) rows);
      split; intros H; inversion H; reflexivity. }
  split; [exact Hiff|]. split.
  - intros row Hin Hbad. rewrite Hrun.
    destruct (mapR (parse_row P a sym tf) rows) as [cs|x] eqn:E.
    + apply mapR_Forall2 in E.
      destruct (Forall2_In_left _ _ _ _ E Hin) as (c & _ & Hc).
      exfalso. exact (Hbad c Hc).
    + eexists. reflexivity.
  - intros ->. apply Hiff. constructor.
Qed.

Lemma get_candles_row_by_row_witness :
  fst (get_candles (instance kline_server Binance) "BTC-BRL" "1h"
         july_1 july_2 [])
  = Ok [kline_candle july_1].
Proof.
  apply (proj1 (get_candles_row_by_row kline_server Binance
                  "BTC-BRL" "1h" "1h" july_1 july_2 []
                  1625097600000 1625184000000
                  (PyList [kline_row]) [kline_row]
                  ltac:(discriminate) ltac:(reflexivity)
                  ltac:(vm_compute; reflexivity)
                  ltac:(vm_compute; reflexivity)
                  ltac:(reflexivity) ltac:(reflexivity))).
  constructor; [vm_compute; reflexivity | constructor].
Defined.

(** A key of a JSON object is text: as a kline row of Binance it never
    parses, since its first character cannot be divided by 1000. *)
Lemma binance_key_row (P : platform) (sym tf k : string) (c : Candle) :
  BinanceExchange.parse_candle P sym tf (PyStr k) <> Ok c.
Proof.
  unfold BinanceExchange.parse_candle, getindex.
  destruct (String.get 0 k); discriminate.
Qed.

(** X4. When Binance answers the klines request with a JSON object
    instead of a list of rows, [get_candles] fails with
    [BinanceAPIError], whatever the object holds, unless the object is
    empty: then it returns no candle and raises nothing. *)
Theorem binance_object_response (P : platform) (sym tf : string)
    (start_date end_date : datetime) (w : list request) (s e : Z)
    (d : list (string * pyval)) :
  epoch_ms P start_date = Ok s ->
  epoch_ms P end_date = Ok e ->
  remote P w (candles_request Binance sym tf s e) = Ok (PyDict d) ->
  let run :=
    fst (get_candles (instance P Binance) sym tf start_date end_date w) in
  (d = [] -> run = Ok [])
  /\ (d <> [] -> exists msg, run = Raise (Exn (APIError Binance) msg)).
Proof.
  intros Hs He Hr run. subst run.
  rewrite (get_candles_run P Binance sym tf tf _ _ w s e
             eq_refl Hs He).
  cbn [fst]. rewrite Hr.
  cbn [request_outcome rbind parse_candles candle_rows iterate parse_row].
  split.
  - intros ->. reflexivity.
  - intros Hd. destruct d as [|[k v] d]; [contradiction|].
    cbn [map mapR fst rbind].
    destruct (BinanceExchange.parse_candle P sym tf (PyStr k)) as [c|x] eqn:E.
    + exfalso. exact (binance_key_row P sym tf k c E).
    + cbn [rbind]. eexists. reflexivity.
Qed.

Lemma binance_object_response_witness :
  fst (get_candles (instance empty_object_server Binance) "BTC-BRL" "1h"
         july_1 july_2 [])
  = Ok []
  /\ exists msg,
       fst (get_candles (instance binance_error_server Binance)
              "BTC-BRL" "1h" july_1 july_2 [])
       = Raise (Exn (APIError Binance) msg).
Proof.
  split.
  - apply (proj1 (binance_object_response empty_object_server
                    "BTC-BRL" "1h" july_1 july_2 []
                    1625097600000 1625184000000 []
                    ltac:(vm_compute; reflexivity)
                    ltac:(vm_compute; reflexivity)
                    ltac:(reflexivity))).
    reflexivity.
  - apply (proj2 (binance_object_response binance_error_server
                    "BTC-BRL" "1h" july_1 july_2 []
                    1625097600000 1625184000000 _
                    ltac:(vm_compute; reflexivity)
                    ltac:(vm_compute; reflexivity)
                    ltac:(reflexivity))).
    discriminate.
Defined.

(** ** What every candle carries *)

Ltac quote_row parse :=
  let row := fresh "row" in
  let c := fresh "c" in
  let H := fresh "H" in
  intros row c H; unfold parse in H; rinv H;
  eexists; split; [reflexivity | try discriminate].

(** X5. Every candle any adapter returns has a quote volume: the field
    is never left at [None]. In Mercado Bitcoin, which reports no quote
    figure, it is the base volume again. *)
Theorem quote_volume_always_set (P : platform) (a : adapter)
    (sym tf : string) (start_date end_date : datetime)
    (w w' : list request) (cs : list Candle) :
  get_candles (instance P a) sym tf start_date end_date w = (Ok cs, w') ->
  Forall
    (fun c =>
       exists q, quote_volume c = Some q
                 /\ (a = MercadoBitcoin -> q = volume c))
    cs.
Proof.
  intros H. destruct a; cbn [instance get_candles BinanceExchange.instance
                     BitgetExchange.instance BybitExchange.instance
                     CryptoComExchange.instance FoxbitExchange.instance
                     MercadoBitcoinExchange.instance MEXCExchange.instance
                     NovadaxExchange.instance OKXExchange.instance] in H.
  - unfold BinanceExchange.get_candles in H. minv H.
    eapply mapR_Forall; [|exact H]. quote_row BinanceExchange.parse_candle.
  - unfold BitgetExchange.get_candles in H. minv H.
    eapply mapR_Forall; [|exact H]. quote_row BitgetExchange.parse_candle.
  - unfold BybitExchange.get_candles in H. minv H.
    eapply mapR_Forall; [|exact H]. quote_row BybitExchange.parse_candle.
  - unfold CryptoComExchange.get_candles in H. minv H.
    eapply mapR_Forall; [|exact H]. quote_row CryptoComExchange.parse_candle.
  - unfold FoxbitExchange.get_candles in H. minv H.
    eapply mapR_Forall; [|exact H]. quote_row FoxbitExchange.parse_candle.
  - unfold MercadoBitcoinExchange.get_candles in H. minv H.
    unfold MercadoBitcoinExchange.parse_response in H. rinv H.
    eapply mapR_Forall; [|exact H].
    intros i c Hc. unfold MercadoBitcoinExchange.parse_candle in Hc. rinv Hc.
    eexists. split; [reflexivity|]. intros _. cbn [volume]. congruence.
  - unfold MEXCExchange.get_candles in H. minv H.
    eapply mapR_Forall; [|exact H]. quote_row MEXCExchange.parse_candle.
  - unfold NovadaxExchange.get_candles in H. minv H.
    eapply mapR_Forall; [|exact H]. quote_row NovadaxExchange.parse_candle.
  - unfold OKXExchange.get_candles in H. minv H.
    eapply mapR_Forall; [|exact H]. quote_row OKXExchange.parse_candle.
Qed.

Lemma quote_volume_always_set_witness :
  Forall
    (fun c =>
       exists q, quote_volume c = Some q
                 /\ (Binance = MercadoBitcoin -> q = volume c))
    [kline_candle july_1].
Proof.
  apply (quote_volume_always_set kline_server Binance "BTC-BRL" "1h"
           july_1 july_2 []
           [candles_request Binance "BTC-BRL" "1h"
              1625097600000 1625184000000]).
  vm_compute. reflexivity.
Defined.

(** ** Failures of the request *)

(** X6. When the request of [get_candles] fails, the error of the
    adapter names both layers. An exception of [requests] is wrapped by
    [_make_request] and again by [get_candles], so its text follows the
    prefix of the adapter and ["API request failed: "]; any other
    exception is wrapped once. In both cases the request stays in the
    log. *)
Theorem request_failure_message (P : platform) (a : adapter)
    (sym tf native : string) (start_date end_date : datetime)
    (w : list request) (s e : Z) (x : exn) :
  native_timeframe a tf = Some native ->
  request_epoch P a start_date = Ok s ->
  request_epoch P a end_date = Ok e ->
  remote P w (candles_request a sym native s e) = Raise x ->
  get_candles (instance P a) sym tf start_date end_date w
  = (Raise
       (Exn (APIError a)
          (candles_prefix a
             ++ (if is_RequestException (exn_cls x)
                 then "API request failed: " ++ exn_msg x
                 else exn_msg x))),
     (w ++ [candles_request a sym native s e])%list).
Proof.
  intros Hn Hs He Hr.
  rewrite (get_candles_run P a sym tf native _ _ w s e Hn Hs He), Hr.
  cbn [request_outcome]. destruct (is_RequestException (exn_cls x));
    reflexivity.
Qed.

Lemma request_failure_message_witness :
  fst (get_candles (instance offline Bybit) "BTC-BRL" "1h" july_1 july_2 [])
  = Raise
      (Exn (APIError Bybit)
         "Error getting candles from Bybit: API request failed: Connection refused").
Proof.
  rewrite (request_failure_message offline Bybit "BTC-BRL" "1h" "60"
             july_1 july_2 [] 1625097600000 1625184000000
             (Exn RequestException "Connection refused")).
  - reflexivity.
  - reflexivity.
  - vm_compute. reflexivity.
  - vm_compute. reflexivity.
  - reflexivity.
Defined.

(** ** Timeframe translation *)

Lemma table_get_In (k v : string) (t : table) :
  table_get k t = Some v -> In v (map snd t).
Proof.
  induction t as [|[k' v'] t IH]; cbn [table_get map snd]; [discriminate|].
  destruct (k =? k')%string.
  - intros H. inversion H. now left.
  - intros H. right. exact (IH H).
Qed.

Lemma table_get_inj (t : table) (k1 k2 v : string) :
  NoDup (map snd t) ->
  table_get k1 t = Some v -> table_get k2 t = Some v -> k1 = k2.
Proof.
  induction t as [|[k' v'] t IH]; cbn [table_get map snd];
    [discriminate|].
  intros Hnd H1 H2. inversion Hnd as [|? ? Hnotin Hnd']; subst.
  destruct (String.eqb_spec k1 k') as [->|N1];
    destruct (String.eqb_spec k2 k') as [->|N2].
  - reflexivity.
  - inversion H1; subst v'. apply table_get_In in H2. contradiction.
  - inversion H2; subst v'. apply table_get_In in H1. contradiction.
  - exact (IH Hnd' H1 H2).
Qed.

Ltac distinct_values :=
  repeat (constructor; [cbn [In]; intuition discriminate|]); constructor.

Lemma native_names_distinct (a : adapter) (tf tf' native : string) :
  native_timeframe a tf = Some native ->
  native_timeframe a tf' = Some native ->
  tf = tf'.
Proof.
  destruct a; cbn [native_timeframe];
    try (intros H1 H2; congruence);
    apply table_get_inj; cbv [map snd
      BitgetExchange._supported_timeframes
      BybitExchange._supported_timeframes
      CryptoComExchange._supported_timeframes
      MEXCExchange._supported_timeframes
      NovadaxExchange._supported_timeframes
      OKXExchange._supported_timeframes]; distinct_values.
Qed.

Lemma convert_native (a : adapter) (tf : string) :
  convert_timeframe a tf
  = match native_timeframe a tf with
    | Some native => Ok native
    | None => throw ValueError ("Unsupported timeframe: " ++ tf)
    end.
Proof.
  destruct a; cbn [convert_timeframe native_timeframe]; try reflexivity;
    unfold BitgetExchange._convert_timeframe,
      BybitExchange._convert_timeframe, CryptoComExchange._convert_timeframe,
      MEXCExchange._convert_timeframe, NovadaxExchange._convert_timeframe,
      OKXExchange._convert_timeframe, table_mem, table_item;
    match goal with
    | |- context [table_get tf ?t] => destruct (table_get tf t)
    end; reflexivity.
Qed.

Lemma native_supported (P : platform) (a : adapter) (tf : string) :
  looks_up a = true ->
  (validate_timeframe (instance P a) tf = true
   <-> exists native, native_timeframe a tf = Some native).
Proof.
  intros Ha. rewrite validate_timeframe_In.
  destruct a; try discriminate Ha;
    cbn [instance get_supported_timeframes native_timeframe
           BitgetExchange.instance BybitExchange.instance
           CryptoComExchange.instance MEXCExchange.instance
           NovadaxExchange.instance OKXExchange.instance];
    unfold BitgetExchange.get_supported_timeframes,
      BybitExchange.get_supported_timeframes,
      CryptoComExchange.get_supported_timeframes,
      MEXCExchange.get_supported_timeframes,
      NovadaxExchange.get_supported_timeframes,
      OKXExchange.get_supported_timeframes;
    rewrite <- table_mem_keys; unfold table_mem;
    match goal with
    | |- context [table_get tf ?t] => destruct (table_get tf t)
    end;
    (split; [intros H; try discriminate H; eauto | intros [n H]; try discriminate H; reflexivity]).
Qed.

(** X7. In the six adapters with a table, [_convert_timeframe] succeeds
    exactly on the timeframes [validate_timeframe] accepts, and raises
    [ValueError] naming the timeframe on the others; in Binance, Foxbit
    and Mercado Bitcoin it returns any text unchanged, also one that
    [validate_timeframe] rejects. No adapter gives two timeframes the same
    native name. *)
Theorem timeframe_translation (P : platform) (a : adapter) (tf : string) :
  (if looks_up a then
     if validate_timeframe (instance P a) tf
     then exists native, convert_timeframe a tf = Ok native
     else convert_timeframe a tf
          = Raise (Exn ValueError ("Unsupported timeframe: " ++ tf))
   else convert_timeframe a tf = Ok tf)
  /\ (forall tf' native,
        convert_timeframe a tf = Ok native ->
        convert_timeframe a tf' = Ok native ->
        tf = tf').
Proof.
  split.
  - destruct (looks_up a) eqn:Ha.
    + pose proof (native_supported P a tf Ha) as Hv.
      rewrite convert_native.
      destruct (validate_timeframe (instance P a) tf).
      * destruct (proj1 Hv eq_refl) as [n ->]. eauto.
      * destruct (native_timeframe a tf) as [n|] eqn:E; [|reflexivity].
        assert (false = true) by (apply Hv; eauto). discriminate.
    + destruct a; try discriminate Ha; reflexivity.
  - intros tf' native. rewrite !convert_native.
    destruct (native_timeframe a tf) as [n|] eqn:E; [|discriminate].
    destruct (native_timeframe a tf') as [n'|] eqn:E'; [|discriminate].
    intros H H'. inversion H; inversion H'; subst.
    exact (native_names_distinct a tf tf' native E E').
Qed.

(** ** Pair discovery, continued *)

(** For the adapters that build their pairs as text, a call that
    returns has sorted what [selects] keeps of the catalog. *)
Lemma kept_pairs (P : platform) (a : adapter) (w w' : list request)
    (pairs : list pyval) :
  builds_strings a = true ->
  get_supported_pairs (instance P a) w = (Ok pairs, w') ->
  exists response entries,
    remote P w (catalog_request a) = Ok response
    /\ catalog a response = Ok entries
    /\ pairs = map PyStr (sort_strings (kept P a entries)).
Proof.
  intros Ha H.
  destruct a; try discriminate Ha;
    cbn [instance get_supported_pairs BinanceExchange.instance
           BitgetExchange.instance BybitExchange.instance
           CryptoComExchange.instance MEXCExchange.instance
           NovadaxExchange.instance OKXExchange.instance] in H.
  - unfold BinanceExchange.get_supported_pairs in H. minv H.
    unfold BinanceExchange._make_request in E. apply send_Ok in E.
    destruct E as [Hr _]. exists x, x1. split; [exact Hr|].
    cbn [catalog]. rewrite E0. cbn [rbind]. split; [exact E1|].
    apply (collect_kept P Binance) in E2; [|apply binance_pair_of].
    subst x2. rewrite sorted_strings in H. inversion H. reflexivity.
  - unfold BitgetExchange.get_supported_pairs in H. minv H.
    unfold BitgetExchange._make_request in E. apply send_Ok in E.
    destruct E as [Hr _]. exists x, x1. split; [exact Hr|].
    cbn [catalog]. rewrite E0. cbn [rbind]. split; [exact E1|].
    apply (collect_kept P Bitget) in E2; [|apply bitget_pair_of].
    subst x2. rewrite sorted_strings in H. inversion H. reflexivity.
  - unfold BybitExchange.get_supported_pairs in H. minv H.
    unfold BybitExchange._make_request in E. apply send_Ok in E.
    destruct E as [Hr _]. exists x, x2. split; [exact Hr|].
    cbn [catalog]. rewrite E0. cbn [rbind]. rewrite E1. cbn [rbind].
    split; [exact E2|].
    apply (collect_kept P Bybit) in E3; [|apply bybit_pair_of].
    subst x3. rewrite sorted_strings in H. inversion H. reflexivity.
  - unfold CryptoComExchange.get_supported_pairs in H. minv H.
    unfold CryptoComExchange._make_request in E. apply send_Ok in E.
    destruct E as [Hr _]. exists x, x2. split; [exact Hr|].
    cbn [catalog]. rewrite E0. cbn [rbind]. rewrite E1. cbn [rbind].
    split; [exact E2|].
    apply (collect_kept P CryptoCom) in E3; [|apply crypto_com_pair_of].
    subst x3. rewrite sorted_strings in H. inversion H. reflexivity.
  - unfold MEXCExchange.get_supported_pairs in H. minv H.
    unfold MEXCExchange._make_request in E. apply send_Ok in E.
    destruct E as [Hr _]. exists x, x1. split; [exact Hr|].
    cbn [catalog]. rewrite E0. cbn [rbind]. split; [exact E1|].
    apply (collect_kept P MEXC) in E2; [|apply mexc_pair_of].
    subst x2. rewrite sorted_strings in H. inversion H. reflexivity.
  - unfold NovadaxExchange.get_supported_pairs in H. minv H.
    unfold NovadaxExchange._make_request in E. apply send_Ok in E.
    destruct E as [Hr _]. exists x, x1. split; [exact Hr|].
    cbn [catalog]. rewrite E0. cbn [rbind]. split; [exact E1|].
    apply (collect_kept P Novadax) in E2; [|apply novadax_pair_of].
    subst x2. rewrite sorted_strings in H. inversion H. reflexivity.
  - unfold OKXExchange.get_supported_pairs in H. minv H.
    unfold OKXExchange._make_request in E. apply send_Ok in E.
    destruct E as [Hr _]. exists x, x1. split; [exact Hr|].
    cbn [catalog]. rewrite E0. cbn [rbind]. split; [exact E1|].
    apply (collect_kept P OKX) in E2; [|apply okx_pair_of].
    subst x2. rewrite sorted_strings in H. inversion H. reflexivity.
Qed.

Lemma In_kept (P : platform) (a : adapter) (entries : list pyval)
    (s : string) :
  In s (kept P a entries)
  <-> exists e, In e entries /\ selects P a e = Some s.
Proof.
  unfold kept. rewrite in_flat_map. split.
  - intros (e & He & Hs). exists e. split; [exact He|].
    destruct (selects P a e) as [s'|]; [|contradiction].
    destruct Hs as [->|[]]. reflexivity.
  - intros (e & He & Hs). exists e. split; [exact He|].
    rewrite Hs. now left.
Qed.

Lemma In_sort_strings (l : list string) (s : string) :
  In s (sort_strings l) <-> In s l.
Proof.
  split; apply Permutation_in;
    [|symmetry]; apply sort_strings_Permutation.
Qed.

Lemma substring_app (x suffix : string) :
  substring (String.length x) (String.length suffix) (x ++ suffix) = suffix.
Proof.
  induction x as [|c x IH]; cbn [String.length append substring].
  - induction suffix as [|c s IH]; cbn [String.length substring];
      [reflexivity|]. rewrite IH. reflexivity.
  - exact IH.
Qed.

Lemma length_app (x y : string) :
  String.length (x ++ y) = (String.length x + String.length y)%nat.
Proof.
  induction x as [|c x IH]; cbn [String.length append]; [reflexivity|].
  rewrite IH. reflexivity.
Qed.

Lemma endswith_app (x suffix : string) : endswith (x ++ suffix) suffix = true.
Proof.
  unfold endswith. rewrite length_app.
  replace (String.length x + String.length suffix - String.length suffix)%nat
    with (String.length x) by lia.
  rewrite substring_app, String.eqb_refl.
  replace (String.length suffix <=? String.length x + String.length suffix)%nat
    with true; [reflexivity|].
  symmetry. apply Nat.leb_le. lia.
Qed.

Lemma selects_brl (P : platform) (a : adapter) (e : pyval) (s : string) :
  appends_brl a = true ->
  selects P a e = Some s ->
  exists base, s = base ++ "-BRL".
Proof.
  intros Ha. destruct a; try discriminate Ha; unfold selects.
  - destruct (getitem e "quoteCoin") as [q|]; [|discriminate].
    destruct (getitem e "baseCoin") as [b|]; [|discriminate].
    destruct (eq_str q "BRL"); [|discriminate].
    intros H. inversion H. eauto.
  - destruct (getitem e "quoteCoin") as [q|]; [|discriminate].
    destruct (getitem e "baseCoin") as [b|]; [|discriminate].
    destruct (eq_str q "BRL"); [|discriminate].
    intros H. inversion H. eauto.
  - destruct (getitem e "i") as [[| | | |i| |]|]; try discriminate.
    destruct (endswith i "_BRL"); [|discriminate].
    intros H. inversion H. eauto.
  - destruct (getitem e "status") as [st|]; [|discriminate].
    destruct (eq_str st "1"); [|discriminate].
    destruct (getitem e "quoteAsset") as [q|]; [|discriminate].
    destruct (getitem e "baseAsset") as [b|]; [|discriminate].
    destruct (eq_str q "BRL"); [|discriminate].
    intros H. inversion H. eauto.
  - destruct (getitem e "quoteCcy") as [q|]; [|discriminate].
    destruct (getitem e "baseCcy") as [b|]; [|discriminate].
    destruct (eq_str q "BRL"); [|discriminate].
    intros H. inversion H. eauto.
Qed.

(** X8. Every pair Bitget, Bybit, Crypto.com, MEXC and OKX return is a
    string that ends in [-BRL]. *)
Theorem pairs_end_in_brl (P : platform) (a : adapter) (w w' : list request)
    (pairs : list pyval) :
  appends_brl a = true ->
  get_supported_pairs (instance P a) w = (Ok pairs, w') ->
  Forall (fun p => exists s, p = PyStr s /\ endswith s "-BRL" = true) pairs.
Proof.
  intros Ha H.
  assert (Hb : builds_strings a = true) by (destruct a; easy).
  destruct (kept_pairs P a w w' pairs Hb H)
    as (response & entries & _ & _ & ->).
  apply Forall_forall. intros p Hp. apply in_map_iff in Hp.
  destruct Hp as (s & <- & Hs). exists s. split; [reflexivity|].
  apply In_sort_strings, In_kept in Hs. destruct Hs as (e & _ & Hsel).
  destruct (selects_brl P a e s Ha Hsel) as [base ->].
  apply endswith_app.
Qed.

Lemma pairs_end_in_brl_witness :
  Forall (fun p => exists s, p = PyStr s /\ endswith s "-BRL" = true)
    [PyStr "BTC-BRL"; PyStr "ETH-BRL"].
Proof.
  apply (pairs_end_in_brl bybit_catalog_server Bybit []
           [catalog_request Bybit]).
  - reflexivity.
  - vm_compute. reflexivity.
Defined.

(** X9. For the seven adapters that build their pairs as text,
    [validate_symbol] accepts a symbol exactly when the filter of the
    adapter makes that symbol of some entry of the catalog just
    fetched. *)
Theorem validate_symbol_selects (P : platform) (a : adapter)
    (w w' : list request) (pairs : list pyval) (s : string) :
  builds_strings a = true ->
  get_supported_pairs (instance P a) w = (Ok pairs, w') ->
  exists response entries b,
    remote P w (catalog_request a) = Ok response
    /\ catalog a response = Ok entries
    /\ validate_symbol (instance P a) s w = (Ok b, w')
    /\ (b = true <-> exists e, In e entries /\ selects P a e = Some s).
Proof.
  intros Ha H.
  destruct (kept_pairs P a w w' pairs Ha H)
    as (response & entries & Hr & Hc & Hp).
  exists response, entries, (contains pairs s).
  split; [exact Hr|]. split; [exact Hc|]. split.
  - unfold validate_symbol, bind, ret. rewrite H. reflexivity.
  - rewrite contains_In, Hp, <- In_kept, <- In_sort_strings.
    rewrite in_map_iff. split.
    + intros (x & Hx & Hin). inversion Hx. subst x. exact Hin.
    + intros Hin. exists s. split; [reflexivity | exact Hin].
Qed.

Lemma validate_symbol_selects_witness :
  exists response entries b,
    remote binance_catalog_server [] (catalog_request Binance) = Ok response
    /\ catalog Binance response = Ok entries
    /\ validate_symbol (instance binance_catalog_server Binance)
         "BTC-USDT" []
       = (Ok b, [catalog_request Binance])
    /\ (b = true
        <-> exists e, In e entries
                      /\ selects binance_catalog_server Binance e
                         = Some "BTC-USDT").
Proof.
  apply (validate_symbol_selects binance_catalog_server Binance []
           [catalog_request Binance] [PyStr "BTC-BRL"; PyStr "ETH-BRL"]).
  - reflexivity.
  - vm_compute. reflexivity.
Defined.

(** *** The order of the catalog does not matter *)

Lemma string_compare_refl (x : string) : String.compare x x = Eq.
Proof.
  induction x as [|a x IH]; cbn [String.compare]; [reflexivity|].
  unfold Ascii.compare. rewrite N.compare_refl. exact IH.
Qed.

Lemma str_le_trans (x y z : string) : str_le x y -> str_le y z -> str_le x z.
Proof.
  unfold str_le, String.leb. revert y z.
  induction x as [|a x IH]; intros [|b y] [|c z]; cbn [String.compare];
    try reflexivity; try discriminate.
  unfold Ascii.compare.
  destruct (N.compare_spec (N_of_ascii a) (N_of_ascii b)) as [Hab|Hab|Hab];
    destruct (N.compare_spec (N_of_ascii b) (N_of_ascii c)) as [Hbc|Hbc|Hbc];
    try discriminate; intros H1 H2.
  - rewrite Hab, Hbc, N.compare_refl. exact (IH y z H1 H2).
  - rewrite Hab. apply N.compare_lt_iff in Hbc. rewrite Hbc. reflexivity.
  - rewrite <- Hbc. apply N.compare_lt_iff in Hab. rewrite Hab. reflexivity.
  - assert (Hac : (N_of_ascii a < N_of_ascii c)%N) by lia.
    apply N.compare_lt_iff in Hac. rewrite Hac. reflexivity.
Qed.

Lemma str_le_antisym (x y : string) : str_le x y -> str_le y x -> x = y.
Proof. apply String.leb_antisym. Qed.

Lemma sorted_head_least (x : string) (l : list string) :
  Sorted str_le (x :: l) -> forall y, In y (x :: l) -> str_le x y.
Proof.
  intros Hs. apply Sorted_StronglySorted in Hs;
    [|intros a b c; apply str_le_trans].
  inversion Hs as [|? ? _ Hall]; subst.
  intros y [<-|Hy].
  - unfold str_le, String.leb. rewrite string_compare_refl. reflexivity.
  - rewrite Forall_forall in Hall. exact (Hall y Hy).
Qed.

(** Two sorted lists with the same elements are the same list. *)
Lemma sorted_unique (l l' : list string) :
  Sorted str_le l -> Sorted str_le l' -> Permutation l l' -> l = l'.
Proof.
  revert l'. induction l as [|x l IH]; intros l' Hl Hl' Hp.
  - apply Permutation_nil in Hp. subst. reflexivity.
  - destruct l' as [|y l'].
    + symmetry in Hp. apply Permutation_nil in Hp. discriminate.
    + assert (x = y) as <-.
      { apply str_le_antisym.
        - apply (sorted_head_least x l Hl).
          apply Permutation_in with (l := y :: l');
            [symmetry; exact Hp | now left].
        - apply (sorted_head_least y l' Hl').
          apply Permutation_in with (l := x :: l); [exact Hp | now left]. }
      f_equal. apply IH.
      * inversion Hl; assumption.
      * inversion Hl'; assumption.
      * exact (Permutation_cons_inv Hp).
Qed.

Lemma sort_strings_order (l l' : list string) :
  Permutation l l' -> sort_strings l = sort_strings l'.
Proof.
  intros Hp. apply sorted_unique; try apply sort_strings_Sorted.
  rewrite !sort_strings_Permutation. exact Hp.
Qed.

Lemma kept_Permutation (P : platform) (a : adapter)
    (entries entries' : list pyval) :
  Permutation entries entries' ->
  Permutation (kept P a entries) (kept P a entries').
Proof.
  intros Hp. unfold kept.
  induction Hp as [|e l l' _ IH|e1 e2 l|l1 l2 l3 _ IH1 _ IH2];
    cbn [flat_map].
  - constructor.
  - apply Permutation_app_head. exact IH.
  - rewrite !app_assoc. apply Permutation_app_tail.
    apply Permutation_app_comm.
  - etransitivity; eassumption.
Qed.

(** X10. For the seven adapters that build their pairs as text, the
    list [get_supported_pairs] returns does not depend on the order of
    the catalog: two calls answered with catalogs that hold the same
    entries, in any order, return the same list. *)
Theorem pairs_ignore_catalog_order (P : platform) (a : adapter)
    (w1 w1' w2 w2' : list request) (pairs pairs' : list pyval)
    (response response' : pyval) (entries entries' : list pyval) :
  builds_strings a = true ->
  get_supported_pairs (instance P a) w1 = (Ok pairs, w1') ->
  get_supported_pairs (instance P a) w2 = (Ok pairs', w2') ->
  remote P w1 (catalog_request a) = Ok response ->
  remote P w2 (catalog_request a) = Ok response' ->
  catalog a response = Ok entries ->
  catalog a response' = Ok entries' ->
  Permutation entries entries' ->
  pairs = pairs'.
Proof.
  intros Ha H H' Hr Hr' Hc Hc' Hp.
  destruct (kept_pairs P a _ _ _ Ha H) as (r1 & e1 & Hr1 & Hc1 & ->).
  destruct (kept_pairs P a _ _ _ Ha H') as (r2 & e2 & Hr2 & Hc2 & ->).
  rewrite Hr in Hr1. inversion Hr1; subst r1.
  rewrite Hr' in Hr2. inversion Hr2; subst r2.
  rewrite Hc in Hc1. inversion Hc1; subst e1.
  rewrite Hc' in Hc2. inversion Hc2; subst e2.
  f_equal. apply sort_strings_order. apply kept_Permutation. exact Hp.
Qed.

Lemma pairs_ignore_catalog_order_witness :
  fst (get_supported_pairs (instance bybit_shuffling_server Bybit) [])
  = fst (get_supported_pairs (instance bybit_shuffling_server Bybit)
           [catalog_request Bybit]).
Proof.
  destruct (get_supported_pairs (instance bybit_shuffling_server Bybit) [])
    as [r1 w1'] eqn:E1.
  destruct (get_supported_pairs (instance bybit_shuffling_server Bybit)
              [catalog_request Bybit]) as [r2 w2'] eqn:E2.
  assert (H1 : exists p, r1 = Ok p) by (vm_compute in E1; inversion E1; eauto).
  assert (H2 : exists p, r2 = Ok p) by (vm_compute in E2; inversion E2; eauto).
  destruct H1 as [p1 ->], H2 as [p2 ->]. cbn [fst]. f_equal.
  apply (pairs_ignore_catalog_order bybit_shuffling_server Bybit
           [] w1' [catalog_request Bybit] w2' p1 p2
           _ _ bybit_entries (rev bybit_entries)
           eq_refl E1 E2 eq_refl eq_refl eq_refl eq_refl).
  apply Permutation_rev.
Defined.

(** ** Serialization loses nothing *)

Lemma digit_inj (x y : Z) :
  ascii_of_Z (48 + x mod 10) = ascii_of_Z (48 + y mod 10) ->
  x mod 10 = y mod 10.
Proof.
  pose proof (Z.mod_pos_bound x 10 ltac:(lia)) as Hx.
  pose proof (Z.mod_pos_bound y 10 ltac:(lia)) as Hy.
  unfold ascii_of_Z. intros H. apply (f_equal N_of_ascii) in H.
  rewrite !N_ascii_embedding in H by lia. lia.
Qed.

Ltac digits H :=
  cbn [zpad append] in H; inversion H;
  repeat match goal with
         | E : ascii_of_Z _ = ascii_of_Z _ |- _ =>
             apply digit_inj in E
         end.

Lemma digit_step (x y : Z) :
  x / 10 = y / 10 -> x mod 10 = y mod 10 -> x = y.
Proof.
  intros Hq Hr. rewrite (Z.div_mod x 10), (Z.div_mod y 10) by lia.
  rewrite Hq, Hr. reflexivity.
Qed.

Lemma leading_digit (x y : Z) :
  0 <= x < 10 -> 0 <= y < 10 -> x mod 10 = y mod 10 -> x = y.
Proof. intros Hx Hy. rewrite !Z.mod_small by lia. auto. Qed.

Lemma two_digits (x y : Z) :
  0 <= x < 100 -> 0 <= y < 100 ->
  (x / 10) mod 10 = (y / 10) mod 10 -> x mod 10 = y mod 10 -> x = y.
Proof.
  intros Hx Hy H1 H0. apply digit_step; [|exact H0].
  apply leading_digit;
    [Z.div_mod_to_equations; lia | Z.div_mod_to_equations; lia | exact H1].
Qed.

Lemma four_digits (x y : Z) :
  0 <= x < 10000 -> 0 <= y < 10000 ->
  (x / 10 / 10 / 10) mod 10 = (y / 10 / 10 / 10) mod 10 ->
  (x / 10 / 10) mod 10 = (y / 10 / 10) mod 10 ->
  (x / 10) mod 10 = (y / 10) mod 10 -> x mod 10 = y mod 10 -> x = y.
Proof.
  intros Hx Hy H3 H2 H1 H0.
  apply digit_step; [|exact H0]. apply digit_step; [|exact H1].
  apply two_digits; [Z.div_mod_to_equations; lia | Z.div_mod_to_equations; lia | exact H3 | exact H2].
Qed.

Lemma six_digits (x y : Z) :
  0 <= x < 1000000 -> 0 <= y < 1000000 ->
  (x / 10 / 10 / 10 / 10 / 10) mod 10 = (y / 10 / 10 / 10 / 10 / 10) mod 10 ->
  (x / 10 / 10 / 10 / 10) mod 10 = (y / 10 / 10 / 10 / 10) mod 10 ->
  (x / 10 / 10 / 10) mod 10 = (y / 10 / 10 / 10) mod 10 ->
  (x / 10 / 10) mod 10 = (y / 10 / 10) mod 10 ->
  (x / 10) mod 10 = (y / 10) mod 10 -> x mod 10 = y mod 10 -> x = y.
Proof.
  intros Hx Hy H5 H4 H3 H2 H1 H0.
  apply digit_step; [|exact H0]. apply digit_step; [|exact H1].
  apply four_digits; [Z.div_mod_to_equations; lia | Z.div_mod_to_equations; lia | exact H5 | exact H4 | exact H3 | exact H2].
Qed.

Lemma isoformat_inj (d1 d2 : datetime) :
  in_field_ranges d1 -> in_field_ranges d2 ->
  isoformat d1 = isoformat d2 -> d1 = d2.
Proof.
  destruct d1 as [y1 m1 a1 h1 n1 s1 u1], d2 as [y2 m2 a2 h2 n2 s2 u2].
  unfold in_field_ranges, isoformat.
  cbn [year month day hour minute second microsecond].
  intros R1 R2 H.
  destruct (Z.eqb_spec u1 0) as [->|N1], (Z.eqb_spec u2 0) as [->|N2];
    digits H; f_equal;
    first [ apply two_digits; (assumption || lia)
          | apply four_digits; (assumption || lia)
          | apply six_digits; (assumption || lia)
          | reflexivity ].
Qed.

(** X11. [to_dict] loses nothing: two candles whose timestamps have
    their fields within the ranges of [datetime] and whose mappings are
    equal are the same candle. In particular the ISO-8601 text determines
    the timestamp. *)
Theorem to_dict_injective (c1 c2 : Candle) :
  in_field_ranges (timestamp c1) ->
  in_field_ranges (timestamp c2) ->
  to_dict c1 = to_dict c2 ->
  c1 = c2.
Proof.
  intros R1 R2 H. unfold to_dict in H.
  destruct c1 as [t1 o1 h1 l1 c1 v1 s1 e1 f1 q1],
    c2 as [t2 o2 h2 l2 c2 v2 s2 e2 f2 q2].
  cbn [timestamp open high low close volume symbol exchange timeframe
         quote_volume] in *.
  remember (isoformat t1) as i1 eqn:E1.
  remember (isoformat t2) as i2 eqn:E2.
  inversion H as [[Ht Ho Hh Hl Hc Hv Hs He Hf Hq]].
  assert (t1 = t2) by (apply (isoformat_inj t1 t2 R1 R2); congruence).
  subst. f_equal. destruct q1, q2; cbn [optional_float] in Hq;
    try discriminate; congruence.
Qed.

Lemma to_dict_injective_witness :
  kline_candle july_1
  = {| timestamp := Reference.date 2021 7 1;
       open := 35000; high := 36000; low := 34000; close := 35500;
       volume := 100; quote_volume := Some 3500000%float;
       symbol := "BTC-BRL"; exchange := "binance"; timeframe := "1h" |}.
Proof.
  apply to_dict_injective.
  - unfold in_field_ranges. cbn. lia.
  - unfold in_field_ranges. cbn. lia.
  - reflexivity.
Defined.

(** ** utils/timeframes.py *)

Ltac leap_cases :=
  unfold leap_day, is_leap in *;
  repeat match goal with
         | H : context [?a =? ?b] |- _ =>
             let E := fresh in destruct (Z.eqb_spec a b) as [E|E]
         | |- context [?a =? ?b] =>
             let E := fresh in destruct (Z.eqb_spec a b) as [E|E]
         end;
  cbn [andb orb negb] in *.

Lemma yoe_of_doe (yoe doy : Z) :
  0 <= yoe <= 399 -> 0 <= doy <= 364 + leap_day (yoe + 1) ->
  let doe := yoe * 365 + yoe / 4 - yoe / 100 + doy in
  (doe - doe / 1460 + doe / 36524 - doe / 146096) / 365 = yoe
  /\ 0 <= doe <= 146096.
Proof.
  intros Hy Hd. cbv zeta. leap_cases.
  all: Z.div_mod_to_equations; lia.
Qed.

Lemma doe_of_yoe (doe : Z) :
  0 <= doe <= 146096 ->
  let yoe := (doe - doe / 1460 + doe / 36524 - doe / 146096) / 365 in
  let doy := doe - (365 * yoe + yoe / 4 - yoe / 100) in
  0 <= yoe <= 399 /\ 0 <= doy <= 364 + leap_day (yoe + 1).
Proof.
  intros H. cbv zeta. leap_cases.
  all: Z.div_mod_to_equations; lia.
Qed.

Lemma month_of_doy (doy l : Z) :
  0 <= doy <= 364 + l -> 0 <= l <= 1 ->
  let mp := (5 * doy + 2) / 153 in
  let d := doy - (153 * mp + 2) / 5 + 1 in
  0 <= mp <= 11 /\ 1 <= d /\ month_days mp d l
  /\ (10 <= mp <-> 306 <= doy).
Proof.
  unfold month_days. intros H Hl. cbv zeta.
  Z.div_mod_to_equations; lia.
Qed.

Lemma doy_of_month (mp d l : Z) :
  0 <= mp <= 11 -> 1 <= d -> month_days mp d l -> 0 <= l <= 1 ->
  let doy := (153 * mp + 2) / 5 + d - 1 in
  (5 * doy + 2) / 153 = mp /\ 0 <= doy <= 364 + l.
Proof.
  unfold month_days. intros Hm Hd H Hl. cbv zeta.
  Z.div_mod_to_equations; lia.
Qed.

Lemma leap_day_era (y q : Z) : leap_day (y + 400 * q) = leap_day y.
Proof.
  unfold leap_day, is_leap.
  replace ((y + 400 * q) mod 4) with (y mod 4)
    by (replace (y + 400 * q) with (y + (100 * q) * 4) by ring;
        now rewrite Z.mod_add by lia).
  replace ((y + 400 * q) mod 100) with (y mod 100)
    by (replace (y + 400 * q) with (y + (4 * q) * 100) by ring;
        now rewrite Z.mod_add by lia).
  replace ((y + 400 * q) mod 400) with (y mod 400)
    by (replace (y + 400 * q) with (y + q * 400) by ring;
        now rewrite Z.mod_add by lia).
  reflexivity.
Qed.

Lemma leap_day_range (y : Z) : 0 <= leap_day y <= 1.
Proof. unfold leap_day. destruct (is_leap y); lia. Qed.

(** The days of month [m] of year [y], in the terms of [month_days]. *)
Lemma days_in_month_march (y m d : Z) :
  1 <= m <= 12 ->
  d <= days_in_month y m
  <-> month_days (if 2 <? m then m - 3 else m + 9) d (leap_day y).
Proof.
  intros Hm. unfold days_in_month, month_days, leap_day.
  assert (m = 1 \/ m = 2 \/ m = 3 \/ m = 4 \/ m = 5 \/ m = 6 \/ m = 7
          \/ m = 8 \/ m = 9 \/ m = 10 \/ m = 11 \/ m = 12) as Hc by lia.
  repeat (destruct Hc as [->|Hc]); try subst m;
    cbn [Z.eqb Z.ltb Z.compare Pos.compare Pos.compare_cont orb Pos.eqb];
    destruct (is_leap y); lia.
Qed.

(** The date of a day is a date of the calendar and gives the day back;
    its year is between 1 and 9999 for the days of [datetime]. *)
Lemma civil_of_days_date (z : Z) :
  let '(y, m, d) := Reference.civil_of_days z in
  1 <= m <= 12 /\ 1 <= d <= days_in_month y m
  /\ Reference.days_of_civil y m d = z
  /\ (1 <= y <= 9999 <-> -719162 <= z <= 2932896).
Proof.
  unfold Reference.civil_of_days. cbv zeta.
  assert (exists q doe, z + 719468 = doe + q * 146097 /\ 0 <= doe <= 146096
                        /\ (z + 719468) / 146097 = q) as (q & doe & E & Hdoe & Eq).
  { exists ((z + 719468) / 146097), ((z + 719468) mod 146097).
    Z.div_mod_to_equations. lia. }
  rewrite Eq. replace (z + 719468 - q * 146097) with doe by lia.
  pose proof (doe_of_yoe doe Hdoe) as H. cbv zeta in H.
  set (yoe := (doe - doe / 1460 + doe / 36524 - doe / 146096) / 365) in *.
  assert (exists doy, doy = doe - (365 * yoe + yoe / 4 - yoe / 100))
    as [doy Edoy] by eauto.
  rewrite <- Edoy in *. destruct H as [Hyoe Hdoy].
  pose proof (month_of_doy doy _ Hdoy (leap_day_range _)) as H.
  cbv zeta in H.
  set (mp := (5 * doy + 2) / 153) in *.
  assert (exists d, d = doy - (153 * mp + 2) / 5 + 1) as [d Ed] by eauto.
  rewrite <- Ed in *. destruct H as (Hmp & Hd & Hmd & Hlate).
  assert (exists m, m = if mp <? 10 then mp + 3 else mp - 9) as [m Em]
    by eauto.
  rewrite <- Em.
  assert (1 <= m <= 12) as Hm by (destruct (mp <? 10) eqn:?; lia).
  assert ((if 2 <? m then m - 3 else m + 9) = mp) as Emp.
  { subst m. destruct (Z.ltb_spec mp 10);
      match goal with |- context [?a <? ?b] => destruct (Z.ltb_spec a b) end;
      lia. }
  set (y := if m <=? 2 then yoe + q * 400 + 1 else yoe + q * 400).
  assert (exists y', y' = (if m <=? 2 then y - 1 else y) /\ y' = yoe + q * 400)
    as (y' & Ey' & Ey).
  { eexists; split; [reflexivity|]. subst y. destruct (m <=? 2); lia. }
  split; [exact Hm|]. split; [split; [exact Hd|]|split].
  - apply days_in_month_march; [exact Hm|]. rewrite Emp.
    destruct (Z.leb_spec m 2) as [Hle|Hgt].
    + subst y. replace (yoe + q * 400 + 1) with (yoe + 1 + 400 * q) by ring.
      rewrite leap_day_era. exact Hmd.
    + unfold month_days in *.
      assert (mp <> 11) by (subst m; destruct (Z.ltb_spec mp 10); lia).
      lia.
  - unfold Reference.days_of_civil. cbv zeta.
    rewrite <- Ey', Emp, Ey.
    replace ((yoe + q * 400) / 400) with q
      by (Z.div_mod_to_equations; lia).
    replace (yoe + q * 400 - q * 400) with yoe by ring.
    lia.
  - assert (m <= 2 <-> 306 <= doy) as Hjan
        by (subst m; destruct (Z.ltb_spec mp 10); lia).
    assert (doe = 365 * yoe + yoe / 4 - yoe / 100 + doy) as Edoe by lia.
    clearbody y.
    assert (y = yoe + q * 400 + 1 /\ m <= 2 \/ y = yoe + q * 400 /\ 2 < m)
      as Hy by (destruct (Z.leb_spec m 2); lia).
    pose proof (leap_day_range (yoe + 1)).
    clear - Hy Hjan Edoe E Hdoe Hyoe Hdoy H.
    Z.div_mod_to_equations; lia.
Qed.

(** A date of the calendar is the date of its day. *)
Lemma civil_of_days_of_civil (y m d : Z) :
  1 <= m <= 12 -> 1 <= d <= days_in_month y m ->
  Reference.civil_of_days (Reference.days_of_civil y m d) = (y, m, d).
Proof.
  intros Hm [Hd Hlen].
  apply days_in_month_march in Hlen; [|exact Hm].
  unfold Reference.days_of_civil. cbv zeta.
  assert (exists y', y' = if m <=? 2 then y - 1 else y) as [y' Ey'] by eauto.
  rewrite <- Ey'.
  assert (exists q yoe, y' = yoe + 400 * q /\ 0 <= yoe <= 399 /\ y' / 400 = q)
    as (q & yoe & Ey & Hyoe & Eq).
  { exists (y' / 400), (y' mod 400). Z.div_mod_to_equations. lia. }
  rewrite Eq. replace (y' - q * 400) with yoe by lia.
  assert (exists mp, mp = if 2 <? m then m - 3 else m + 9) as [mp Emp]
    by eauto.
  rewrite <- Emp in *.
  assert (0 <= mp <= 11) as Hmp by (destruct (Z.ltb_spec 2 m); lia).
  assert (month_days mp d (leap_day (yoe + 1))) as Hmd.
  { destruct (Z.leb_spec m 2).
    - replace (yoe + 1) with (y + 400 * - q) by lia.
      rewrite leap_day_era. exact Hlen.
    - unfold month_days in *. destruct (Z.ltb_spec 2 m); lia. }
  pose proof (doy_of_month mp d _ Hmp Hd Hmd (leap_day_range _)) as H.
  cbv zeta in H.
  assert (exists doy, doy = (153 * mp + 2) / 5 + d - 1) as [doy Edoy]
    by eauto.
  rewrite <- Edoy in *. destruct H as [Emp' Hdoy].
  pose proof (yoe_of_doe yoe doy Hyoe Hdoy) as H. cbv zeta in H.
  assert (exists doe, doe = yoe * 365 + yoe / 4 - yoe / 100 + doy)
    as [doe Edoe] by eauto.
  rewrite <- Edoe in *. destruct H as [Eyoe Hdoe].
  unfold Reference.civil_of_days. cbv zeta.
  replace (q * 146097 + doe - 719468 + 719468) with (doe + q * 146097)
    by ring.
  rewrite Z.div_add by lia.
  replace (doe / 146097) with 0 by (Z.div_mod_to_equations; lia).
  replace (doe + q * 146097 - (0 + q) * 146097) with doe by ring.
  rewrite Eyoe.
  replace (doe - (365 * yoe + yoe / 4 - yoe / 100)) with doy by lia.
  rewrite Emp'.
  replace (doy - (153 * mp + 2) / 5 + 1) with d by lia.
  assert ((if mp <? 10 then mp + 3 else mp - 9) = m) as ->.
  { subst mp. destruct (Z.ltb_spec 2 m);
      match goal with |- context [?a <? ?b] => destruct (Z.ltb_spec a b) end;
      lia. }
  f_equal. f_equal. destruct (m <=? 2); lia.
Qed.

Lemma valid_datetime_microseconds (d : datetime) :
  valid_datetime d ->
  first_microsecond <= datetime_microseconds d <= last_microsecond.
Proof.
  intros (Hy & Hm & Hd & Hh & Hmi & Hs & Hus).
  pose proof (civil_of_days_date
                (Reference.days_of_civil (year d) (month d) (day d))) as H.
  rewrite (civil_of_days_of_civil _ _ _ Hm Hd) in H.
  destruct H as (_ & _ & _ & H). apply H in Hy.
  unfold first_microsecond, last_microsecond, datetime_microseconds,
    toordinal, MAXORDINAL, us_per_day, us_per_second.
  lia.
Qed.

(** [datetime_at] and [datetime_microseconds] undo each other. *)
Lemma datetime_at_Ok (us : Z) (d : datetime) :
  datetime_at us = Ok d ->
  datetime_microseconds d = us /\ valid_datetime d.
Proof.
  unfold datetime_at. cbv zeta.
  destruct ((0 <? us / us_per_day) && (us / us_per_day <=? MAXORDINAL))
    eqn:Hr; [|discriminate].
  apply andb_true_iff in Hr. destruct Hr as [Hlo Hhi].
  apply Z.ltb_lt in Hlo. apply Z.leb_le in Hhi.
  pose proof (civil_of_days_date (us / us_per_day - 719163)) as H.
  destruct (Reference.civil_of_days (us / us_per_day - 719163))
    as [[y m] dd].
  destruct H as (Hm & Hd & Eback & Hy).
  intros E. inversion E; subst; clear E.
  unfold valid_datetime, datetime_microseconds, toordinal.
  cbn [year month day hour minute second microsecond].
  rewrite Eback.
  assert (1 <= y <= 9999) as Hyear by (apply Hy; unfold MAXORDINAL in *; lia).
  unfold us_per_day, us_per_second in *.
  repeat split; try lia; Z.div_mod_to_equations; lia.
Qed.

Lemma datetime_at_microseconds (d : datetime) :
  valid_datetime d -> datetime_at (datetime_microseconds d) = Ok d.
Proof.
  intros Hv. pose proof (valid_datetime_microseconds d Hv) as Hr.
  destruct Hv as (Hy & Hm & Hd & Hh & Hmi & Hs & Hus).
  unfold datetime_at. cbv zeta.
  set (t := (hour d * 3600 + minute d * 60 + second d) * us_per_second
            + microsecond d).
  assert (0 <= t < us_per_day) as Ht
      by (subst t; unfold us_per_day, us_per_second; lia).
  assert (datetime_microseconds d = t + toordinal d * us_per_day) as ->
      by (unfold datetime_microseconds; subst t; ring).
  assert (0 < toordinal d <= MAXORDINAL) as Hord.
  { unfold first_microsecond, last_microsecond, datetime_microseconds in Hr.
    fold t in Hr. unfold MAXORDINAL, us_per_day, us_per_second in *. lia. }
  rewrite Z.div_add, Z.mod_add by (unfold us_per_day, us_per_second; lia).
  rewrite (Z.div_small t), (Z.mod_small t) by lia.
  cbn [Z.add].
  destruct (Z.ltb_spec 0 (toordinal d)); [|lia].
  destruct (Z.leb_spec (toordinal d) MAXORDINAL); [|lia].
  cbn [andb]. unfold toordinal.
  replace (Reference.days_of_civil (year d) (month d) (day d)
           + 719163 - 719163)
    with (Reference.days_of_civil (year d) (month d) (day d)) by ring.
  rewrite (civil_of_days_of_civil _ _ _ Hm Hd).
  destruct d as [y m dd h mi s us]. cbn [hour minute second microsecond] in *.
  subst t. unfold us_per_second in *.
  f_equal. f_equal; Z.div_mod_to_equations; lia.
Qed.

Lemma get_timeframe_delta_minutes (tf : string) :
  Timeframes.get_timeframe_delta tf
  = match minutes_of tf with
    | Some k => Ok (minutes k)
    | None => throw ValueError ("Unsupported timeframe: " ++ tf)
    end
  /\ Timeframes.validate_timeframe tf
     = match minutes_of tf with Some _ => true | None => false end
  /\ (forall k, minutes_of tf = Some k -> 0 < k <= 43200).
Proof.
  unfold Timeframes.get_timeframe_delta, Timeframes.validate_timeframe,
    minutes_of, Timeframes.TIMEFRAME_MAPPINGS, timeframe_minutes.
  cbn [Timeframes.mapping minutes_in].
  repeat match goal with
         | |- context [(tf =? ?k)%string] => destruct (tf =? k)%string
         end;
    (split; [vm_compute; reflexivity|split; [reflexivity|]]);
    intros k E; inversion E; lia.
Qed.

Lemma calculate_start_time_minutes (e : datetime) (tf : string) (n : Z) :
  Timeframes.calculate_start_time e tf n
  = match minutes_of tf with
    | Some k =>
        (span <- timedelta_of (k * us_per_minute * n) ;;
         datetime_at (datetime_microseconds e - total_microseconds span))%res
    | None => throw ValueError ("Unsupported timeframe: " ++ tf)
    end.
Proof.
  unfold Timeframes.calculate_start_time.
  destruct (get_timeframe_delta_minutes tf) as (-> & _ & _).
  destruct (minutes_of tf); reflexivity.
Qed.

Lemma timedelta_of_Ok (us : Z) (d : timedelta) :
  timedelta_of us = Ok d -> total_microseconds d = us.
Proof.
  unfold timedelta_of. destruct (_ && _); [|discriminate].
  intros E. inversion E. reflexivity.
Qed.

Lemma timedelta_of_small (us : Z) :
  - last_microsecond <= us <= last_microsecond ->
  timedelta_of us = Ok {| total_microseconds := us |}.
Proof.
  unfold last_microsecond, MAXORDINAL, timedelta_of, us_per_day,
    us_per_second.
  intros H.
  destruct (Z.leb_spec (-999999999) (us / (86400 * 1000000)));
    [|Z.div_mod_to_equations; lia].
  destruct (Z.leb_spec (us / (86400 * 1000000)) 999999999);
    [reflexivity|Z.div_mod_to_equations; lia].
Qed.

Lemma timedelta_of_Raise (us : Z) (x : exn) :
  timedelta_of us = Raise x -> exn_cls x = OverflowError.
Proof.
  unfold timedelta_of. destruct (_ && _); [discriminate|].
  intros E. inversion E. reflexivity.
Qed.

Lemma datetime_at_range (us : Z) :
  if (first_microsecond <=? us) && (us <=? last_microsecond)
  then exists d, datetime_at us = Ok d
  else exists msg, datetime_at us = Raise (Exn OverflowError msg).
Proof.
  unfold datetime_at, first_microsecond, last_microsecond, MAXORDINAL,
    us_per_day, us_per_second. cbv zeta.
  destruct (Z.leb_spec (86400 * 1000000) us);
    destruct (Z.leb_spec us ((3652059 + 1) * (86400 * 1000000) - 1));
    cbn [andb];
    destruct (Z.ltb_spec 0 (us / (86400 * 1000000)));
    destruct (Z.leb_spec (us / (86400 * 1000000)) 3652059);
    cbn [andb]; try (Z.div_mod_to_equations; lia);
    try destruct (Reference.civil_of_days _) as [[y m] d];
    eexists; reflexivity.
Qed.

(** X12. [get_timeframe_delta] raises [ValueError] with the message
    ["Unsupported timeframe: <timeframe>"] for exactly the timeframes that
    [validate_timeframe] of the same module rejects; for every other one
    it returns a span of a positive whole number of minutes, the one of
    the table. *)
Theorem timeframe_delta_defined (timeframe : string) :
  if Timeframes.validate_timeframe timeframe
  then exists k, minutes_of timeframe = Some k /\ 0 < k
                 /\ Timeframes.get_timeframe_delta timeframe
                    = Ok (minutes k)
  else Timeframes.get_timeframe_delta timeframe
       = Raise (Exn ValueError ("Unsupported timeframe: " ++ timeframe)).
Proof.
  destruct (get_timeframe_delta_minutes timeframe) as (-> & -> & Hk).
  destruct (minutes_of timeframe) as [k|]; [|reflexivity].
  exists k. repeat split. apply (Hk k eq_refl).
Qed.

(** X13. Every timeframe that an adapter lists as supported is a
    timeframe of [utils/timeframes.py]: [validate_timeframe] of that module
    accepts it and [get_timeframe_delta] returns its duration. *)
Theorem supported_timeframes_have_durations (P : platform) (a : adapter)
    (timeframe : string) :
  validate_timeframe (instance P a) timeframe = true ->
  Timeframes.validate_timeframe timeframe = true
  /\ exists delta, Timeframes.get_timeframe_delta timeframe = Ok delta
                   /\ 0 < total_microseconds delta.
Proof.
  intros H. apply validate_timeframe_In in H.
  destruct a; cbn in H;
    repeat match type of H with
           | _ \/ _ => destruct H as [<-|H]
           | False => destruct H
           end;
    (split; [reflexivity|eexists; split; [vm_compute; reflexivity|]]);
    vm_compute; reflexivity.
Qed.

Lemma supported_timeframes_have_durations_witness :
  Timeframes.validate_timeframe "1w" = true
  /\ exists delta, Timeframes.get_timeframe_delta "1w" = Ok delta
                   /\ 0 < total_microseconds delta.
Proof.
  apply (supported_timeframes_have_durations offline OKX "1w").
  vm_compute. reflexivity.
Defined.

(** X14. When [calculate_start_time] returns, the start it returns is a
    value of [datetime] that lies exactly [num_candles] durations of the
    timeframe before [end_time]. *)
Theorem start_time_distance (end_time : datetime) (timeframe : string)
    (num_candles : Z) (start : datetime) :
  Timeframes.calculate_start_time end_time timeframe num_candles = Ok start ->
  exists k, minutes_of timeframe = Some k
            /\ datetime_microseconds end_time - datetime_microseconds start
               = num_candles * (k * us_per_minute)
            /\ valid_datetime start.
Proof.
  rewrite calculate_start_time_minutes.
  destruct (minutes_of timeframe) as [k|]; [|discriminate].
  intros H. rinv H. apply timedelta_of_Ok in E. rewrite E in H.
  apply datetime_at_Ok in H. destruct H as [Hus Hv].
  exists k. repeat split; try apply Hv. lia.
Qed.

Lemma start_time_distance_witness :
  exists k, minutes_of "1h" = Some k
            /\ datetime_microseconds july_2 - datetime_microseconds july_1
               = 24 * (k * us_per_minute)
            /\ valid_datetime july_1.
Proof.
  apply (start_time_distance july_2 "1h" 24 july_1).
  vm_compute. reflexivity.
Defined.

(** X15. For a value of [datetime] as [end_time] and a timeframe of the
    table, [calculate_start_time] returns the instant [num_candles]
    durations before [end_time] when that instant is between
    0001-01-01T00:00:00 and 9999-12-31T23:59:59.999999, and raises
    [OverflowError] otherwise. *)
Theorem start_time_bounds (end_time : datetime) (timeframe : string)
    (k num_candles : Z) :
  valid_datetime end_time ->
  minutes_of timeframe = Some k ->
  let t := datetime_microseconds end_time
           - num_candles * (k * us_per_minute) in
  if (first_microsecond <=? t) && (t <=? last_microsecond)
  then exists start,
         Timeframes.calculate_start_time end_time timeframe num_candles
         = Ok start
         /\ datetime_microseconds start = t
  else exists msg,
         Timeframes.calculate_start_time end_time timeframe num_candles
         = Raise (Exn OverflowError msg).
Proof.
  intros Hv Hk t. rewrite calculate_start_time_minutes, Hk.
  pose proof (valid_datetime_microseconds _ Hv) as Hr.
  pose proof (datetime_at_range t) as Hat.
  replace (k * us_per_minute * num_candles)
    with (num_candles * (k * us_per_minute)) by ring.
  destruct ((first_microsecond <=? t) && (t <=? last_microsecond)) eqn:Ht.
  - apply andb_true_iff in Ht. destruct Ht as [Hlo Hhi].
    apply Z.leb_le in Hlo. apply Z.leb_le in Hhi.
    rewrite timedelta_of_small
      by (subst t; unfold first_microsecond, last_microsecond, MAXORDINAL,
            us_per_day, us_per_second in *; lia).
    cbn [rbind total_microseconds]. fold t.
    destruct Hat as [d Hd]. exists d. split; [exact Hd|].
    apply (datetime_at_Ok _ _ Hd).
  - destruct (timedelta_of (num_candles * (k * us_per_minute)))
      as [span|[c msg]] eqn:E.
    + apply timedelta_of_Ok in E. cbn [rbind]. rewrite E. fold t.
      exact Hat.
    + apply timedelta_of_Raise in E. cbn [exn_cls] in E. subst c.
      exists msg. reflexivity.
Qed.

Lemma start_time_bounds_witness :
  exists start,
    Timeframes.calculate_start_time july_2 "1h" 24 = Ok start
    /\ datetime_microseconds start
       = datetime_microseconds july_2 - 24 * (60 * us_per_minute).
Proof.
  apply (start_time_bounds july_2 "1h" 60 24).
  - vm_compute. repeat split; discriminate.
  - reflexivity.
Defined.

(** X16. Asked for no candle at all, [calculate_start_time] returns
    [end_time] itself, for every value of [datetime] and every timeframe
    of the table. *)
Theorem start_time_no_candles (end_time : datetime) (timeframe : string) :
  valid_datetime end_time ->
  Timeframes.validate_timeframe timeframe = true ->
  Timeframes.calculate_start_time end_time timeframe 0 = Ok end_time.
Proof.
  intros Hv Htf. rewrite calculate_start_time_minutes.
  destruct (get_timeframe_delta_minutes timeframe) as (_ & E & _).
  rewrite E in Htf. destruct (minutes_of timeframe) as [k|]; [|discriminate].
  replace (k * us_per_minute * 0) with 0 by ring.
  change (timedelta_of 0) with (Ok {| total_microseconds := 0 |}).
  cbn [rbind total_microseconds]. rewrite Z.sub_0_r. apply datetime_at_microseconds. exact Hv.
Qed.

Lemma start_time_no_candles_witness :
  Timeframes.calculate_start_time july_2 "1M" 0 = Ok july_2.
Proof.
  apply (start_time_no_candles july_2 "1M").
  - vm_compute. repeat split; discriminate.
  - reflexivity.
Defined.

(** X17. Steps compose: from a value of [datetime], going back [n]
    candles and then [m] candles from the start found returns what going
    back [n + m] candles at once returns. *)
Theorem start_time_composes (end_time : datetime) (timeframe : string)
    (n m : Z) (middle start : datetime) :
  valid_datetime end_time ->
  Timeframes.calculate_start_time end_time timeframe n = Ok middle ->
  Timeframes.calculate_start_time middle timeframe m = Ok start
  <-> Timeframes.calculate_start_time end_time timeframe (n + m) = Ok start.
Proof.
  intros Hv Hn.
  pose proof (valid_datetime_microseconds _ Hv) as Hr.
  rewrite !calculate_start_time_minutes in *.
  destruct (minutes_of timeframe) as [k|]; [|discriminate].
  rinv Hn. apply timedelta_of_Ok in E. rewrite E in Hn.
  apply datetime_at_Ok in Hn. destruct Hn as [Hmid Hvm].
  pose proof (valid_datetime_microseconds _ Hvm) as Hrm.
  assert (forall j e r,
             first_microsecond <= datetime_microseconds e
               <= last_microsecond ->
             (span <- timedelta_of (k * us_per_minute * j) ;;
              datetime_at (datetime_microseconds e
                           - total_microseconds span))%res = Ok r
             <-> datetime_at (datetime_microseconds e
                              - k * us_per_minute * j) = Ok r) as Hone.
  { intros j e r He. split.
    - intros H. rinv H. apply timedelta_of_Ok in E0. rewrite E0 in H.
      exact H.
    - intros H. pose proof (datetime_at_Ok _ _ H) as [Hus Hvr].
      pose proof (valid_datetime_microseconds _ Hvr) as Hrr.
      rewrite timedelta_of_small; [exact H|].
      unfold first_microsecond, last_microsecond, MAXORDINAL, us_per_day,
        us_per_second in *. lia. }
  rewrite (Hone m middle start Hrm), (Hone (n + m) end_time start Hr).
  replace (datetime_microseconds middle - k * us_per_minute * m)
    with (datetime_microseconds end_time - k * us_per_minute * (n + m))
    by lia.
  reflexivity.
Qed.

Lemma start_time_composes_witness :
  Timeframes.calculate_start_time july_1 "1h" 24
  = Ok (Reference.date 2021 6 30)
  <-> Timeframes.calculate_start_time july_2 "1h" (24 + 24)
      = Ok (Reference.date 2021 6 30).
Proof.
  apply (start_time_composes july_2 "1h" 24 24 july_1).
  - vm_compute. repeat split; discriminate.
  - vm_compute. reflexivity.
Defined.

(** ** storage/s3_storage.py *)

Section Store.

Import Storage.

Context {DataFrame : Type} (s3_client : services DataFrame).
Context (self : S3Storage).

Lemma store_candles_run (df : DataFrame) (exchange symbol : string)
    (overwrite : bool) (w : world) :
  store_candles s3_client self df exchange symbol overwrite w
  = let failed e w' :=
        (Returns false,
         {| calls := calls w';
            printed := (printed w'
                        ++ [("Error storing data in S3: " ++ str e)%string])%list |}) in
    match _get_s3_key s3_client self df exchange symbol with
    | Raises e => failed e w
    | Returns key =>
        let upload before :=
            match to_parquet s3_client df with
            | Raises e =>
                failed e {| calls := before; printed := printed w |}
            | Returns body =>
                let put := PutObject (bucket_name self) key body in
                let after := {| calls := (before ++ [put])%list;
                                printed := printed w |} in
                match answer s3_client before put with
                | Raises e => failed e after
                | Returns _ =>
                    (Returns true,
                     {| calls := calls after;
                        printed :=
                          (printed w
                           ++ [("Successfully stored data in S3: " ++ key)%string])%list
                     |})
                end
            end in
        if overwrite then upload (calls w)
        else
          let head := HeadObject (bucket_name self) key in
          match answer s3_client (calls w) head with
          | Returns _ =>
              (Returns false,
               {| calls := (calls w ++ [head])%list;
                  printed :=
                    (printed w ++ [("File already exists: " ++ key)%string])%list |})
          | Raises (ClientError _) => upload (calls w ++ [head])%list
          | Raises (Other x) =>
              failed (Other x) {| calls := (calls w ++ [head])%list;
                                  printed := printed w |}
          end
    end.
Proof.
  unfold store_candles, attempt, bind, lift, ret, print, client_call.
  cbv zeta.
  destruct (_get_s3_key s3_client self df exchange symbol) as [key|e];
    [|reflexivity].
  destruct w as [cs out].
  destruct overwrite; cbn [negb calls printed].
  - destruct (to_parquet s3_client df) as [body|e]; [|reflexivity].
    cbn [calls printed].
    destruct (answer s3_client cs _) as [[]|e]; reflexivity.
  - destruct (answer s3_client cs (HeadObject _ _)) as [[]|[msg|x]];
      try reflexivity.
    destruct (to_parquet s3_client df) as [body|e]; [|reflexivity].
    cbn [calls printed].
    destruct (answer s3_client _ (PutObject _ _ _)) as [[]|e]; reflexivity.
Qed.

End Store.

Lemma get_s3_key_timestamp {DataFrame : Type}
    (s3_client : Storage.services DataFrame) (self : Storage.S3Storage)
    (df : DataFrame) (exchange symbol : string) (t : datetime) :
  Storage.timestamp_min s3_client df = Storage.Returns (Storage.Timestamp t) ->
  Storage._get_s3_key s3_client self df exchange symbol
  = Storage.Returns
      ("candles/year=" ++ decimal (year t) ++ "/month=" ++ zpad 2 (month t)
       ++ (if Storage.partition_by_day self
           then "/day=" ++ zpad 2 (day t) else "")
       ++ "/exchange=" ++ exchange ++ "/symbol=" ++ symbol
       ++ "/data.parquet").
Proof.
  intros E. unfold Storage._get_s3_key. rewrite E.
  cbn [Storage.and_then Storage.strftime Storage.format].
  destruct (Storage.partition_by_day self); reflexivity.
Qed.

Lemma store_candles_returns {DataFrame : Type}
    (s3_client : Storage.services DataFrame) (self : Storage.S3Storage)
    (df : DataFrame) (exchange symbol : string) (overwrite : bool)
    (w : Storage.world) :
  exists success w',
    Storage.store_candles s3_client self df exchange symbol overwrite w
    = (Storage.Returns success, w').
Proof.
  rewrite store_candles_run. cbv zeta.
  repeat match goal with
         | |- context [match ?x with _ => _ end] => destruct x
         end;
    eexists; eexists; reflexivity.
Qed.

Lemma store_candles_uploaded {DataFrame : Type}
    (s3_client : Storage.services DataFrame) (self : Storage.S3Storage)
    (df : DataFrame) (exchange symbol : string) (overwrite : bool)
    (w w' : Storage.world) :
  Storage.store_candles s3_client self df exchange symbol overwrite w
  = (Storage.Returns true, w') ->
  exists key body before,
    Storage._get_s3_key s3_client self df exchange symbol
    = Storage.Returns key
    /\ Storage.calls w'
       = (before
          ++ [Storage.PutObject (Storage.bucket_name self) key body])%list.
Proof.
  rewrite store_candles_run. cbv zeta.
  destruct (Storage._get_s3_key s3_client self df exchange symbol)
    as [key|e]; [|discriminate].
  intros H. exists key.
  repeat match type of H with
         | context [match ?x with _ => _ end] => destruct x
         end;
    try discriminate;
    inversion H; subst; clear H; cbn [Storage.calls];
    eexists; eexists; (split; [reflexivity|reflexivity]).
Qed.

(** X18. [store_candles] never raises: whatever [pandas] and the S3
    client do, it returns a [bool], prints exactly one line, and calls
    the client at most twice, [head_object] (unless it may overwrite)
    before at most one [put_object], all for one key of its bucket. *)
Theorem store_candles_never_raises {DataFrame : Type}
    (s3_client : Storage.services DataFrame) (self : Storage.S3Storage)
    (df : DataFrame) (exchange symbol : string) (overwrite : bool)
    (w : Storage.world) :
  exists success new line,
    Storage.store_candles s3_client self df exchange symbol overwrite w
    = (Storage.Returns success,
       {| Storage.calls := (Storage.calls w ++ new)%list;
          Storage.printed := (Storage.printed w ++ [line])%list |})
    /\ store_calls overwrite (Storage.bucket_name self) new.
Proof.
  rewrite store_candles_run. cbv zeta. unfold store_calls, head_calls.
  destruct (Storage._get_s3_key s3_client self df exchange symbol)
    as [key|e].
  2:{ exists false, [], ("Error storing data in S3: " ++ Storage.str e).
      rewrite app_nil_r. auto. }
  destruct overwrite.
  - destruct (Storage.to_parquet s3_client df) as [body|e].
    + destruct (Storage.answer s3_client _ _) as [[]|e];
        cbn [Storage.calls Storage.printed];
        do 3 eexists; (split; [reflexivity|]);
        right; exists key; right; exists body; reflexivity.
    + cbn [Storage.calls Storage.printed].
      exists false, [], ("Error storing data in S3: " ++ Storage.str e).
      rewrite app_nil_r. auto.
  - destruct (Storage.answer s3_client (Storage.calls w) _)
      as [[]|[msg|x]];
      cbn [Storage.calls Storage.printed].
    + do 3 eexists. split; [reflexivity|]. right. exists key. auto.
    + destruct (Storage.to_parquet s3_client df) as [body|e].
      * destruct (Storage.answer s3_client _ _) as [[]|e];
          cbn [Storage.calls Storage.printed]; rewrite <- app_assoc;
          do 3 eexists; (split; [reflexivity|]);
          right; exists key; right; exists body; reflexivity.
      * cbn [Storage.calls Storage.printed].
        do 3 eexists. split; [reflexivity|]. right. exists key. auto.
    + do 3 eexists. split; [reflexivity|]. right. exists key. auto.
Qed.

(** X19. [store_candles] returns [True] exactly when the key could be
    built, [head_object] raised [ClientError] (when it was asked, that is
    without [overwrite]), the frame could be written as Parquet and
    [put_object] returned; then the upload is its last call, with the
    bucket of the storage, the key of [_get_s3_key] and the Parquet
    bytes as body. *)
Theorem store_candles_true {DataFrame : Type}
    (s3_client : Storage.services DataFrame) (self : Storage.S3Storage)
    (df : DataFrame) (exchange symbol : string) (overwrite : bool)
    (w w' : Storage.world) :
  Storage.store_candles s3_client self df exchange symbol overwrite w
  = (Storage.Returns true, w')
  <-> exists key body,
        let heads := head_calls overwrite (Storage.bucket_name self) key in
        let put := Storage.PutObject (Storage.bucket_name self) key body in
        Storage._get_s3_key s3_client self df exchange symbol
        = Storage.Returns key
        /\ Forall (fun head =>
                     exists msg,
                       Storage.answer s3_client (Storage.calls w) head
                       = Storage.Raises (Storage.ClientError msg)) heads
        /\ Storage.to_parquet s3_client df = Storage.Returns body
        /\ Storage.answer s3_client (Storage.calls w ++ heads)%list put
           = Storage.Returns tt
        /\ w' = {| Storage.calls := (Storage.calls w ++ heads ++ [put])%list;
                   Storage.printed :=
                     (Storage.printed w
                      ++ [("Successfully stored data in S3: " ++ key)%string])
                       %list |}.
Proof.
  rewrite store_candles_run. cbv zeta. unfold head_calls. split.
  - destruct (Storage._get_s3_key s3_client self df exchange symbol)
      as [key|e]; [|discriminate].
    destruct overwrite.
    + destruct (Storage.to_parquet s3_client df) as [body|e];
        [|discriminate].
      destruct (Storage.answer s3_client _ _) as [[]|e] eqn:Ea;
        [|discriminate].
      intros H. inversion H; subst; clear H.
      exists key, body. rewrite app_nil_r. cbn [app Storage.calls].
      repeat split; auto.
    + destruct (Storage.answer s3_client (Storage.calls w) _)
        as [[]|[msg|x]] eqn:Eh; try discriminate.
      destruct (Storage.to_parquet s3_client df) as [body|e];
        [|discriminate].
      destruct (Storage.answer s3_client _ (Storage.PutObject _ _ _))
        as [[]|e] eqn:Ea; [|discriminate].
      intros H. inversion H; subst; clear H.
      exists key, body. cbn [app Storage.calls].
      rewrite <- app_assoc. repeat split; eauto.
  - intros (key & body & Ek & Hh & Ep & Ea & ->).
    rewrite Ek, Ep. destruct overwrite.
    + rewrite app_nil_r in Ea. rewrite Ea. reflexivity.
    + inversion Hh as [|? ? [msg Eh] _]; subst. rewrite Eh, Ea.
      cbn [Storage.calls app]. rewrite <- app_assoc. reflexivity.
Qed.

(** X20. Without [overwrite], a key that [head_object] finds is left
    alone: [store_candles] returns [False], prints that the file exists,
    and makes no other call, so nothing is uploaded. *)
Theorem store_candles_keeps_existing {DataFrame : Type}
    (s3_client : Storage.services DataFrame) (self : Storage.S3Storage)
    (df : DataFrame) (exchange symbol key : string) (w : Storage.world) :
  Storage._get_s3_key s3_client self df exchange symbol
  = Storage.Returns key ->
  Storage.answer s3_client (Storage.calls w)
    (Storage.HeadObject (Storage.bucket_name self) key)
  = Storage.Returns tt ->
  Storage.store_candles s3_client self df exchange symbol false w
  = (Storage.Returns false,
     {| Storage.calls :=
          (Storage.calls w
           ++ [Storage.HeadObject (Storage.bucket_name self) key])%list;
        Storage.printed :=
          (Storage.printed w
           ++ [("File already exists: " ++ key)%string])%list |}).
Proof.
  intros Ek Eh. rewrite store_candles_run. cbv zeta.
  rewrite Ek, Eh. reflexivity.
Qed.

Lemma store_candles_keeps_existing_witness :
  Storage.store_candles (keeping_bucket stamp_frame no_parquet) monthly
    crypto_com_candle "binance" "BTC-BRL" false one_put
  = (Storage.Returns false,
     {| Storage.calls :=
          (Storage.calls one_put
           ++ [Storage.HeadObject "candles-bucket"
                 "candles/year=2021/month=07/exchange=binance/symbol=BTC-BRL/data.parquet"])%list;
        Storage.printed :=
          (Storage.printed one_put
           ++ ["File already exists: candles/year=2021/month=07/exchange=binance/symbol=BTC-BRL/data.parquet"])%list
     |}).
Proof.
  apply (store_candles_keeps_existing
           (keeping_bucket stamp_frame no_parquet) monthly crypto_com_candle
           "binance" "BTC-BRL"
           "candles/year=2021/month=07/exchange=binance/symbol=BTC-BRL/data.parquet"
           one_put).
  - vm_compute. reflexivity.
  - vm_compute. reflexivity.
Defined.



(** X22. In a bucket that keeps what is put into it, a storage that does
    not partition by day holds one file per month, exchange and symbol:
    once [store_candles] has returned [True] for a frame, a call without
    [overwrite] for a frame that starts in the same month, with the same
    exchange and symbol, returns [False] and uploads nothing. *)
Theorem second_batch_refused {DataFrame : Type}
    (timestamp_min : DataFrame -> Storage.outcome Storage.scalar)
    (to_parquet : DataFrame -> Storage.outcome (list Init.Byte.byte))
    (self : Storage.S3Storage) (df1 df2 : DataFrame)
    (exchange symbol : string) (overwrite : bool) (t1 t2 : datetime)
    (w w1 : Storage.world) :
  Storage.partition_by_day self = false ->
  timestamp_min df1 = Storage.Returns (Storage.Timestamp t1) ->
  timestamp_min df2 = Storage.Returns (Storage.Timestamp t2) ->
  year t1 = year t2 -> month t1 = month t2 ->
  Storage.store_candles (keeping_bucket timestamp_min to_parquet) self
    df1 exchange symbol overwrite w = (Storage.Returns true, w1) ->
  exists key,
    Storage.store_candles (keeping_bucket timestamp_min to_parquet) self
      df2 exchange symbol false w1
    = (Storage.Returns false,
       {| Storage.calls :=
            (Storage.calls w1
             ++ [Storage.HeadObject (Storage.bucket_name self) key])%list;
          Storage.printed :=
            (Storage.printed w1
             ++ [("File already exists: " ++ key)%string])%list |}).
Proof.
  intros Hp E1 E2 Ey Em H.
  set (S := keeping_bucket timestamp_min to_parquet) in *.
  apply store_candles_uploaded in H.
  destruct H as (key & body & before & Ek & Ec).
  exists key.
  assert (Storage._get_s3_key S self df2 exchange symbol
          = Storage.Returns key) as Ek2.
  { rewrite (get_s3_key_timestamp S self df2 _ _ t2 E2).
    rewrite (get_s3_key_timestamp S self df1 _ _ t1 E1) in Ek.
    rewrite Hp in *. rewrite <- Ey, <- Em. exact Ek. }
  rewrite store_candles_run. cbv zeta. rewrite Ek2.
  cbn [Storage.answer S keeping_bucket]. rewrite Ec.
  replace (existsb _ _) with true; [reflexivity|].
  symmetry. apply existsb_exists.
  exists (Storage.PutObject (Storage.bucket_name self) key body).
  split.
  - apply in_or_app. right. left. reflexivity.
  - cbn [puts]. rewrite !String.eqb_refl. reflexivity.
Qed.

Lemma second_batch_refused_witness :
  exists key,
    Storage.store_candles (keeping_bucket stamp_frame no_parquet) monthly
      next_day_candle "binance" "BTC-BRL" false one_put
    = (Storage.Returns false,
       {| Storage.calls :=
            (Storage.calls one_put
             ++ [Storage.HeadObject (Storage.bucket_name monthly) key])%list;
          Storage.printed :=
            (Storage.printed one_put
             ++ [("File already exists: " ++ key)%string])%list |}).
Proof.
  apply (second_batch_refused stamp_frame no_parquet monthly
           crypto_com_candle next_day_candle "binance" "BTC-BRL" true
           july_1 july_2 empty_world one_put);
    vm_compute; reflexivity.
Defined.

Lemma set_item_new (results : list (string * bool)) (exchange : string)
    (success : bool) :
  ~ In exchange (map fst results) ->
  Storage.set_item results exchange success
  = (results ++ [(exchange, success)])%list.
Proof.
  induction results as [|[k v] rest IH]; intros Hn; [reflexivity|].
  cbn [Storage.set_item]. cbn [map fst In] in Hn.
  destruct (String.eqb_spec k exchange) as [->|Hne]; [tauto|].
  cbn [app]. f_equal. apply IH. tauto.
Qed.

Lemma store_each_stored {DataFrame : Type}
    (s3_client : Storage.services DataFrame) (self : Storage.S3Storage)
    (symbol : string) (overwrite : bool) (items : list (string * DataFrame)) :
  forall (acc : list (string * bool)) (w : Storage.world),
    NoDup (map fst acc ++ map fst items) ->
    exists results w',
      Storage.store_each s3_client self items symbol overwrite acc w
      = (Storage.Returns (acc ++ results)%list, w')
      /\ stored s3_client self symbol overwrite w items results w'.
Proof.
  induction items as [|[exchange df] rest IH]; intros acc w Hnd.
  - exists [], w. rewrite app_nil_r. split; [reflexivity|constructor].
  - cbn [Storage.store_each]. unfold Storage.bind.
    destruct (store_candles_returns s3_client self df exchange symbol
                overwrite w) as (success & w1 & E).
    rewrite E. cbn [map fst] in Hnd.
    assert (~ In exchange (map fst acc)) as Hnew.
    { apply NoDup_remove_2 in Hnd. intros Hin. apply Hnd.
      apply in_or_app. left. exact Hin. }
    rewrite (set_item_new acc exchange success Hnew).
    destruct (IH (acc ++ [(exchange, success)])%list w1)
      as (results & w' & Er & Hs).
    { rewrite map_app. cbn [map fst]. rewrite <- app_assoc. exact Hnd. }
    exists ((exchange, success) :: results), w'. split.
    + rewrite Er, <- app_assoc. reflexivity.
    + econstructor; [exact E|exact Hs].
Qed.

(** X23. [store_multiple_exchanges] never raises. For a [dict] of frames
    (its keys are distinct) the result pairs each exchange, in the order
    of the [dict], with what [store_candles] returned for its frame; the
    calls are made one after the other, a failure of one not stopping the
    next. *)
Theorem store_multiple_exchanges_results {DataFrame : Type}
    (s3_client : Storage.services DataFrame) (self : Storage.S3Storage)
    (dfs : list (string * DataFrame)) (symbol : string) (overwrite : bool)
    (w : Storage.world) :
  NoDup (map fst dfs) ->
  exists results w',
    Storage.store_multiple_exchanges s3_client self dfs symbol overwrite w
    = (Storage.Returns results, w')
    /\ stored s3_client self symbol overwrite w dfs results w'
    /\ map fst results = map fst dfs.
Proof.
  intros Hnd.
  destruct (store_each_stored s3_client self symbol overwrite dfs [] w Hnd)
    as (results & w' & E & Hs).
  exists results, w'. split; [exact E|]. split; [exact Hs|].
  clear E. induction Hs; [reflexivity|].
  cbn [map fst]. f_equal. apply IHHs.
  cbn [map fst] in Hnd. inversion Hnd. assumption.
Qed.

Lemma store_multiple_exchanges_results_witness :
  exists results w',
    Storage.store_multiple_exchanges
      (keeping_bucket text_frame no_parquet) monthly
      [("crypto_com", crypto_com_candle); ("okx", next_day_candle)]
      "BTC-BRL" false empty_world
    = (Storage.Returns results, w')
    /\ stored (keeping_bucket text_frame no_parquet) monthly "BTC-BRL" false
         empty_world
         [("crypto_com", crypto_com_candle); ("okx", next_day_candle)]
         results w'
    /\ map fst results = ["crypto_com"; "okx"].
Proof.
  apply (store_multiple_exchanges_results
           (keeping_bucket text_frame no_parquet) monthly
           [("crypto_com", crypto_com_candle); ("okx", next_day_candle)]
           "BTC-BRL" false empty_world).
  repeat constructor; cbn [In map fst]; intuition discriminate.
Defined.
